(** * nestjs-platform-bun: the request pipeline of [BunAdapter]

  A shallow embedding of [src/express-compat.ts], [src/fastify-compat.ts]
  and [src/bun-adapter.ts] (the dispatcher), with the properties of the
  request-handling pipeline stated over it.

  Conventions of the embedding.
  - A JavaScript string is a [string] (characters with codes 0..255, which
    is exact for header values and URL paths).
  - [Record<string, string>] objects ([query], [cookies], [params]) are
    [gmap string string]; property assignment is [obj_set].
  - [Headers] is an association list with lower-cased names and values
    without white space at their ends.
  - The operations of the runtime that throw on some arguments ([Headers]
    on a name or value, [new Response] on a status, [Response.redirect] on
    a status or URL) are total here, and the arguments they take are given
    by a test ([accepts_header], [Response_init_ok],
    [Response_redirect_ok], and [buildable] for what a response builder
    hands over); statements about arguments that the source does not fix
    ask for the test.
  - What the runtime provides ([URL], [URLSearchParams], [Headers],
    [Response], the body readers of [Request], [JSON.stringify], regular
    expressions) is modelled in [Js], [Platform] and [Routing] as far as
    the adapter uses it.
  - User code (handlers, middleware, hooks, plugins) is a function on the
    per-request [World]; what it signals to the dispatcher (calls of
    [next]/[done], return value, exception, promise) is a [Signal].
  - [async]/[await] with [try]/[catch] is a state monad with three
    outcomes: a value, an exception, or a promise that never settles.
  - The dispatcher records each call of user code in a trace, which the
    properties about "which callback runs, and in which order" read.

  Layout: the embedding ([Str], [Js], [Platform], [Express], [Fastify],
  [Routing], [Pipeline], [Adapter]), then the definitions that follow the
  wording of the specification ([Spec]) and concrete inputs ([Examples]),
  then the remaining methods of the two compatibility layers and of the
  adapter ([ExpressMore], [FastifyMore], [AdapterMore], [Server]) with the
  predicates and inputs of their statements ([Shape], [Cases]), then the
  properties. *)

From Stdlib Require Import ZArith String Ascii List Bool Lia DecimalString.
From stdpp Require Import base option list strings gmap.

#[local] Open Scope Z_scope.
#[local] Set Warnings "-register-all".

(* ===================================================================== *)
(** * JavaScript strings                                                  *)
(* ===================================================================== *)

Module Str.

Definition chr (n : nat) : ascii := Ascii.ascii_of_nat n.

(** The one-character string made of a double quote. *)
Definition dquote : string := String (chr 34) EmptyString.

Definition is_upper (a : ascii) : bool :=
  let n := Ascii.nat_of_ascii a in (Nat.leb 65 n && Nat.leb n 90)%bool.
Definition is_lower (a : ascii) : bool :=
  let n := Ascii.nat_of_ascii a in (Nat.leb 97 n && Nat.leb n 122)%bool.
Definition is_digit (a : ascii) : bool :=
  let n := Ascii.nat_of_ascii a in (Nat.leb 48 n && Nat.leb n 57)%bool.

Definition lower_char (a : ascii) : ascii :=
  if is_upper a then chr (Ascii.nat_of_ascii a + 32) else a.
Definition upper_char (a : ascii) : ascii :=
  if is_lower a then chr (Ascii.nat_of_ascii a - 32) else a.

Fixpoint map_chars (f : ascii → ascii) (s : string) : string :=
  match s with
  | EmptyString => EmptyString
  | String a s' => String (f a) (map_chars f s')
  end.

(** [s.toLowerCase()] and [s.toUpperCase()] for a string of ASCII
    characters, which is what the adapter applies them to: HTTP methods and
    header names are tokens. Outside ASCII the methods of JavaScript follow
    the Unicode case mappings, which these definitions do not
    ([toUpperCase] may even change the length there). For the look-up of
    an extension in [getMimeType] the difference does not show: the keys of
    the table are ASCII, and no character outside ASCII among the codes
    0..255 is lower-cased into ASCII. *)
Definition toLowerCase : string → string := map_chars lower_char.
Definition toUpperCase : string → string := map_chars upper_char.

(** [s.startsWith(p)]. *)
Fixpoint startsWith (s p : string) {struct p} : bool :=
  match p, s with
  | EmptyString, _ => true
  | String b p', String a s' => if Ascii.eqb a b then startsWith s' p' else false
  | String _ _, EmptyString => false
  end.

(** [s.includes(sub)]. *)
Fixpoint includes (s sub : string) : bool :=
  if startsWith s sub then true
  else match s with
       | EmptyString => false
       | String _ s' => includes s' sub
       end.

(** [s.endsWith(c)] for a one-character [c]. *)
Fixpoint endsWithChar (s : string) (c : ascii) : bool :=
  match s with
  | EmptyString => false
  | String a EmptyString => Ascii.eqb a c
  | String _ s' => endsWithChar s' c
  end.

(** [s.slice(0, -1)]. *)
Fixpoint dropLast (s : string) : string :=
  match s with
  | EmptyString => EmptyString
  | String _ EmptyString => EmptyString
  | String a s' => String a (dropLast s')
  end.

(** [s.split(c)] for a one-character separator: never the empty list. *)
Fixpoint split (c : ascii) (s : string) : list string :=
  match s with
  | EmptyString => [EmptyString]
  | String a s' =>
      if Ascii.eqb a c then EmptyString :: split c s'
      else match split c s' with
           | [] => [String a EmptyString]
           | w :: ws => String a w :: ws
           end
  end.

(** [parts.join(sep)]. *)
Fixpoint join (sep : string) (parts : list string) : string :=
  match parts with
  | [] => EmptyString
  | [p] => p
  | p :: ps => p +:+ sep +:+ join sep ps
  end.

(** White space removed by [trim] among the characters 0..255: TAB, LF, VT,
    FF, CR, SPACE and NBSP. *)
Definition is_ws (a : ascii) : bool :=
  let n := Ascii.nat_of_ascii a in
  (Nat.leb 9 n && Nat.leb n 13 || Nat.eqb n 32 || Nat.eqb n 160)%bool.

Fixpoint trimStart (s : string) : string :=
  match s with
  | EmptyString => EmptyString
  | String a s' => if is_ws a then trimStart s' else s
  end.

Fixpoint trimEnd (s : string) : string :=
  match s with
  | EmptyString => EmptyString
  | String a s' =>
      match trimEnd s' with
      | EmptyString => if is_ws a then EmptyString else String a EmptyString
      | t => String a t
      end
  end.

(** [s.trim()]. *)
Definition trim (s : string) : string := trimEnd (trimStart s).

(** Decimal rendering of an integer, as [String(n)] gives it. *)
Definition of_Z (n : Z) : string := NilZero.string_of_int (Z.to_int n).

Definition eqb (a b : string) : bool := bool_decide (a = b).

End Str.

(* ===================================================================== *)
(** * JavaScript values                                                   *)
(* ===================================================================== *)

Module Js.

(** The values that flow through the pipeline as bodies, payloads, handler
    results and thrown errors. Numbers are integers; byte containers carry
    their bytes as a string. *)
Inductive JsValue : Type :=
| JUndefined
| JNull
| JBool (b : bool)
| JNum (n : Z)
| JStr (s : string)
| JBuffer (bytes : string)        (* Node [Buffer], a [Uint8Array] subclass *)
| JUint8Array (bytes : string)    (* a plain [Uint8Array] *)
| JArrayBuffer (bytes : string)
| JStream (id : nat)              (* [ReadableStream], opaque *)
| JBlob (content : string)
| JError (message : string)       (* an instance of [Error] *)
| JArr (items : list JsValue)
| JObj (props : list (string * JsValue))
| JResponse (status : Z) (statusText : string)
            (headers : list (string * string)) (body : JsValue).

(** [if (v)]: truthiness. *)
Definition truthy (v : JsValue) : bool :=
  match v with
  | JUndefined | JNull => false
  | JBool b => b
  | JNum n => negb (n =? 0)
  | JStr s => negb (Str.eqb s EmptyString)
  | _ => true
  end.

(** [v === undefined || v === null]. *)
Definition nullish (v : JsValue) : bool :=
  match v with JUndefined | JNull => true | _ => false end.

Definition is_undefined (v : JsValue) : bool :=
  match v with JUndefined => true | _ => false end.

(** [a ?? b]. *)
Definition coalesce (a b : JsValue) : JsValue := if nullish a then b else a.

(** [typeof v === "string"]. *)
Definition is_string (v : JsValue) : bool :=
  match v with JStr _ => true | _ => false end.

(** [typeof v === "object"] (which holds of [null]). *)
Definition typeof_object (v : JsValue) : bool :=
  match v with
  | JUndefined | JBool _ | JNum _ | JStr _ => false
  | _ => true
  end.

(** [Buffer.isBuffer(v)]. *)
Definition isBuffer (v : JsValue) : bool :=
  match v with JBuffer _ => true | _ => false end.

(** [v instanceof Uint8Array || v instanceof ArrayBuffer]. *)
Definition is_bytes (v : JsValue) : bool :=
  match v with JBuffer _ | JUint8Array _ | JArrayBuffer _ => true | _ => false end.

Definition is_stream (v : JsValue) : bool :=
  match v with JStream _ => true | _ => false end.
Definition is_blob (v : JsValue) : bool :=
  match v with JBlob _ => true | _ => false end.
Definition is_Response (v : JsValue) : bool :=
  match v with JResponse _ _ _ _ => true | _ => false end.

(** [v instanceof Error]. *)
Definition is_Error (v : JsValue) : bool :=
  match v with JError _ => true | _ => false end.

(** [String(v)]. *)
Fixpoint toString (v : JsValue) : string :=
  match v with
  | JUndefined => "undefined"
  | JNull => "null"
  | JBool true => "true"
  | JBool false => "false"
  | JNum n => Str.of_Z n
  | JStr s => s
  | JBuffer bytes => bytes
  | JUint8Array bytes =>
      Str.join "," (map (λ a, Str.of_Z (Z.of_nat (Ascii.nat_of_ascii a)))
                        (list_ascii_of_string bytes))
  | JArrayBuffer _ => "[object ArrayBuffer]"
  | JStream _ => "[object ReadableStream]"
  | JBlob _ => "[object Blob]"
  | JError EmptyString => "Error"
  | JError m => "Error: " +:+ m
  | JArr items =>
      Str.join "," (map (λ x, if nullish x then EmptyString else toString x) items)
  | JObj _ => "[object Object]"
  | JResponse _ _ _ _ => "[object Response]"
  end.

(** ** [JSON.stringify] *)

Definition hex_digit (n : nat) : ascii :=
  if Nat.ltb n 10 then Str.chr (48 + n) else Str.chr (87 + n).

Definition escape_char (a : ascii) : string :=
  let n := Ascii.nat_of_ascii a in
  if Nat.eqb n 34 then String (Str.chr 92) Str.dquote
  else if Nat.eqb n 92 then String (Str.chr 92) (String (Str.chr 92) EmptyString)
  else if Nat.eqb n 8 then String (Str.chr 92) "b"
  else if Nat.eqb n 9 then String (Str.chr 92) "t"
  else if Nat.eqb n 10 then String (Str.chr 92) "n"
  else if Nat.eqb n 12 then String (Str.chr 92) "f"
  else if Nat.eqb n 13 then String (Str.chr 92) "r"
  else if Nat.ltb n 32 then
    String (Str.chr 92) ("u00" +:+ String (hex_digit (Nat.div n 16))
                                   (String (hex_digit (Nat.modulo n 16)) EmptyString))
  else String a EmptyString.

Fixpoint escape (s : string) : string :=
  match s with
  | EmptyString => EmptyString
  | String a s' => escape_char a +:+ escape s'
  end.

Definition quote (s : string) : string := Str.dquote +:+ escape s +:+ Str.dquote.

Definition byte_list (bytes : string) : list string :=
  map (λ a, Str.of_Z (Z.of_nat (Ascii.nat_of_ascii a))) (list_ascii_of_string bytes).

Fixpoint indexed_from (i : nat) (l : list string) : list string :=
  match l with
  | [] => []
  | x :: l' => (quote (Str.of_Z (Z.of_nat i)) +:+ ":" +:+ x) :: indexed_from (S i) l'
  end.

(** [JSON.stringify(v)]; [None] is the result [undefined]. Properties whose
    value has no rendering are left out of objects and rendered as [null]
    in arrays. *)
Fixpoint stringify (v : JsValue) : option string :=
  match v with
  | JUndefined => None
  | JNull => Some "null"
  | JBool true => Some "true"
  | JBool false => Some "false"
  | JNum n => Some (Str.of_Z n)
  | JStr s => Some (quote s)
  | JBuffer b =>
      Some ("{" +:+ quote "type" +:+ ":" +:+ quote "Buffer" +:+ ","
                +:+ quote "data" +:+ ":[" +:+ Str.join "," (byte_list b) +:+ "]}")
  | JUint8Array b => Some ("{" +:+ Str.join "," (indexed_from 0 (byte_list b)) +:+ "}")
  | JArrayBuffer _ | JStream _ | JBlob _ | JError _ | JResponse _ _ _ _ => Some "{}"
  | JArr items =>
      Some ("[" +:+ Str.join "," (map (λ x, default "null" (stringify x)) items) +:+ "]")
  | JObj props =>
      Some ("{" +:+ Str.join ","
              (omap (λ kv, match stringify (snd kv) with
                           | Some r => Some (quote (fst kv) +:+ ":" +:+ r)
                           | None => None
                           end) props) +:+ "}")
  end.

(** The result of [JSON.stringify] as a value. *)
Definition JSON_stringify (v : JsValue) : JsValue :=
  match stringify v with Some s => JStr s | None => JUndefined end.

(** [err instanceof Error ? err.message : fallback]. *)
Definition message_or (fallback : string) (err : JsValue) : JsValue :=
  match err with JError m => JStr m | _ => JStr fallback end.

(** [err.message] read from an arbitrary value. *)
Definition message_of (err : JsValue) : JsValue :=
  match err with
  | JError m => JStr m
  | JObj props => default JUndefined (snd <$> find (λ kv, Str.eqb (fst kv) "message") props)
  | _ => JUndefined
  end.

(** [v instanceof Error ? v : new Error(String(v))]. *)
Definition as_Error (v : JsValue) : JsValue :=
  if is_Error v then v else JError (toString v).

End Js.

(* ===================================================================== *)
(** * Plain objects used as maps, [Headers], [URLSearchParams], [Response] *)
(* ===================================================================== *)

Module Platform.
Import Js.

(** [obj[key] = value] on a plain object holding strings. The key
    [__proto__] names the prototype accessor: assigning a string to it
    creates no property. *)
Definition obj_set (obj : gmap string string) (key value : string) : gmap string string :=
  if Str.eqb key "__proto__" then obj else <[key := value]> obj.

(** ** [Headers]: names are lower-cased; a name may be held several times
    (after [append]).

    [set] and [append] first remove the HTTP white space (TAB, LF, CR,
    SPACE) from both ends of the value, and throw a [TypeError] unless the
    name is a token and the value, so normalized, holds printable characters
    and tabs only: [accepts_header] is that test. The two methods are
    modelled by the test and by the table they leave when it passes; the
    statements that write a value not fixed by the source ask for it. *)
Definition Headers : Type := list (string * string).

Definition is_http_ws (a : ascii) : bool :=
  let n := Ascii.nat_of_ascii a in
  (Nat.eqb n 9 || Nat.eqb n 10 || Nat.eqb n 13 || Nat.eqb n 32)%bool.

Fixpoint strip_start (s : string) : string :=
  match s with
  | EmptyString => EmptyString
  | String a s' => if is_http_ws a then strip_start s' else s
  end.

Fixpoint strip_end (s : string) : string :=
  match s with
  | EmptyString => EmptyString
  | String a s' =>
      match strip_end s' with
      | EmptyString => if is_http_ws a then EmptyString else String a EmptyString
      | t => String a t
      end
  end.

(** The value as [Headers] stores it. *)
Definition normalize (value : string) : string := strip_end (strip_start value).

(** A token character: a letter, a digit or one of [! # $ % & ' * + - . ^ _
    ` | ~]. *)
Definition is_tchar (a : ascii) : bool :=
  (Str.is_lower a || Str.is_upper a || Str.is_digit a
   || existsb (Ascii.eqb a) (list_ascii_of_string "!#$%&'*+-.^_`|~"))%bool.

Definition is_token (name : string) : bool :=
  (negb (Str.eqb name EmptyString) && forallb is_tchar (list_ascii_of_string name))%bool.

(** A tab or a printable ASCII character. *)
Definition is_field_char (a : ascii) : bool :=
  let n := Ascii.nat_of_ascii a in
  (Nat.eqb n 9 || (Nat.leb 32 n && Nat.leb n 126))%bool.

Definition is_field_value (value : string) : bool :=
  forallb is_field_char (list_ascii_of_string (normalize value)).

Definition accepts_header (name value : string) : bool :=
  (is_token name && is_field_value value)%bool.

Definition h_is (name : string) (entry : string * string) : bool :=
  Str.eqb (fst entry) (Str.toLowerCase name).

(** [headers.has(name)]. *)
Definition h_has (h : Headers) (name : string) : bool :=
  existsb (h_is name) h.

(** [headers.get(name)]: the values held for the name joined by a comma and
    a space, [None] for [null]. *)
Definition h_get (h : Headers) (name : string) : option string :=
  match filter (λ e, h_is name e = true) h with
  | [] => None
  | es => Some (Str.join ", " (map snd es))
  end.

(** [headers.delete(name)]. *)
Definition h_delete (h : Headers) (name : string) : Headers :=
  filter (λ e, h_is name e = false) h.

Fixpoint h_replace_first (h : Headers) (name value : string) : Headers :=
  match h with
  | [] => []
  | e :: h' =>
      if h_is name e then (fst e, value) :: h_delete h' name
      else e :: h_replace_first h' name value
  end.

(** [headers.set(name, value)]: the first entry of that name takes the
    normalized value and the others go; a new name is added at the end. *)
Definition h_set (h : Headers) (name value : string) : Headers :=
  if h_has h name then h_replace_first h name (normalize value)
  else h ++ [(Str.toLowerCase name, normalize value)].

(** [headers.append(name, value)]. *)
Definition h_append (h : Headers) (name value : string) : Headers :=
  h ++ [(Str.toLowerCase name, normalize value)].

Fixpoint h_names (h : Headers) (seen : list string) : list string :=
  match h with
  | [] => []
  | e :: h' =>
      if existsb (Str.eqb (fst e)) seen then h_names h' seen
      else fst e :: h_names h' (fst e :: seen)
  end.

(** What [headers.forEach] visits: one pair per name with the combined
    value, except [set-cookie], whose values are visited one by one. (The
    platform visits the names in sorted order; the callers below build maps,
    for which the order of distinct names is immaterial.) *)
Definition h_entries (h : Headers) : list (string * string) :=
  flat_map (λ name,
              if Str.eqb name "set-cookie"
              then filter (λ e, h_is name e = true) h
              else match h_get h name with
                   | Some v => [(name, v)]
                   | None => []
                   end)
           (h_names h []).

(** ** [application/x-www-form-urlencoded] parsing, as [URLSearchParams]
    does it: split on [&], drop empty sequences, split each at the first
    [=], turn [+] into a space and percent-decode. (The final UTF-8 decoding
    is the identity on ASCII.) *)

Definition hex_val (a : ascii) : option nat :=
  let n := Ascii.nat_of_ascii a in
  if Str.is_digit a then Some (n - 48)%nat
  else if (Nat.leb 65 n && Nat.leb n 70)%bool then Some (n - 55)%nat
  else if (Nat.leb 97 n && Nat.leb n 102)%bool then Some (n - 87)%nat
  else None.

Fixpoint percent_decode (s : string) : string :=
  match s with
  | EmptyString => EmptyString
  | String a s' =>
      let keep := String a (percent_decode s') in
      if Ascii.eqb a "%" then
        match s' with
        | String h (String l rest) =>
            match hex_val h, hex_val l with
            | Some x, Some y =>
                String (Str.chr (16 * x + y)) (percent_decode rest)
            | _, _ => keep
            end
        | _ => keep
        end
      else keep
  end.

Definition plus_to_space (s : string) : string :=
  Str.map_chars (λ a, if Ascii.eqb a "+" then " "%char else a) s.

Definition form_decode (s : string) : string := percent_decode (plus_to_space s).

Definition parse_pair (seq : string) : string * string :=
  match Str.split "=" seq with
  | [] => (EmptyString, EmptyString)
  | name :: rest => (form_decode name, form_decode (Str.join "=" rest))
  end.

(** [new URLSearchParams(text)] as the list of its pairs, left to right. *)
Definition URLSearchParams (text : string) : list (string * string) :=
  map parse_pair
      (filter (λ seq, seq ≠ EmptyString)
              (Str.split "&" (match text with
                              | String "?" t => t
                              | _ => text
                              end))).

(** ** [Response]

    The record holds what a response was constructed with. A [Content-Type]
    that the runtime derives from the body when it writes the response out
    is not part of [headers]. *)
Record Response : Type := mkResponse {
  status : Z;
  statusText : string;
  headers : Headers;
  body : JsValue;     (* [JNull] for no body *)
}.

(** The statuses that go without a body. *)
Definition null_body_status (st : Z) : bool :=
  existsb (Z.eqb st) [101; 103; 204; 205; 304].

(** A reason phrase: tabs, spaces and visible characters. *)
Definition is_reason_phrase (text : string) : bool :=
  forallb (λ a, let n := Ascii.nat_of_ascii a in
                (Nat.eqb n 9 || (Nat.leb 32 n && negb (Nat.eqb n 127)))%bool)
          (list_ascii_of_string text).

(** [new Response(body, { status, statusText, headers })] throws a
    [RangeError] for a status outside 200..599 and a [TypeError] for a
    status text that is no reason phrase, for a body given with a status
    that goes without one, and for a stream that was read before (which the
    embedding does not tell from a fresh one). [Response_init_ok] holds of
    arguments that pass all of this. The constructor is modelled by that
    test and by the response it returns when the test passes; the statements
    about a response built from arguments that the source does not fix ask
    for the test. *)
Definition Response_init_ok (b : JsValue) (st : Z) (text : string) : bool :=
  ((200 <=? st) && (st <=? 599) && is_reason_phrase text
   && (nullish b || negb (null_body_status st)) && negb (is_stream b))%bool.

Definition new_Response (b : JsValue) (st : Z) (text : string) (h : Headers) : Response :=
  {| status := st; statusText := text; headers := h; body := b |}.

(** The statuses that [Response.redirect] takes. *)
Definition redirect_status (st : Z) : bool :=
  existsb (Z.eqb st) [301; 302; 303; 307; 308].

Definition is_lower_word (s : string) : bool :=
  (negb (Str.eqb s EmptyString) && forallb Str.is_lower (list_ascii_of_string s))%bool.

Definition is_segment_char (a : ascii) : bool :=
  (Str.is_lower a || Str.is_upper a || Str.is_digit a
   || Ascii.eqb a "_" || Ascii.eqb a "-")%bool.

Definition is_url_char (a : ascii) : bool :=
  (is_segment_char a || existsb (Ascii.eqb a) (list_ascii_of_string ":/."))%bool.

(** An absolute URL in the form in which the platform would write it out
    again: [http://] or [https://], a host made of words of lower-case
    letters joined by dots, and a path that starts with a slash and holds
    letters, digits, [/], [_] and [-] only (so no port, no dot segment, no
    escape, no query and no fragment). *)
Definition is_serialized_url (url : string) : bool :=
  forallb is_url_char (list_ascii_of_string url) &&
  let after :=
    if Str.startsWith url "http://" then Some (String.substring 7 (String.length url) url)
    else if Str.startsWith url "https://"
         then Some (String.substring 8 (String.length url) url)
         else None in
  match after with
  | None => false
  | Some rest =>
      match Str.split "/" rest with
      | host :: segment :: segments =>
          (forallb is_lower_word (Str.split "." host)
           && forallb (λ seg, forallb is_segment_char (list_ascii_of_string seg))
                      (segment :: segments))%bool
      | _ => false
      end
  end.

(** [Response.redirect(url, status)] throws a [RangeError] for a status that
    is no redirect status and a [TypeError] for a URL it cannot parse;
    otherwise the response has no body, and its [Location] is the URL
    parsed and written out again. [Response_redirect_ok] holds of a redirect
    status and a URL for which that is the URL itself; the statements about
    a redirect ask for it. *)
Definition Response_redirect_ok (url : string) (st : Z) : bool :=
  (is_serialized_url url && redirect_status st)%bool.

Definition Response_redirect (url : string) (st : Z) : Response :=
  {| status := st; statusText := EmptyString;
     headers := [("location", url)]; body := JNull |}.

Definition Response_of_value (v : JsValue) : option Response :=
  match v with
  | JResponse st txt h b => Some (mkResponse st txt h b)
  | _ => None
  end.

(** ** The raw request handed over by [Bun.serve]. The URL arrives parsed
    by [new URL]; reading the body either yields a value or fails. *)
Record BunRequest : Type := mkBunRequest {
  br_method : string;
  br_pathname : string;                 (* [url.pathname] *)
  br_search : string;                   (* [url.search], with its [?] *)
  br_hostname : string;
  br_headers : Headers;
  br_json : option JsValue;             (* [await request.json()] *)
  br_text : option string;              (* [await request.text()] *)
  br_formData : option (list (string * JsValue));  (* [await request.formData()] *)
}.

End Platform.

(* ===================================================================== *)
(** * [express-compat.ts]                                                 *)
(* ===================================================================== *)

Module Express.
Import Js Platform.

(** A value of the [headers] object of the request: [string | string[]]. *)
Inductive HeaderVal : Type :=
| HOne (v : string)
| HMany (vs : list string).

(** The request view. Of the fields of the source, [originalUrl] (equal to
    [url]), [baseUrl], [ips], [protocol], [secure], [subdomains], [xhr] and
    [signedCookies] are left out, as are the content-negotiation methods:
    the dispatcher and the properties below do not read them. *)
Record ExpressRequest : Type := mkExpressRequest {
  raw : BunRequest;
  method : string;
  url : string;
  path : string;
  hostname : string;
  ip : string;
  params : gmap string string;
  query : gmap string string;
  body : JsValue;
  cookies : gmap string string;
  headers : gmap string HeaderVal;
}.

(** The callback of [bunRequest.headers.forEach] in [createExpressRequest]. *)
Definition add_header (hs : gmap string HeaderVal) (key value : string) : gmap string HeaderVal :=
  match hs !! key with
  | Some (HMany vs) => <[key := HMany (vs ++ [value])]> hs
  | Some (HOne v) =>
      if Str.eqb v EmptyString then <[key := HOne value]> hs
      else <[key := HMany [v; value]]> hs
  | None => <[key := HOne value]> hs
  end.

(** [url.searchParams.forEach((value, key) => { query[key] = value; })]. *)
Definition parse_query (search : string) : gmap string string :=
  foldl (λ q kv, obj_set q (fst kv) (snd kv)) ∅ (URLSearchParams search).

(** The callback of [cookieHeader.split(";").forEach]:
    [const [name, ...rest] = cookie.trim().split("=");
     if (name) cookies[name] = rest.join("=")]. *)
Definition add_cookie (cs : gmap string string) (cookie : string) : gmap string string :=
  match Str.split "=" (Str.trim cookie) with
  | [] => cs
  | name :: rest =>
      if Str.eqb name EmptyString then cs
      else obj_set cs name (Str.join "=" rest)
  end.

Definition parse_cookies (h : Headers) : gmap string string :=
  match h_get h "cookie" with
  | None => ∅
  | Some cookieHeader =>
      if Str.eqb cookieHeader EmptyString then ∅
      else foldl add_cookie ∅ (Str.split ";" cookieHeader)
  end.

(** [get("x-forwarded-for")?.split(",")[0]?.trim() ?? get("x-real-ip") ?? "127.0.0.1"]. *)
Definition client_ip (h : Headers) : string :=
  match h_get h "x-forwarded-for" with
  | Some xff =>
      match Str.split "," xff with
      | first :: _ => Str.trim first
      | [] => default "127.0.0.1" (h_get h "x-real-ip")
      end
  | None => default "127.0.0.1" (h_get h "x-real-ip")
  end.

Definition createExpressRequest (bunRequest : BunRequest) (params : gmap string string)
  : ExpressRequest :=
  {| raw := bunRequest;
     method := br_method bunRequest;
     url := br_pathname bunRequest +:+ br_search bunRequest;
     path := br_pathname bunRequest;
     hostname := br_hostname bunRequest;
     ip := client_ip (br_headers bunRequest);
     params := params;
     query := parse_query (br_search bunRequest);
     body := JUndefined;
     cookies := parse_cookies (br_headers bunRequest);
     headers := foldl (λ hs kv, add_header hs (fst kv) (snd kv)) ∅
                      (h_entries (br_headers bunRequest)) |}.

Definition set_req_body (r : ExpressRequest) (b : JsValue) : ExpressRequest :=
  {| raw := raw r; method := method r; url := url r; path := path r;
     hostname := hostname r; ip := ip r; params := params r; query := query r;
     body := b; cookies := cookies r; headers := headers r |}.

(** ** The response builder.

    [createExpressResponse] keeps its state twice: in the variables of the
    closure ([statusCode], [body], [ended], ...), which the methods and
    [_buildResponse] read, and in the fields of the returned object
    ([_statusCode], [_body], [_ended], ...), which the dispatcher reads. The
    [Headers] object is shared by both. *)
Record ExpressResponse : Type := mkExpressResponse {
  res_headers : Headers;
  statusCode : Z;
  statusMessage : string;
  res_body : JsValue;
  ended : bool;
  headersSent : bool;
  _statusCode : Z;
  _body : JsValue;
  _ended : bool;
  this_headersSent : bool;
}.

Definition createExpressResponse : ExpressResponse :=
  {| res_headers := []; statusCode := 200; statusMessage := "OK";
     res_body := JNull; ended := false; headersSent := false;
     _statusCode := 200; _body := JNull; _ended := false;
     this_headersSent := false |}.

Definition with_headers (r : ExpressResponse) (h : Headers) : ExpressResponse :=
  {| res_headers := h; statusCode := statusCode r; statusMessage := statusMessage r;
     res_body := res_body r; ended := ended r; headersSent := headersSent r;
     _statusCode := _statusCode r; _body := _body r; _ended := _ended r;
     this_headersSent := this_headersSent r |}.

(** [statusCode = code; this._statusCode = code]. *)
Definition with_status (r : ExpressResponse) (code : Z) : ExpressResponse :=
  {| res_headers := res_headers r; statusCode := code; statusMessage := statusMessage r;
     res_body := res_body r; ended := ended r; headersSent := headersSent r;
     _statusCode := code; _body := _body r; _ended := _ended r;
     this_headersSent := this_headersSent r |}.

(** [body = b; this._body = body]. *)
Definition with_body (r : ExpressResponse) (b : JsValue) : ExpressResponse :=
  {| res_headers := res_headers r; statusCode := statusCode r;
     statusMessage := statusMessage r;
     res_body := b; ended := ended r; headersSent := headersSent r;
     _statusCode := _statusCode r; _body := b; _ended := _ended r;
     this_headersSent := this_headersSent r |}.

(** [ended = true; this._ended = true]. *)
Definition mark_ended (r : ExpressResponse) : ExpressResponse :=
  {| res_headers := res_headers r; statusCode := statusCode r;
     statusMessage := statusMessage r;
     res_body := res_body r; ended := true; headersSent := headersSent r;
     _statusCode := _statusCode r; _body := _body r; _ended := true;
     this_headersSent := this_headersSent r |}.

(** [headersSent = true; this.headersSent = true]. *)
Definition mark_headersSent (r : ExpressResponse) : ExpressResponse :=
  {| res_headers := res_headers r; statusCode := statusCode r;
     statusMessage := statusMessage r;
     res_body := res_body r; ended := ended r; headersSent := true;
     _statusCode := _statusCode r; _body := _body r; _ended := _ended r;
     this_headersSent := true |}.

Definition getStatusText (code : Z) : string :=
  match code with
  | 100 => "Continue" | 101 => "Switching Protocols"
  | 200 => "OK" | 201 => "Created" | 202 => "Accepted" | 204 => "No Content"
  | 301 => "Moved Permanently" | 302 => "Found" | 304 => "Not Modified"
  | 400 => "Bad Request" | 401 => "Unauthorized" | 403 => "Forbidden"
  | 404 => "Not Found" | 405 => "Method Not Allowed" | 409 => "Conflict"
  | 410 => "Gone" | 422 => "Unprocessable Entity" | 429 => "Too Many Requests"
  | 500 => "Internal Server Error" | 501 => "Not Implemented"
  | 502 => "Bad Gateway" | 503 => "Service Unavailable"
  | 504 => "Gateway Timeout"
  | _ => "Unknown"
  end.

Definition mimeTypes : list (string * string) :=
  [("html", "text/html"); ("htm", "text/html"); ("txt", "text/plain");
   ("text", "text/plain"); ("css", "text/css"); ("js", "application/javascript");
   ("json", "application/json"); ("xml", "application/xml"); ("png", "image/png");
   ("jpg", "image/jpeg"); ("jpeg", "image/jpeg"); ("gif", "image/gif");
   ("svg", "image/svg+xml"); ("webp", "image/webp"); ("ico", "image/x-icon");
   ("pdf", "application/pdf"); ("zip", "application/zip");
   ("bin", "application/octet-stream")].

Definition getMimeType (type : string) : string :=
  if Str.includes type "/" then type
  else default "application/octet-stream"
         (snd <$> find (λ kv, Str.eqb (fst kv) (Str.toLowerCase type)) mimeTypes).

(** [res.status(code)]. *)
Definition status (code : Z) (r : ExpressResponse) : ExpressResponse :=
  with_status r code.

(** [res.sendStatus(code)]. *)
Definition sendStatus (code : Z) (r : ExpressResponse) : ExpressResponse :=
  mark_ended (with_body (with_status r code) (JStr (getStatusText code))).

(** [res.json(data)]. *)
Definition json (data : JsValue) (r : ExpressResponse) : ExpressResponse :=
  mark_ended
    (with_body (with_headers r (h_set (res_headers r) "Content-Type" "application/json"))
               (JSON_stringify data)).

Definition default_type (r : ExpressResponse) (type : string) : ExpressResponse :=
  if h_has (res_headers r) "Content-Type" then r
  else with_headers r (h_set (res_headers r) "Content-Type" type).

(** [res.send(data)]. *)
Definition send (data : JsValue) (r : ExpressResponse) : ExpressResponse :=
  mark_ended
    (if is_string data then with_body (default_type r "text/html") data
     else if isBuffer data then with_body (default_type r "application/octet-stream") data
     else if typeof_object data then
       with_body (with_headers r (h_set (res_headers r) "Content-Type" "application/json"))
                 (JSON_stringify data)
     else with_body r (JStr (toString data))).

(** [res.end(data)]; [res.end()] is [end_ JUndefined]. *)
Definition end_ (data : JsValue) (r : ExpressResponse) : ExpressResponse :=
  mark_ended (if is_undefined data then r else with_body r data).

(** [res.set(field, value)], [res.setHeader(field, value)] and
    [res.header(field, value)]. *)
Definition set (field value : string) (r : ExpressResponse) : ExpressResponse :=
  with_headers r (h_set (res_headers r) field value).

(** [res.set(obj)] with the entries of [obj]. *)
Definition set_all (fields : list (string * string)) (r : ExpressResponse) : ExpressResponse :=
  foldl (λ r' kv, set (fst kv) (snd kv) r') r fields.

Definition get (field : string) (r : ExpressResponse) : option string :=
  h_get (res_headers r) field.

Definition removeHeader (field : string) (r : ExpressResponse) : ExpressResponse :=
  with_headers r (h_delete (res_headers r) field).

Definition append (field : string) (values : list string) (r : ExpressResponse)
  : ExpressResponse :=
  with_headers r (foldl (λ h v, h_append h field v) (res_headers r) values).

Definition type (t : string) (r : ExpressResponse) : ExpressResponse :=
  with_headers r (h_set (res_headers r) "Content-Type" (getMimeType t)).

Definition location (u : string) (r : ExpressResponse) : ExpressResponse :=
  with_headers r (h_set (res_headers r) "Location" u).

Definition vary (field : string) (r : ExpressResponse) : ExpressResponse :=
  match h_get (res_headers r) "Vary" with
  | Some existing =>
      if Str.eqb existing EmptyString
      then with_headers r (h_set (res_headers r) "Vary" field)
      else with_headers r (h_set (res_headers r) "Vary" (existing +:+ ", " +:+ field))
  | None => with_headers r (h_set (res_headers r) "Vary" field)
  end.

(** [res.redirect(url)] is [redirect (inr url) None]; [res.redirect(status,
    url)] is [redirect (inl status) (Some url)]. The first branch of the
    source needs a number and a non-empty [url]. *)
Definition redirect (statusOrUrl : Z + string) (target : option string)
    (r : ExpressResponse) : ExpressResponse :=
  let as_url := match statusOrUrl with inl n => Str.of_Z n | inr u => u end in
  let '(code, loc) :=
    match statusOrUrl, target with
    | inl code, Some u => if Str.eqb u EmptyString then (302, as_url) else (code, u)
    | _, _ => (302, as_url)
    end in
  mark_ended (with_status (with_headers r (h_set (res_headers r) "Location" loc)) code).

(** The body handed to [new Response] by [_buildResponse]. *)
Definition response_body (b : JsValue) : JsValue :=
  if nullish b then JNull
  else if (is_string b || is_bytes b || is_stream b || is_blob b)%bool then b
  else JSON_stringify b.

(** [res._buildResponse()]: the response, and the builder afterwards. *)
Definition _buildResponse (r : ExpressResponse) : Response * ExpressResponse :=
  let r' := mark_headersSent r in
  if (h_has (res_headers r) "Location" && (300 <=? statusCode r) && (statusCode r <? 400))%bool
  then (Response_redirect (default EmptyString (h_get (res_headers r) "Location"))
                          (statusCode r), r')
  else (new_Response (response_body (res_body r)) (statusCode r) (statusMessage r)
                     (res_headers r), r').

(** Whether the platform takes what [_buildResponse] hands to it; when it
    does not, the call of [_buildResponse] throws. *)
Definition buildable (r : ExpressResponse) : bool :=
  if (h_has (res_headers r) "Location" && (300 <=? statusCode r) && (statusCode r <? 400))%bool
  then Response_redirect_ok (default EmptyString (h_get (res_headers r) "Location"))
                            (statusCode r)
  else Response_init_ok (response_body (res_body r)) (statusCode r) (statusMessage r).

End Express.

(* ===================================================================== *)
(** * [fastify-compat.ts]: request and reply                              *)
(* ===================================================================== *)

Module Fastify.
Import Js Platform.

(** The request view; [routerPath], [routerMethod], [ips], [protocol],
    [is404] and the validation stubs are left out. [id] is what
    [generateRequestId] returned. *)
Record FastifyRequest : Type := mkFastifyRequest {
  raw : BunRequest;
  id : string;
  params : gmap string string;
  query : gmap string string;
  body : JsValue;
  headers : gmap string string;
  method : string;
  url : string;
  ip : string;
  hostname : string;
  decorations : list (string * JsValue);
}.

(** [url.searchParams.forEach((value, key) => { query[key] = value; })]. *)
Definition parse_query (search : string) : gmap string string :=
  foldl (λ q kv, obj_set q (fst kv) (snd kv)) ∅ (URLSearchParams search).

Definition createFastifyRequest (bunRequest : BunRequest) (params : gmap string string)
    (requestId : string) : FastifyRequest :=
  {| raw := bunRequest;
     id := requestId;
     params := params;
     query := parse_query (br_search bunRequest);
     body := JUndefined;
     headers := foldl (λ hs kv, obj_set hs (fst kv) (snd kv)) ∅
                      (h_entries (br_headers bunRequest));
     method := br_method bunRequest;
     url := br_pathname bunRequest +:+ br_search bunRequest;
     ip := Express.client_ip (br_headers bunRequest);
     hostname := br_hostname bunRequest;
     decorations := [] |}.

Definition set_req_body (r : FastifyRequest) (b : JsValue) : FastifyRequest :=
  {| raw := raw r; id := id r; params := params r; query := query r; body := b;
     headers := headers r; method := method r; url := url r; ip := ip r;
     hostname := hostname r; decorations := decorations r |}.

Definition set_req_decorations (r : FastifyRequest) (d : list (string * JsValue))
  : FastifyRequest :=
  {| raw := raw r; id := id r; params := params r; query := query r; body := body r;
     headers := headers r; method := method r; url := url r; ip := ip r;
     hostname := hostname r; decorations := d |}.

(** ** The reply builder: closure variables ([headers], [statusCode],
    [body], [sent], [serializer]) and the mirrored fields of the object.
    [sent] is a getter on the closure variable. *)
Record FastifyReply : Type := mkFastifyReply {
  reply_headers : Headers;
  statusCode : Z;
  reply_body : JsValue;
  sent : bool;
  serializer : option (JsValue → string);
  _statusCode : Z;
  _body : JsValue;
  _sent : bool;
  reply_decorations : list (string * JsValue);
}.

Definition createFastifyReply : FastifyReply :=
  {| reply_headers := []; statusCode := 200; reply_body := JNull; sent := false;
     serializer := None; _statusCode := 200; _body := JNull; _sent := false;
     reply_decorations := [] |}.

Definition with_headers (r : FastifyReply) (h : Headers) : FastifyReply :=
  {| reply_headers := h; statusCode := statusCode r; reply_body := reply_body r;
     sent := sent r; serializer := serializer r; _statusCode := _statusCode r;
     _body := _body r; _sent := _sent r; reply_decorations := reply_decorations r |}.

(** [statusCode = code; this._statusCode = code]. *)
Definition with_status (r : FastifyReply) (code : Z) : FastifyReply :=
  {| reply_headers := reply_headers r; statusCode := code; reply_body := reply_body r;
     sent := sent r; serializer := serializer r; _statusCode := code;
     _body := _body r; _sent := _sent r; reply_decorations := reply_decorations r |}.

(** [body = b; this._body = body]. *)
Definition with_body (r : FastifyReply) (b : JsValue) : FastifyReply :=
  {| reply_headers := reply_headers r; statusCode := statusCode r; reply_body := b;
     sent := sent r; serializer := serializer r; _statusCode := _statusCode r;
     _body := b; _sent := _sent r; reply_decorations := reply_decorations r |}.

(** [sent = true; this._sent = true]. *)
Definition mark_sent (r : FastifyReply) : FastifyReply :=
  {| reply_headers := reply_headers r; statusCode := statusCode r;
     reply_body := reply_body r;
     sent := true; serializer := serializer r; _statusCode := _statusCode r;
     _body := _body r; _sent := true; reply_decorations := reply_decorations r |}.

Definition with_serializer (r : FastifyReply) (fn : JsValue → string) : FastifyReply :=
  {| reply_headers := reply_headers r; statusCode := statusCode r;
     reply_body := reply_body r;
     sent := sent r; serializer := Some fn; _statusCode := _statusCode r;
     _body := _body r; _sent := _sent r; reply_decorations := reply_decorations r |}.

Definition set_reply_decorations (r : FastifyReply) (d : list (string * JsValue))
  : FastifyReply :=
  {| reply_headers := reply_headers r; statusCode := statusCode r;
     reply_body := reply_body r;
     sent := sent r; serializer := serializer r; _statusCode := _statusCode r;
     _body := _body r; _sent := _sent r; reply_decorations := d |}.

(** [reply.code(code)] and [reply.status(code)]. *)
Definition code (c : Z) (r : FastifyReply) : FastifyReply := with_status r c.

(** [reply.header(key, value)]. *)
Definition header (key value : string) (r : FastifyReply) : FastifyReply :=
  with_headers r (h_set (reply_headers r) key value).

Definition removeHeader (key : string) (r : FastifyReply) : FastifyReply :=
  with_headers r (h_delete (reply_headers r) key).

Definition type (contentType : string) (r : FastifyReply) : FastifyReply :=
  with_headers r (h_set (reply_headers r) "Content-Type" contentType).

(** [reply.send(payload)]; [reply.send()] is [send JUndefined]. On a reply
    already sent it warns on the console and returns. *)
Definition send (payload : JsValue) (r : FastifyReply) : FastifyReply :=
  if sent r then r
  else mark_sent (if is_undefined payload then r else with_body r payload).

(** [reply.redirect(url)] and [reply.redirect(status, url)]. *)
Definition redirect (statusOrUrl : Z + string) (target : option string)
    (r : FastifyReply) : FastifyReply :=
  let as_url := match statusOrUrl with inl n => Str.of_Z n | inr u => u end in
  let '(c, loc) :=
    match statusOrUrl, target with
    | inl c, Some u => if Str.eqb u EmptyString then (302, as_url) else (c, u)
    | _, _ => (302, as_url)
    end in
  mark_sent (with_headers (with_status r c) (h_set (reply_headers r) "Location" loc)).

(** [reply.callNotFound()]. *)
Definition callNotFound (r : FastifyReply) : FastifyReply :=
  mark_sent
    (with_body (with_status r 404)
       (JObj [("statusCode", JNum 404); ("error", JStr "Not Found");
              ("message", JStr "Route not found")])).

Definition default_type (h : Headers) (type : string) : Headers :=
  if h_has h "Content-Type" then h else h_set h "Content-Type" type.

(** [reply._buildResponse()]: the response, and the reply afterwards (a
    missing [Content-Type] is written into the shared [Headers]). *)
Definition _buildResponse (r : FastifyReply) : Response * FastifyReply :=
  let h := reply_headers r in
  if (h_has h "Location" && (300 <=? statusCode r) && (statusCode r <? 400))%bool
  then (Response_redirect (default EmptyString (h_get h "Location")) (statusCode r), r)
  else
    let b := reply_body r in
    let '(responseBody, h') :=
      if nullish b then (JNull, h)
      else match serializer r with
           | Some fn => (JStr (fn b), h)
           | None =>
               if is_string b then (b, default_type h "text/plain; charset=utf-8")
               else if is_bytes b then (b, default_type h "application/octet-stream")
               else if (is_stream b || is_blob b)%bool then (b, h)
               else (JSON_stringify b, default_type h "application/json; charset=utf-8")
           end in
    (new_Response responseBody (statusCode r) EmptyString h', with_headers r h').

(** Whether the platform takes what [_buildResponse] hands to it; when it
    does not, the call of [_buildResponse] throws. *)
Definition buildable (r : FastifyReply) : bool :=
  let h := reply_headers r in
  if (h_has h "Location" && (300 <=? statusCode r) && (statusCode r <? 400))%bool
  then Response_redirect_ok (default EmptyString (h_get h "Location")) (statusCode r)
  else Response_init_ok (Platform.body (fst (_buildResponse r))) (statusCode r) EmptyString.

(** The names of the members that the object literals of
    [createFastifyRequest] and [createFastifyReply] declare. *)
Definition request_members : list string :=
  ["raw"; "id"; "params"; "query"; "body"; "headers"; "method"; "url"; "routerPath";
   "routerMethod"; "ip"; "ips"; "hostname"; "protocol"; "is404";
   "getValidationFunction"; "compileValidationSchema"; "validateInput"].

Definition reply_members : list string :=
  ["_headers"; "_statusCode"; "_body"; "_sent"; "sent"; "statusCode"; "elapsedTime";
   "code"; "status"; "header"; "headers"; "getHeader"; "getHeaders"; "removeHeader";
   "hasHeader"; "type"; "serializer"; "send"; "redirect"; "callNotFound";
   "getResponseTime"; "_buildResponse"].

End Fastify.

(* ===================================================================== *)
(** * Route patterns: [pathToRegex] and [String.prototype.match]           *)
(* ===================================================================== *)

Module Routing.

(** The regular expressions that [pathToRegex] produces, as token lists:
    the source text [^...$] holds ordinary characters, [.], the group
    one-segment group put in for a [:name] (one or more characters other
    than [/]) and the greedy group put in for a trailing star (any
    characters). A path holding another character that is special in a
    regular expression (one of [\ ^ $ * + ? ( ) [ ] { } |]) is outside this
    fragment: [pathToRegex] then answers [None]. *)
Inductive Tok : Type :=
| TChar (c : ascii)     (* an ordinary character *)
| TAny                  (* [.] *)
| TParam                (* the group of a [:name] *)
| TWild.                (* the group of a trailing star *)

Definition is_name_char (a : ascii) : bool :=
  (Str.is_lower a || Str.is_upper a || Str.is_digit a || Ascii.eqb a "_")%bool.

Definition is_meta (a : ascii) : bool :=
  existsb (Ascii.eqb a)
    (list_ascii_of_string "\^$*+?()[]{}|").

Definition tok_of_char (a : ascii) : option Tok :=
  if Ascii.eqb a "." then Some TAny
  else if is_meta a then None
  else Some (TChar a).

(** What a pending [:name] turns into once it stops: a parameter group, or
    the ordinary character [:] when no name character followed. *)
Definition close_name (cur : option string) : list Tok * list string :=
  match cur with
  | None => ([], [])
  | Some EmptyString => ([TChar ":"], [])
  | Some name => ([TParam], [name])
  end.

Definition prepend (x : list Tok * list string) (r : option (list Tok * list string))
  : option (list Tok * list string) :=
  match r with
  | Some (ts, ns) => Some (fst x ++ ts, snd x ++ ns)
  | None => None
  end.

(** [normalizedPath.replace(/:([a-zA-Z0-9_]+)/g, ...)] followed by the
    reading of the result as a regular expression, in one pass; [cur] holds
    the name being read after a [:]. *)
Fixpoint scan (s : string) (cur : option string) : option (list Tok * list string) :=
  match s with
  | EmptyString => Some (close_name cur)
  | String a s' =>
      match cur with
      | Some name =>
          if is_name_char a then scan s' (Some (name +:+ String a EmptyString))
          else if Ascii.eqb a ":" then prepend (close_name cur) (scan s' (Some EmptyString))
          else match tok_of_char a with
               | Some t => prepend (close_name cur) (prepend ([t], []) (scan s' None))
               | None => None
               end
      | None =>
          if Ascii.eqb a ":" then scan s' (Some EmptyString)
          else match tok_of_char a with
               | Some t => prepend ([t], []) (scan s' None)
               | None => None
               end
      end
  end.

(** [pathToRegex(path)]: the pattern and the parameter names, in the order
    of the [:name] tokens. *)
Definition pathToRegex (path : string) : option (list Tok * list string) :=
  let normalizedPath := if Str.startsWith path "/" then path else "/" +:+ path in
  if Str.endsWithChar normalizedPath "*"
  then match scan (Str.dropLast normalizedPath) None with
       | Some (ts, ns) => Some (ts ++ [TWild], ns)
       | None => None
       end
  else scan normalizedPath None.

(** [.] does not match a line terminator. *)
Definition is_line_terminator (a : ascii) : bool :=
  (Ascii.eqb a (Str.chr 10) || Ascii.eqb a (Str.chr 13))%bool.

(** A greedy starred group followed by the rest [k] of the pattern:
    the longest run comes first, shorter ones on backtracking. *)
Fixpoint greedy_star (ok : ascii → bool) (k : string → option (list string)) (s : string)
  : option (list string) :=
  let stop := match k s with Some caps => Some (EmptyString :: caps) | None => None end in
  match s with
  | String a s' =>
      if ok a then
        match greedy_star ok k s' with
        | Some (p :: caps) => Some (String a p :: caps)
        | _ => stop
        end
      else stop
  | EmptyString => stop
  end.

(** The same for a group that needs at least one character. *)
Definition greedy_plus (ok : ascii → bool) (k : string → option (list string)) (s : string)
  : option (list string) :=
  match s with
  | String a s' =>
      if ok a then
        match greedy_star ok k s' with
        | Some (p :: caps) => Some (String a p :: caps)
        | _ => None
        end
      else None
  | EmptyString => None
  end.

(** [pathname.match(pattern)] for an anchored pattern: the captured groups
    ([match[1]], [match[2]], ...) or [None] for [null]. *)
Fixpoint rmatch (ts : list Tok) (s : string) {struct ts} : option (list string) :=
  match ts with
  | [] => match s with EmptyString => Some [] | _ => None end
  | TChar c :: ts' =>
      match s with
      | String a s' => if Ascii.eqb a c then rmatch ts' s' else None
      | EmptyString => None
      end
  | TAny :: ts' =>
      match s with
      | String a s' => if is_line_terminator a then None else rmatch ts' s'
      | EmptyString => None
      end
  | TParam :: ts' => greedy_plus (λ a, negb (Ascii.eqb a "/")) (rmatch ts') s
  | TWild :: ts' => greedy_star (λ a, negb (is_line_terminator a)) (rmatch ts') s
  end.

(** [str.replace(/\/+/g, "/")]. *)
Fixpoint collapse_slashes (s : string) : string :=
  match s with
  | EmptyString => EmptyString
  | String a s' =>
      if Ascii.eqb a "/" then
        match s' with
        | String b _ => if Ascii.eqb b "/" then collapse_slashes s'
                        else String a (collapse_slashes s')
        | EmptyString => String a EmptyString
        end
      else String a (collapse_slashes s')
  end.

(** [buildPath(path)] under the global prefix. *)
Definition buildPath (globalPrefix path : string) : string :=
  let normalizedPath := if Str.startsWith path "/" then path else "/" +:+ path in
  if Str.eqb globalPrefix EmptyString then normalizedPath
  else
    let prefix := if Str.startsWith globalPrefix "/" then globalPrefix
                  else "/" +:+ globalPrefix in
    collapse_slashes (prefix +:+ normalizedPath).

(** [pathMatchesMiddleware(requestPath, middlewarePath)]. *)
Definition pathMatchesMiddleware (requestPath middlewarePath : string) : bool :=
  if (Str.eqb middlewarePath "/" || Str.eqb middlewarePath EmptyString)%bool then true
  else
    let normalizedMiddlewarePath :=
      if Str.startsWith middlewarePath "/" then middlewarePath
      else "/" +:+ middlewarePath in
    (Str.eqb requestPath normalizedMiddlewarePath
     || Str.startsWith requestPath (normalizedMiddlewarePath +:+ "/"))%bool.

(** [route.paramNames.forEach((name, index) => { params[name] = match[index + 1]; })]. *)
Definition bind_params (paramNames captures : list string) : gmap string string :=
  foldl (λ ps nv, Platform.obj_set ps (fst nv) (snd nv)) ∅ (zip paramNames captures).

End Routing.

(* ===================================================================== *)
(** * User code, effects and the hook executors                           *)
(* ===================================================================== *)

Module Pipeline.
Import Js Platform.

(** ** The per-request world

    The objects created for one request. User code holds references to them
    (a hook may keep the reply for a later middleware), so every callback is
    modelled as a function on the whole world. The source passes one
    [params] object and one parsed body to both request views; the views are
    kept as two records here. *)
Record World : Type := mkWorld {
  req : Express.ExpressRequest;
  res : Express.ExpressResponse;
  fastifyReq : Fastify.FastifyRequest;
  fastifyReply : Fastify.FastifyReply;
}.

Definition with_res (w : World) (r : Express.ExpressResponse) : World :=
  {| req := req w; res := r; fastifyReq := fastifyReq w; fastifyReply := fastifyReply w |}.

Definition with_reply (w : World) (r : Fastify.FastifyReply) : World :=
  {| req := req w; res := res w; fastifyReq := fastifyReq w; fastifyReply := r |}.

(** How a call of user code comes back. *)
Inductive Completion : Type :=
| CReturn (v : JsValue)    (* returned [v], which is not a promise *)
| CResolve (v : JsValue)   (* returned a promise, fulfilled with [v] *)
| CReject (e : JsValue)    (* returned a promise, rejected with [e] *)
| CThrow (e : JsValue)     (* threw [e] *)
| CPending.                (* returned a promise that never settles *)

(** What a callback lets the dispatcher see: the arguments of its calls of
    the continuation ([next], [done]), in order, made before the dispatcher
    resumes, and how the call itself came back. *)
Record Signal (C : Type) : Type := mkSignal {
  calls : list C;
  completion : Completion;
}.
Arguments mkSignal {C} _ _.
Arguments calls {C} _.
Arguments completion {C} _.

Definition FastifyHook : Type := World → World * Signal JsValue.
Definition FastifyOnSendHook : Type := JsValue → World → World * Signal (JsValue * JsValue).
Definition FastifyOnErrorHook : Type := JsValue → World → World * Signal JsValue.
Definition ExpressMiddleware : Type := World → World * Signal JsValue.
Definition ExpressErrorMiddleware : Type := JsValue → World → World * Signal JsValue.
Definition RouteHandler : Type := World → World * Signal JsValue.
Definition ErrorHandler : Type := JsValue → World → World * Completion.

(** ** Observation of the run: which user callback was invoked, by position
    in the list it was registered in. The trace is not visible to user
    code. *)
Inductive Event : Type :=
| EvOnRequest (i : nat)
| EvMiddleware (i : nat)
| EvErrorMiddleware (i : nat)
| EvPreHandler (i : nat)
| EvHandler
| EvOnSend (i : nat)
| EvOnError (i : nat)
| EvOnResponse (i : nat)
| EvErrorHandler
| EvNotFound.

Record St : Type := mkSt {
  world : World;
  trace : list Event;
}.

(** ** [async] functions: a value, an exception (a rejected promise), or a
    promise that never settles. *)
Inductive Outcome (A : Type) : Type :=
| Val (a : A)
| Exn (e : JsValue)
| Hang.
Arguments Val {A} _.
Arguments Exn {A} _.
Arguments Hang {A}.

Definition M (A : Type) : Type := St → Outcome A * St.

Definition ret {A} (a : A) : M A := λ st, (Val a, st).

Definition bind {A B} (m : M A) (k : A → M B) : M B :=
  λ st, match m st with
        | (Val a, st') => k a st'
        | (Exn e, st') => (Exn e, st')
        | (Hang, st') => (Hang, st')
        end.

#[global] Instance M_ret : MRet M := @ret.
#[global] Instance M_bind : MBind M := λ A B k m, bind m k.

Definition throw {A} (e : JsValue) : M A := λ st, (Exn e, st).
Definition hang {A} : M A := λ st, (Hang, st).

(** [try { m } catch (e) { h(e) }]. *)
Definition try_catch {A} (m : M A) (h : JsValue → M A) : M A :=
  λ st, match m st with
        | (Exn e, st') => h e st'
        | r => r
        end.

Definition get_world : M World := λ st, (Val (world st), st).

Definition modify_res (f : Express.ExpressResponse → Express.ExpressResponse) : M () :=
  λ st, (Val (), {| world := with_res (world st) (f (res (world st))); trace := trace st |}).

Definition modify_reply (f : Fastify.FastifyReply → Fastify.FastifyReply) : M () :=
  λ st, (Val (), {| world := with_reply (world st) (f (fastifyReply (world st)));
                   trace := trace st |}).

(** A call of user code: the world changes as the callback says, and the
    call is recorded. *)
Definition call {S : Type} (ev : Event) (f : World → World * S) : M S :=
  λ st, let '(w', sg) := f (world st) in
        (Val sg, {| world := w'; trace := trace st ++ [ev] |}).

(** [await f(...)]. *)
Definition await (c : Completion) : M JsValue :=
  match c with
  | CReturn v | CResolve v => ret v
  | CReject e | CThrow e => throw e
  | CPending => hang
  end.

(** The state of [nextCalled] and [nextError] after the calls
    [next = (err) => { nextCalled = true; if (err) nextError = err; }]. *)
Definition nextCalled (cs : list JsValue) : bool :=
  match cs with [] => false | _ => true end.

Definition nextError (cs : list JsValue) : JsValue :=
  foldl (λ cur err, if truthy err then err else cur) JUndefined cs.

(** ** [FastifyHooksManager] *)
Record FastifyHooksManager : Type := mkHooks {
  onRequestHooks : list FastifyHook;
  preHandlerHooks : list FastifyHook;
  onSendHooks : list FastifyOnSendHook;
  onErrorHooks : list FastifyOnErrorHook;
  onResponseHooks : list FastifyHook;
}.

(** [executeHook]: the promise is resolved by the first call of [done], or
    by the promise the hook returned; a hook that throws before calling
    [done] rejects it; a hook that does neither leaves it pending. *)
Definition executeHook (ev : Event) (hook : FastifyHook) : M JsValue :=
  sg ← call ev hook;
  match calls sg with
  | err :: _ => ret err
  | [] =>
      match completion sg with
      | CResolve _ => ret JUndefined
      | CReject e => ret e
      | CThrow e => throw e
      | CReturn _ | CPending => hang
      end
  end.

(** The loop shared by [executeOnRequest] and [executePreHandler]. *)
Fixpoint execute_phase (ev : nat → Event) (i : nat) (hooks : list FastifyHook) : M JsValue :=
  match hooks with
  | [] => ret JUndefined
  | hook :: rest =>
      result ← executeHook (ev i) hook;
      if is_Error result then ret result
      else
        w ← get_world;
        if Fastify.sent (fastifyReply w) then ret JUndefined
        else execute_phase ev (S i) rest
  end.

Definition executeOnRequest (m : FastifyHooksManager) : M JsValue :=
  execute_phase EvOnRequest 0 (onRequestHooks m).

Definition executePreHandler (m : FastifyHooksManager) : M JsValue :=
  execute_phase EvPreHandler 0 (preHandlerHooks m).

(** The result [{ error, payload }] of [executeOnSend] and of the promise it
    builds around one hook; an absent property is [JUndefined]. *)
Record SendResult : Type := mkSendResult {
  sr_error : JsValue;
  sr_payload : JsValue;
}.

Definition run_onSend_hook (ev : Event) (hook : FastifyOnSendHook) (currentPayload : JsValue)
  : M SendResult :=
  sg ← call ev (hook currentPayload);
  match calls sg with
  | (err, newPayload) :: _ =>
      ret {| sr_error := err; sr_payload := coalesce newPayload currentPayload |}
  | [] =>
      match completion sg with
      | CResolve _ => ret {| sr_error := JUndefined; sr_payload := currentPayload |}
      | CReject e => ret {| sr_error := e; sr_payload := JUndefined |}
      | CThrow e => throw e
      | CReturn _ | CPending => hang
      end
  end.

Fixpoint executeOnSend_from (i : nat) (hooks : list FastifyOnSendHook)
    (currentPayload : JsValue) : M SendResult :=
  match hooks with
  | [] => ret {| sr_error := JUndefined; sr_payload := currentPayload |}
  | hook :: rest =>
      result ← run_onSend_hook (EvOnSend i) hook currentPayload;
      if truthy (sr_error result)
      then ret {| sr_error := sr_error result; sr_payload := currentPayload |}
      else executeOnSend_from (S i) rest
             (if is_undefined (sr_payload result) then currentPayload
              else sr_payload result)
  end.

Definition executeOnSend (m : FastifyHooksManager) (payload : JsValue) : M SendResult :=
  executeOnSend_from 0 (onSendHooks m) payload.

(** One round of [executeOnError]: [handled] is set by a call [done()] whose
    argument is falsy. *)
Definition run_onError_hook (ev : Event) (hook : FastifyOnErrorHook) (error : JsValue)
  : M bool :=
  sg ← call ev (hook error);
  let handled := existsb (λ err, negb (truthy err)) (calls sg) in
  match calls sg with
  | _ :: _ => ret handled
  | [] =>
      match completion sg with
      | CResolve _ | CReject _ => ret handled
      | CThrow e => throw e
      | CReturn _ | CPending => hang
      end
  end.

Fixpoint executeOnError_from (i : nat) (hooks : list FastifyOnErrorHook) (error : JsValue)
  : M bool :=
  match hooks with
  | [] => ret false
  | hook :: rest =>
      handled ← run_onError_hook (EvOnError i) hook error;
      w ← get_world;
      if (handled || Fastify.sent (fastifyReply w))%bool then ret true
      else executeOnError_from (S i) rest error
  end.

Definition executeOnError (m : FastifyHooksManager) (error : JsValue) : M bool :=
  executeOnError_from 0 (onErrorHooks m) error.

Fixpoint executeOnResponse_from (i : nat) (hooks : list FastifyHook) : M () :=
  match hooks with
  | [] => ret ()
  | hook :: rest =>
      _ ← executeHook (EvOnResponse i) hook;
      executeOnResponse_from (S i) rest
  end.

Definition executeOnResponse (m : FastifyHooksManager) : M () :=
  executeOnResponse_from 0 (onResponseHooks m).

End Pipeline.

(* ===================================================================== *)
(** * [bun-adapter.ts]: the dispatcher                                    *)
(* ===================================================================== *)

Module Adapter.
Import Js Platform Pipeline.

Record Route : Type := mkRoute {
  route_path : string;
  route_method : string;
  handler : RouteHandler;
  pathPattern : list Routing.Tok;
  paramNames : list string;
}.

Record MiddlewareEntry : Type := mkMiddlewareEntry {
  mw_path : string;
  mw_handler : ExpressMiddleware;
}.

Record ErrorMiddlewareEntry : Type := mkErrorMiddlewareEntry {
  emw_path : string;
  emw_handler : ExpressErrorMiddleware;
}.

(** What the registration calls fill in and [handleRequest] reads. The
    decorator maps of [FastifyPluginRegistry] are kept as association
    lists in insertion order, as a [Map] iterates them. *)
Record Registry : Type := mkRegistry {
  routes : list Route;
  middlewares : list MiddlewareEntry;
  errorMiddlewares : list ErrorMiddlewareEntry;
  globalPrefix : string;
  fastifyHooks : FastifyHooksManager;
  decorators : list (string * JsValue);
  requestDecorators : list (string * JsValue);
  replyDecorators : list (string * JsValue);
  notFoundHandler : option RouteHandler;
  errorHandler : option ErrorHandler;
}.

Definition empty_hooks : FastifyHooksManager :=
  {| onRequestHooks := []; preHandlerHooks := []; onSendHooks := [];
     onErrorHooks := []; onResponseHooks := [] |}.

Definition empty_registry : Registry :=
  {| routes := []; middlewares := []; errorMiddlewares := []; globalPrefix := EmptyString;
     fastifyHooks := empty_hooks; decorators := []; requestDecorators := [];
     replyDecorators := []; notFoundHandler := None; errorHandler := None |}.

(** [map.set(key, value)] on a [Map], and [obj[key] = value] on an object
    holding arbitrary values: an existing key keeps its place. *)
Fixpoint map_set (m : list (string * JsValue)) (key : string) (value : JsValue)
  : list (string * JsValue) :=
  match m with
  | [] => [(key, value)]
  | (k, v) :: m' => if Str.eqb k key then (k, value) :: m' else (k, v) :: map_set m' key value
  end.

Definition map_has (m : list (string * JsValue)) (key : string) : bool :=
  existsb (λ kv, Str.eqb (fst kv) key) m.

(** [applyRequestDecorators] and [applyReplyDecorators] assign each
    decorator to the property of its name on the view. The views keep the
    properties added in this way in [decorations] and [reply_decorations],
    apart from their own members ([Fastify.request_members],
    [Fastify.reply_members]): a decorator under the name of a member would
    overwrite that member instead, or make the assignment throw for the
    members [sent] and [elapsedTime], which have a getter only. The
    statements about decorators ask for names that are no members. Decorator
    values are data (a function value would be called for its result). *)
Definition applyRequestDecorators (g : Registry) (r : Fastify.FastifyRequest)
  : Fastify.FastifyRequest :=
  Fastify.set_req_decorations r
    (foldl (λ d kv, map_set d (fst kv) (snd kv)) (Fastify.decorations r)
           (requestDecorators g)).

Definition applyReplyDecorators (g : Registry) (r : Fastify.FastifyReply)
  : Fastify.FastifyReply :=
  Fastify.set_reply_decorations r
    (foldl (λ d kv, map_set d (fst kv) (snd kv)) (Fastify.reply_decorations r)
           (replyDecorators g)).

(** ** Registration *)

(** [addRoute(method, path, handler)]; [None] when the path is outside the
    fragment of patterns that [Routing.pathToRegex] covers. *)
Definition addRoute (method path : string) (h : RouteHandler) (g : Registry)
  : option Registry :=
  let fullPath := Routing.buildPath (globalPrefix g) path in
  match Routing.pathToRegex fullPath with
  | Some (pattern, names) =>
      Some {| routes := routes g ++ [ {| route_path := fullPath;
                                         route_method := Str.toUpperCase method;
                                         handler := h;
                                         pathPattern := pattern;
                                         paramNames := names |} ];
              middlewares := middlewares g; errorMiddlewares := errorMiddlewares g;
              globalPrefix := globalPrefix g; fastifyHooks := fastifyHooks g;
              decorators := decorators g; requestDecorators := requestDecorators g;
              replyDecorators := replyDecorators g;
              notFoundHandler := notFoundHandler g; errorHandler := errorHandler g |}
  | None => None
  end.

Definition with_hooks (g : Registry) (m : FastifyHooksManager) : Registry :=
  {| routes := routes g; middlewares := middlewares g;
     errorMiddlewares := errorMiddlewares g; globalPrefix := globalPrefix g;
     fastifyHooks := m; decorators := decorators g;
     requestDecorators := requestDecorators g; replyDecorators := replyDecorators g;
     notFoundHandler := notFoundHandler g; errorHandler := errorHandler g |}.

(** [use(path, middleware)] for a middleware of three parameters;
    [use(middleware)] registers under ["/"]. *)
Definition use (path : string) (fn : ExpressMiddleware) (g : Registry) : Registry :=
  {| routes := routes g;
     middlewares := middlewares g ++ [ {| mw_path := path; mw_handler := fn |} ];
     errorMiddlewares := errorMiddlewares g; globalPrefix := globalPrefix g;
     fastifyHooks := fastifyHooks g; decorators := decorators g;
     requestDecorators := requestDecorators g; replyDecorators := replyDecorators g;
     notFoundHandler := notFoundHandler g; errorHandler := errorHandler g |}.

(** [use(path, errorMiddleware)] for a middleware of four parameters. *)
Definition use_error (path : string) (fn : ExpressErrorMiddleware) (g : Registry) : Registry :=
  {| routes := routes g; middlewares := middlewares g;
     errorMiddlewares := errorMiddlewares g ++ [ {| emw_path := path; emw_handler := fn |} ];
     globalPrefix := globalPrefix g;
     fastifyHooks := fastifyHooks g; decorators := decorators g;
     requestDecorators := requestDecorators g; replyDecorators := replyDecorators g;
     notFoundHandler := notFoundHandler g; errorHandler := errorHandler g |}.


Definition setErrorHandler (h : ErrorHandler) (g : Registry) : Registry :=
  {| routes := routes g; middlewares := middlewares g;
     errorMiddlewares := errorMiddlewares g; globalPrefix := globalPrefix g;
     fastifyHooks := fastifyHooks g; decorators := decorators g;
     requestDecorators := requestDecorators g; replyDecorators := replyDecorators g;
     notFoundHandler := notFoundHandler g; errorHandler := Some h |}.


(** [addHook(name, hook)], one definition per hook name. *)
Definition addHook_onRequest (hook : FastifyHook) (g : Registry) : Registry :=
  let m := fastifyHooks g in
  with_hooks g {| onRequestHooks := onRequestHooks m ++ [hook];
                  preHandlerHooks := preHandlerHooks m; onSendHooks := onSendHooks m;
                  onErrorHooks := onErrorHooks m; onResponseHooks := onResponseHooks m |}.

Definition addHook_preHandler (hook : FastifyHook) (g : Registry) : Registry :=
  let m := fastifyHooks g in
  with_hooks g {| onRequestHooks := onRequestHooks m;
                  preHandlerHooks := preHandlerHooks m ++ [hook];
                  onSendHooks := onSendHooks m;
                  onErrorHooks := onErrorHooks m; onResponseHooks := onResponseHooks m |}.

Definition addHook_onSend (hook : FastifyOnSendHook) (g : Registry) : Registry :=
  let m := fastifyHooks g in
  with_hooks g {| onRequestHooks := onRequestHooks m;
                  preHandlerHooks := preHandlerHooks m;
                  onSendHooks := onSendHooks m ++ [hook];
                  onErrorHooks := onErrorHooks m; onResponseHooks := onResponseHooks m |}.

Definition addHook_onError (hook : FastifyOnErrorHook) (g : Registry) : Registry :=
  let m := fastifyHooks g in
  with_hooks g {| onRequestHooks := onRequestHooks m;
                  preHandlerHooks := preHandlerHooks m; onSendHooks := onSendHooks m;
                  onErrorHooks := onErrorHooks m ++ [hook];
                  onResponseHooks := onResponseHooks m |}.

Definition addHook_onResponse (hook : FastifyHook) (g : Registry) : Registry :=
  let m := fastifyHooks g in
  with_hooks g {| onRequestHooks := onRequestHooks m;
                  preHandlerHooks := preHandlerHooks m; onSendHooks := onSendHooks m;
                  onErrorHooks := onErrorHooks m;
                  onResponseHooks := onResponseHooks m ++ [hook] |}.

(** [decorate(name, value)]. *)
Definition decorate (name : string) (value : JsValue) (g : Registry) : Registry :=
  {| routes := routes g; middlewares := middlewares g;
     errorMiddlewares := errorMiddlewares g; globalPrefix := globalPrefix g;
     fastifyHooks := fastifyHooks g; decorators := map_set (decorators g) name value;
     requestDecorators := requestDecorators g; replyDecorators := replyDecorators g;
     notFoundHandler := notFoundHandler g; errorHandler := errorHandler g |}.



(** [body[key] = value] on a plain object: as for [obj_set], the key
    [__proto__] creates no property. *)
Definition prop_set (m : list (string * JsValue)) (key : string) (value : JsValue)
  : list (string * JsValue) :=
  if Str.eqb key "__proto__" then m else map_set m key value.

(** ** [parseRequestBody] *)
Definition parseRequestBody (bunRequest : BunRequest) : JsValue :=
  let contentType := default EmptyString (h_get (br_headers bunRequest) "content-type") in
  if Str.includes contentType "application/json" then
    match br_json bunRequest with
    | Some v => v
    | None => JUndefined
    end
  else if Str.includes contentType "application/x-www-form-urlencoded" then
    match br_text bunRequest with
    | Some text =>
        JObj (foldl (λ b kv, prop_set b (fst kv) (JStr (snd kv))) [] (URLSearchParams text))
    | None => JUndefined
    end
  else if Str.includes contentType "multipart/form-data" then
    match br_formData bunRequest with
    | Some fields => JObj (foldl (λ b kv, prop_set b (fst kv) (snd kv)) [] fields)
    | None => JUndefined
    end
  else if Str.includes contentType "text/" then
    match br_text bunRequest with
    | Some text => JStr text
    | None => JUndefined
    end
  else JUndefined.

(** ** Route matching: the loop at the head of [handleRequest] *)
Fixpoint find_route (rs : list Route) (method pathname : string)
  : option (Route * list string) :=
  match rs with
  | [] => None
  | route :: rest =>
      if (negb (Str.eqb (route_method route) method)
          && negb (Str.eqb (route_method route) "ALL"))%bool
      then find_route rest method pathname
      else match Routing.rmatch (pathPattern route) pathname with
           | Some captures => Some (route, captures)
           | None => find_route rest method pathname
           end
  end.

(** ** The middleware chains *)
Record ChainResult : Type := mkChainResult {
  error : JsValue;       (* [JUndefined] when the property is absent *)
  completed : bool;
}.

Fixpoint executeMiddlewareChain_from (g : Registry) (i : nat) (mws : list MiddlewareEntry)
    (pathname : string) : M ChainResult :=
  match mws with
  | [] => mret {| error := JUndefined; completed := false |}
  | middleware :: rest =>
      let middlewarePath := Routing.buildPath (globalPrefix g) (mw_path middleware) in
      if negb (Routing.pathMatchesMiddleware pathname middlewarePath)
      then executeMiddlewareChain_from g (S i) rest pathname
      else
        sg ← call (EvMiddleware i) (mw_handler middleware);
        match completion sg with
        | CThrow err | CReject err => mret {| error := err; completed := false |}
        | CPending => hang
        | CReturn _ | CResolve _ =>
            if truthy (nextError (calls sg))
            then mret {| error := nextError (calls sg); completed := false |}
            else
              w ← get_world;
              if Express._ended (res w) then mret {| error := JUndefined; completed := true |}
              else if negb (nextCalled (calls sg))
                   then mret {| error := JUndefined; completed := true |}
                   else executeMiddlewareChain_from g (S i) rest pathname
        end
  end.

Definition executeMiddlewareChain (g : Registry) (pathname : string) : M ChainResult :=
  executeMiddlewareChain_from g 0 (middlewares g) pathname.

Fixpoint executeErrorMiddlewareChain_from (g : Registry) (i : nat)
    (mws : list ErrorMiddlewareEntry) (err : JsValue) (pathname : string) : M bool :=
  match mws with
  | [] => mret false
  | middleware :: rest =>
      let middlewarePath := Routing.buildPath (globalPrefix g) (emw_path middleware) in
      if negb (Routing.pathMatchesMiddleware pathname middlewarePath)
      then executeErrorMiddlewareChain_from g (S i) rest err pathname
      else
        sg ← call (EvErrorMiddleware i) (emw_handler middleware err);
        match completion sg with
        | CThrow _ | CReject _ => executeErrorMiddlewareChain_from g (S i) rest err pathname
        | CPending => hang
        | CReturn _ | CResolve _ =>
            w ← get_world;
            if Express._ended (res w) then mret true
            else if truthy (nextError (calls sg))
                 then executeErrorMiddlewareChain_from g (S i) rest
                        (nextError (calls sg)) pathname
                 else mret true
        end
  end.

Definition executeErrorMiddlewareChain (g : Registry) (err : JsValue) (pathname : string)
  : M bool :=
  executeErrorMiddlewareChain_from g 0 (errorMiddlewares g) err pathname.

(** ** [handleRequest] *)

Definition build_res : M Response :=
  λ st, let '(response, r') := Express._buildResponse (res (world st)) in
        (Val response, {| world := with_res (world st) r'; trace := trace st |}).

Definition build_reply : M Response :=
  λ st, let '(response, r') := Fastify._buildResponse (fastifyReply (world st)) in
        (Val response, {| world := with_reply (world st) r'; trace := trace st |}).

(** [this.errorHandler(error, req, res)]: called, not awaited. *)
Definition call_errorHandler (h : ErrorHandler) (err : JsValue) : M () :=
  c ← call EvErrorHandler (h err);
  match c with
  | CThrow e => throw e
  | _ => mret ()
  end.

(** [res.status(500).json({ statusCode: 500, message })]. *)
Definition res_500 (message : JsValue) : M () :=
  modify_res (λ r, Express.json (JObj [("statusCode", JNum 500); ("message", message)])
                                (Express.status 500 r)).

(** [fastifyReply.code(500).send({ statusCode: 500, error: "Internal Server
    Error", message })]. *)
Definition reply_500 (message : JsValue) : M () :=
  modify_reply (λ r, Fastify.send
                       (JObj [("statusCode", JNum 500);
                              ("error", JStr "Internal Server Error");
                              ("message", message)])
                       (Fastify.code 500 r)).

(** [new Response(JSON.stringify({ statusCode, message }), { status:
    statusCode, headers: { "Content-Type": "application/json" } })]. *)
Definition json_Response (statusCode : Z) (message : JsValue) : Response :=
  new_Response (JSON_stringify (JObj [("statusCode", JNum statusCode); ("message", message)]))
               statusCode EmptyString [("content-type", "application/json")].

(** Both recovery blocks of the route handler (after [next(err)] and in the
    [catch]) have this shape. *)
Definition recover_handler_error (g : Registry) (err : JsValue) (pathname : string)
  : M Response :=
  errorHandled ← executeErrorMiddlewareChain g err pathname;
  if negb errorHandled then
    fastifyErrorHandled ← executeOnError (fastifyHooks g) (as_Error err);
    if negb fastifyErrorHandled then
      _ ← match errorHandler g with
          | Some h => call_errorHandler h err
          | None => res_500 (message_or "Internal Server Error" err)
          end;
      build_res
    else build_reply
  else build_res.

(** The recovery after a failed [onRequest] or [preHandler] phase. *)
Definition recover_hook_error (g : Registry) (err : JsValue) : M Response :=
  errorHandled ← executeOnError (fastifyHooks g) err;
  _ ← (if negb errorHandled then reply_500 (message_of err) else mret ());
  build_reply.

(** The [try] block around the route handler. *)
Definition run_route (g : Registry) (matchedRoute : Route) (pathname : string) : M Response :=
  try_catch
    (sg ← call EvHandler (handler matchedRoute);
     handlerResult ← await (completion sg);
     if truthy (nextError (calls sg))
     then recover_handler_error g (nextError (calls sg)) pathname
     else
       w ← get_world;
       match (if (negb (Express._ended (res w)) && negb (nullish handlerResult))%bool
              then Response_of_value handlerResult else None) with
       | Some response =>
           _ ← executeOnResponse (fastifyHooks g);
           mret response
       | None =>
         _ ← (if (negb (Express._ended (res w)) && negb (nullish handlerResult))%bool
              then modify_res (Express.send handlerResult)
              else mret ());
         w1 ← get_world;
         onSendResult ← executeOnSend (fastifyHooks g) (Express._body (res w1));
         handledByReply ←
           (if truthy (sr_error onSendResult) then
              errorHandled ← executeOnError (fastifyHooks g) (sr_error onSendResult);
              if negb errorHandled
              then _ ← res_500 (message_of (sr_error onSendResult)); mret false
              else mret true
            else mret false);
         if (handledByReply : bool) then build_reply
         else
           response ← build_res;
           _ ← executeOnResponse (fastifyHooks g);
           mret response
       end)
    (λ err, recover_handler_error g err pathname).

(** The [catch] block of the outer [try]: "top-level error handling". *)
Definition top_level_catch (g : Registry) (err : JsValue) : M Response :=
  match errorHandler g with
  | Some h => _ ← call_errorHandler h err; build_res
  | None => mret (json_Response 500 (message_or "Internal Server Error" err))
  end.

(** The outer [try] block of [handleRequest]. *)
Definition dispatch (g : Registry) (matched : option Route) (pathname : string) : M Response :=
  try_catch
    (onRequestError ← executeOnRequest (fastifyHooks g);
     if truthy onRequestError then recover_hook_error g onRequestError
     else
       w ← get_world;
       if Fastify.sent (fastifyReply w) then build_reply
       else
         middlewareResult ← executeMiddlewareChain g pathname;
         if truthy (error middlewareResult) then
           errorHandled ← executeErrorMiddlewareChain g (error middlewareResult) pathname;
           _ ← (if negb errorHandled then
                  match errorHandler g with
                  | Some h => call_errorHandler h (error middlewareResult)
                  | None => res_500 (message_or "Internal Server Error"
                                                (error middlewareResult))
                  end
                else mret ());
           build_res
         else
           w1 ← get_world;
           if (completed middlewareResult || Express._ended (res w1))%bool then build_res
           else
             preHandlerError ← executePreHandler (fastifyHooks g);
             if truthy preHandlerError then recover_hook_error g preHandlerError
             else
               w2 ← get_world;
               if Fastify.sent (fastifyReply w2) then build_reply
               else
                 match matched with
                 | Some matchedRoute => run_route g matchedRoute pathname
                 | None =>
                     match notFoundHandler g with
                     | Some h =>
                         sg ← call EvNotFound h;
                         _ ← await (completion sg);
                         build_res
                     | None => mret (json_Response 404 (JStr "Not Found"))
                     end
                 end)
    (top_level_catch g).

(** The state in which the outer [try] block starts: routing done, both
    views built, decorators applied, body parsed. [requestId] is what
    [generateRequestId] gave. *)
Definition initial_state (g : Registry) (bunRequest : BunRequest) (requestId : string) : St :=
  let pathname := br_pathname bunRequest in
  let method := Str.toUpperCase (br_method bunRequest) in
  let params :=
    match find_route (routes g) method pathname with
    | Some (route, captures) => Routing.bind_params (paramNames route) captures
    | None => ∅
    end in
  let parsedBody := parseRequestBody bunRequest in
  {| world :=
       {| req := Express.set_req_body (Express.createExpressRequest bunRequest params)
                                      parsedBody;
          res := Express.createExpressResponse;
          fastifyReq :=
            Fastify.set_req_body
              (applyRequestDecorators g
                 (Fastify.createFastifyRequest bunRequest params requestId))
              parsedBody;
          fastifyReply := applyReplyDecorators g Fastify.createFastifyReply |};
     trace := [] |}.

Definition handleRequest (g : Registry) (bunRequest : BunRequest) (requestId : string)
  : Outcome Response * St :=
  let pathname := br_pathname bunRequest in
  let method := Str.toUpperCase (br_method bunRequest) in
  dispatch g (fst <$> find_route (routes g) method pathname) pathname
           (initial_state g bunRequest requestId).

(** ** Plugins and [listen] *)

(** A plugin, called with its options and the instance: it changes what is
    registered, may register further plugins (these are pushed at the end of
    the list being initialized), and signals completion by [done(err)] or by
    the promise it returns. *)
Inductive FastifyPlugin : Type :=
| MkPlugin (run : JsValue → Registry →
                  Registry * list (FastifyPlugin * JsValue) * Signal JsValue).

Record BunAdapter : Type := mkBunAdapter {
  registry : Registry;
  plugins : list (FastifyPlugin * JsValue);
  fastifyInitialized : bool;
  listening : bool;
  pluginRuns : list nat;    (* observation: positions of the plugins run *)
}.

Definition new_BunAdapter : BunAdapter :=
  {| registry := empty_registry; plugins := []; fastifyInitialized := false;
     listening := false; pluginRuns := [] |}.

(** [register(plugin, opts)]. *)
Definition register (plugin : FastifyPlugin) (opts : JsValue) (a : BunAdapter) : BunAdapter :=
  {| registry := registry a; plugins := plugins a ++ [(plugin, opts)];
     fastifyInitialized := fastifyInitialized a; listening := listening a;
     pluginRuns := pluginRuns a |}.

(** How the promise that [initializePlugins] builds around one plugin
    settles. *)
Definition plugin_settles (sg : Signal JsValue) : Outcome () :=
  match calls sg with
  | err :: _ => if truthy err then Exn err else Val ()
  | [] =>
      match completion sg with
      | CResolve _ => Val ()
      | CReject e | CThrow e => Exn e
      | CReturn _ | CPending => Hang
      end
  end.

(** [FastifyPluginRegistry.initializePlugins]: the [for ... of] loop over
    the live array, from position [i]. The loop need not end (a plugin may
    register a plugin that registers a plugin ...): [None] is "no result
    within [fuel] iterations". *)
Fixpoint initializePlugins (fuel : nat) (i : nat) (a : BunAdapter)
  : option (Outcome () * BunAdapter) :=
  match fuel with
  | O => None
  | S fuel' =>
      match plugins a !! i with
      | None => Some (Val (), a)
      | Some (MkPlugin run, opts) =>
          let '(g', registered, sg) := run (coalesce opts (JObj [])) (registry a) in
          let a' := {| registry := g'; plugins := plugins a ++ registered;
                       fastifyInitialized := fastifyInitialized a;
                       listening := listening a;
                       pluginRuns := pluginRuns a ++ [i] |} in
          match plugin_settles sg with
          | Val _ => initializePlugins fuel' (S i) a'
          | Exn e => Some (Exn e, a')
          | Hang => Some (Hang, a')
          end
      end
  end.

Definition set_initialized (a : BunAdapter) : BunAdapter :=
  {| registry := registry a; plugins := plugins a; fastifyInitialized := true;
     listening := listening a; pluginRuns := pluginRuns a |}.

(** [initializeFastifyPlugins]. *)
Definition initializeFastifyPlugins (fuel : nat) (a : BunAdapter)
  : option (Outcome () * BunAdapter) :=
  if fastifyInitialized a then Some (Val (), a)
  else match initializePlugins fuel 0 a with
       | Some (Val _, a') => Some (Val (), set_initialized a')
       | r => r
       end.

(** [listen(port, ...)]: [serve_error] is the exception of [Bun.serve], if
    it throws (a port in use). The optional callback is not modelled. *)
Definition listen (fuel : nat) (serve_error : option JsValue) (a : BunAdapter)
  : option (Outcome () * BunAdapter) :=
  match initializeFastifyPlugins fuel a with
  | Some (Val _, a') =>
      match serve_error with
      | Some e => Some (Exn e, a')
      | None =>
          Some (Val (), {| registry := registry a'; plugins := plugins a';
                           fastifyInitialized := fastifyInitialized a';
                           listening := true; pluginRuns := pluginRuns a' |})
      end
  | r => r
  end.

End Adapter.

(* ===================================================================== *)
(** * Definitions that follow the words of the specification              *)
(* ===================================================================== *)

Module Spec.
Import Js Platform.

(** [c] occurs in [s]. *)
Fixpoint has_char (c : ascii) (s : string) : bool :=
  match s with
  | EmptyString => false
  | String a s' => (Ascii.eqb a c || has_char c s')%bool
  end.

(** The part of [s] before the first [c] (all of [s] without a [c]). *)
Fixpoint before_first (c : ascii) (s : string) : string :=
  match s with
  | EmptyString => EmptyString
  | String a s' => if Ascii.eqb a c then EmptyString else String a (before_first c s')
  end.

(** The part of [s] after the first [c] (empty without a [c]). *)
Fixpoint after_first (c : ascii) (s : string) : string :=
  match s with
  | EmptyString => EmptyString
  | String a s' => if Ascii.eqb a c then s' else after_first c s'
  end.

(** "Trims, splits each pair on the first [=], keeps the remainder as the
    value." *)
Definition add_cookie_spec (cs : gmap string string) (pair : string) : gmap string string :=
  let t := Str.trim pair in
  let name := before_first "=" t in
  if Str.eqb name EmptyString then cs
  else obj_set cs name (after_first "=" t).

(** The value bound to [key] by its first and by its last occurrence in a
    list of pairs. *)
Definition first_value (key : string) (pairs : list (string * string)) : option string :=
  snd <$> find (λ kv, Str.eqb (fst kv) key) pairs.

Definition last_value (key : string) (pairs : list (string * string)) : option string :=
  first_value key (reverse pairs).

(** The own property [key] of an object given by its property list. *)
Definition prop_get (props : list (string * JsValue)) (key : string) : option JsValue :=
  snd <$> find (λ kv, Str.eqb (fst kv) key) props.

(** "An entry matches if its method equals the request method or is the
    wildcard method, and its compiled pattern matches the full path": the
    captured groups of the match, if the entry matches. *)
Definition accepts (route : Adapter.Route) (method pathname : string) : option (list string) :=
  if (Str.eqb (Adapter.route_method route) method
      || Str.eqb (Adapter.route_method route) "ALL")%bool
  then Routing.rmatch (Adapter.pathPattern route) pathname
  else None.

(** A route pattern written segment by segment: literal segments and
    [:name] segments. *)
Inductive Segment : Type :=
| SLit (text : string)
| SParam (name : string).

Fixpoint all_chars (ok : ascii → bool) (s : string) : bool :=
  match s with
  | EmptyString => true
  | String a s' => (ok a && all_chars ok s')%bool
  end.

(** A character that stands for itself in a pattern. *)
Definition plain_char (a : ascii) : bool :=
  (negb (Routing.is_meta a) && negb (Ascii.eqb a ".") && negb (Ascii.eqb a ":")
   && negb (Ascii.eqb a "/"))%bool.

Definition segment_ok (seg : Segment) : Prop :=
  match seg with
  | SLit text => all_chars plain_char text = true
  | SParam name => name ≠ EmptyString ∧ all_chars Routing.is_name_char name = true
  end.

(** The pattern as the string given at registration. *)
Fixpoint render_pattern (segs : list Segment) : string :=
  match segs with
  | [] => EmptyString
  | SLit text :: segs' => "/" +:+ text +:+ render_pattern segs'
  | SParam name :: segs' => "/:" +:+ name +:+ render_pattern segs'
  end.

(** The names of the [:name] segments, in the order of declaration. *)
Fixpoint declared_names (segs : list Segment) : list string :=
  match segs with
  | [] => []
  | SLit _ :: segs' => declared_names segs'
  | SParam name :: segs' => name :: declared_names segs'
  end.

(** A request path written segment by segment. *)
Fixpoint render_path (values : list string) : string :=
  match values with
  | [] => EmptyString
  | v :: values' => "/" +:+ v +:+ render_path values'
  end.

(** The path segment fits the pattern segment. *)
Definition segment_fits (seg : Segment) (value : string) : Prop :=
  match seg with
  | SLit text => value = text
  | SParam _ => value ≠ EmptyString ∧ has_char "/" value = false
  end.

(** The path segments standing at the [:name] segments, in order. *)
Fixpoint param_values (segs : list Segment) (values : list string) : list string :=
  match segs, values with
  | SLit _ :: segs', _ :: values' => param_values segs' values'
  | SParam _ :: segs', v :: values' => v :: param_values segs' values'
  | _, _ => []
  end.

(** The tokens the pattern compiles to. *)
Fixpoint compiled (segs : list Segment) : list Routing.Tok :=
  match segs with
  | [] => []
  | SLit text :: segs' =>
      Routing.TChar "/" :: map Routing.TChar (list_ascii_of_string text) ++ compiled segs'
  | SParam _ :: segs' => Routing.TChar "/" :: Routing.TParam :: compiled segs'
  end.

(** What an [onSend] hook may do with the payload, in the words of the
    specification. *)
Inductive Reaction : Type :=
| Replace (f : JsValue → JsValue)   (* [done(undefined, f(payload))] *)
| Keep                              (* [done()] *)
| KeepAsync                         (* an [async] hook that returns without [done] *)
| Fail (e : JsValue)                (* [done(e)] *)
| FailAsync (e : JsValue).          (* an [async] hook that throws [e] *)

(** The hook that has the given effect on the world and reacts as said. *)
Definition reacting (effect : JsValue → Pipeline.World → Pipeline.World) (r : Reaction)
  : Pipeline.FastifyOnSendHook :=
  λ payload w,
    (effect payload w,
     match r with
     | Replace f => Pipeline.mkSignal [(JUndefined, f payload)] (Pipeline.CReturn JUndefined)
     | Keep => Pipeline.mkSignal [(JUndefined, JUndefined)] (Pipeline.CReturn JUndefined)
     | KeepAsync => Pipeline.mkSignal [] (Pipeline.CResolve JUndefined)
     | Fail e => Pipeline.mkSignal [(e, JUndefined)] (Pipeline.CReturn JUndefined)
     | FailAsync e => Pipeline.mkSignal [] (Pipeline.CReject e)
     end).

(** The payload threaded through the reactions in order, up to the first
    failure. *)
Fixpoint threaded (rs : list Reaction) (payload : JsValue) : Pipeline.SendResult :=
  match rs with
  | [] => {| Pipeline.sr_error := JUndefined; Pipeline.sr_payload := payload |}
  | Replace f :: rs' => threaded rs' (f payload)
  | Keep :: rs' | KeepAsync :: rs' => threaded rs' payload
  | Fail e :: _ | FailAsync e :: _ =>
      {| Pipeline.sr_error := e; Pipeline.sr_payload := payload |}
  end.

(** How many hooks are called: all up to and including the first failure. *)
Fixpoint invoked (rs : list Reaction) : nat :=
  match rs with
  | [] => 0
  | Fail _ :: _ | FailAsync _ :: _ => 1
  | _ :: rs' => S (invoked rs')
  end.

Definition well_formed (r : Reaction) : Prop :=
  match r with
  | Replace f => ∀ payload, nullish (f payload) = false
  | Fail e | FailAsync e => truthy e = true
  | Keep | KeepAsync => True
  end.

(** What one reacting hook hands back to [executeOnSend]. *)
Definition reaction_result (r : Reaction) (payload : JsValue) : Pipeline.SendResult :=
  match r with
  | Replace f =>
      {| Pipeline.sr_error := JUndefined;
         Pipeline.sr_payload := coalesce (f payload) payload |}
  | Keep | KeepAsync =>
      {| Pipeline.sr_error := JUndefined; Pipeline.sr_payload := payload |}
  | Fail e => {| Pipeline.sr_error := e; Pipeline.sr_payload := payload |}
  | FailAsync e => {| Pipeline.sr_error := e; Pipeline.sr_payload := JUndefined |}
  end.

(** The pattern string stops, or goes on with a slash. *)
Definition at_boundary (rest : string) : Prop :=
  rest = EmptyString ∨ ∃ rest', rest = String "/" rest'.

Definition not_star (a : ascii) : bool := negb (Ascii.eqb a "*").



(** The scope [p] of a middleware with its leading slash. *)
Definition normalized (p : string) : string :=
  if Str.startsWith p "/" then p else "/" +:+ p.





End Spec.

(* ===================================================================== *)
(** * Concrete requests and registrations used below                      *)
(* ===================================================================== *)

Module Examples.
Import Js Platform Pipeline Adapter.

Definition get_request (pathname search : string) (h : Headers) : BunRequest :=
  {| br_method := "GET"; br_pathname := pathname; br_search := search;
     br_hostname := "localhost"; br_headers := h; br_json := None;
     br_text := Some EmptyString; br_formData := None |}.

(** A request whose query string is [?a=1&a=2]. *)
Definition request_a1_a2 : BunRequest := get_request "/search" "?a=1&a=2" [].

(** A POST request with a binary body. *)
Definition request_octets : BunRequest :=
  {| br_method := "POST"; br_pathname := "/upload"; br_search := EmptyString;
     br_hostname := "localhost";
     br_headers := [("content-type", "application/octet-stream")];
     br_json := None; br_text := Some "abc"; br_formData := None |}.

(** A POST request with a form body. *)
Definition request_form : BunRequest :=
  {| br_method := "POST"; br_pathname := "/login"; br_search := EmptyString;
     br_hostname := "localhost";
     br_headers := [("content-type", "application/x-www-form-urlencoded")];
     br_json := None; br_text := Some "user=ann&user=bob"; br_formData := None |}.

(** A handler that answers nothing and returns. *)
Definition idle_handler : RouteHandler :=
  λ w, (w, mkSignal [] (CReturn JUndefined)).

Definition orgs_registry : option Registry :=
  addRoute "GET" "/orgs/:orgId/users/:userId" idle_handler empty_registry.

Definition orgs_request : BunRequest := get_request "/orgs/o1/users/u2" EmptyString [].

(** [(req, reply, payload, done) => done(undefined, payload + suffix)]. *)
Definition appending (suffix : string) : Spec.Reaction :=
  Spec.Replace (λ payload, JStr (toString payload +:+ suffix)).

Definition no_effect : JsValue → World → World := λ _ w, w.

Definition two_onSend_hooks : FastifyHooksManager :=
  {| onRequestHooks := []; preHandlerHooks := [];
     onSendHooks := [Spec.reacting no_effect (appending " first");
                     Spec.reacting no_effect (appending " second")];
     onErrorHooks := []; onResponseHooks := [] |}.

Definition start_state : St := initial_state empty_registry orgs_request "req-1".



(** A hook that lets the request pass. *)
Definition passing_hook : FastifyHook :=
  λ w, (w, mkSignal [JUndefined] (CReturn JUndefined)).

(** [(instance, opts, done) => { instance.addHook("onRequest", hook); done(); }]. *)
Definition hook_plugin : FastifyPlugin :=
  MkPlugin (λ _ g, (addHook_onRequest passing_hook g, [],
                    mkSignal [JUndefined] (CReturn JUndefined))).

(** [(instance, opts, done) => done(new Error("boom"))]. *)
Definition failing_plugin : FastifyPlugin :=
  MkPlugin (λ _ g, (g, [], mkSignal [JError "boom"] (CReturn JUndefined))).

(** A plugin that registers [hook_plugin] from inside. *)
Definition nesting_plugin : FastifyPlugin :=
  MkPlugin (λ _ g, (g, [(hook_plugin, JUndefined)],
                    mkSignal [JUndefined] (CReturn JUndefined))).

Definition adapter_with_failing_plugin : BunAdapter :=
  register failing_plugin JUndefined (register hook_plugin JUndefined new_BunAdapter).

Definition adapter_with_nested_plugin : BunAdapter :=
  register nesting_plugin JUndefined (register hook_plugin JUndefined new_BunAdapter).

(** [(req, reply, done) => done(new Error("boom"))]. *)
Definition failing_hook : FastifyHook :=
  λ w, (w, mkSignal [JError "boom"] (CReturn JUndefined)).

(** [(err, req, res, next) => { res.status(500).send("Handled"); }]. *)
Definition handling_error_middleware : ExpressErrorMiddleware :=
  λ _ w, (with_res w (Express.send (JStr "Handled") (Express.status 500 (res w))),
          mkSignal [] (CReturn JUndefined)).

(** An [onRequest] hook that fails, and an error middleware that would
    answer. *)
Definition registry_with_failing_hook : Registry :=
  use_error "/" handling_error_middleware (addHook_onRequest failing_hook empty_registry).

(** [(req, res) => { throw new Error("boom"); }]. *)
Definition throwing_handler : RouteHandler :=
  λ w, (w, mkSignal [] (CThrow (JError "boom"))).

(** [(req, res) => res.send("ok")]. *)
Definition ok_handler : RouteHandler :=
  λ w, (with_res w (Express.send (JStr "ok") (res w)), mkSignal [] (CReturn JUndefined)).

Definition throwing_route : Route :=
  {| route_path := "/boom"; route_method := "GET"; handler := throwing_handler;
     pathPattern := map Routing.TChar (list_ascii_of_string "/boom"); paramNames := [] |}.

(** One [onResponse] hook, and the route [GET /ok]. *)
Definition registry_with_onResponse : option Registry :=
  addRoute "GET" "/ok" ok_handler (addHook_onResponse passing_hook empty_registry).

(** [(req, reply, done) => { throw new Error("late"); }]. *)
Definition throwing_hook : FastifyHook :=
  λ w, (w, mkSignal [] (CThrow (JError "late"))).

Definition registry_with_throwing_onResponse : option Registry :=
  addRoute "GET" "/ok" ok_handler (addHook_onResponse throwing_hook empty_registry).

(** [(req, reply, payload, done) => { throw new Error("boom"); }]. *)
Definition throwing_onSend_hook : FastifyOnSendHook :=
  λ _ w, (w, mkSignal [] (CThrow (JError "boom"))).

(** [async (req, reply, payload) => { throw new Error("boom"); }]. *)
Definition rejecting_onSend_hook : FastifyOnSendHook :=
  λ _ w, (w, mkSignal [] (CReject (JError "boom"))).

(** [(req, reply, payload, done) => done(new Error("boom"))]. *)
Definition reporting_onSend_hook : FastifyOnSendHook :=
  λ _ w, (w, mkSignal [(JError "boom", JUndefined)] (CReturn JUndefined)).

Definition hooks_with_onSend (first : FastifyOnSendHook) : FastifyHooksManager :=
  {| onRequestHooks := []; preHandlerHooks := [];
     onSendHooks := [first; Spec.reacting no_effect (appending " second")];
     onErrorHooks := []; onResponseHooks := [] |}.

(** The route [GET /ok], an error middleware that would answer, and an
    [onSend] hook. *)
Definition registry_with_onSend (first : FastifyOnSendHook) : option Registry :=
  addRoute "GET" "/ok" ok_handler
    (with_hooks (use_error "/" handling_error_middleware empty_registry)
                (hooks_with_onSend first)).



End Examples.


(* ===================================================================== *)
(** * [express-compat.ts] and [fastify-compat.ts]: the remaining methods  *)
(* ===================================================================== *)

Module ExpressMore.
Import Js Platform.

(** ** Methods of the request, read off the raw request they close over *)

(** [req.get(field)] and [req.header(field)]. *)
Definition get (bunRequest : BunRequest) (field : string) : option string :=
  h_get (br_headers bunRequest) (Str.toLowerCase field).

(** The loop shared by [accepts], [acceptsCharsets], [acceptsEncodings] and
    [acceptsLanguages]: the first candidate that the header value holds as
    a substring, every candidate passing when the value holds the wildcard;
    [None] is [false]. *)
Fixpoint first_accepted (accept wildcard : string) (candidates : list string)
  : option string :=
  match candidates with
  | [] => None
  | c :: rest =>
      if (Str.includes accept c || Str.includes accept wildcard)%bool then Some c
      else first_accepted accept wildcard rest
  end.

Definition accepts (bunRequest : BunRequest) (types : list string) : option string :=
  first_accepted (default "*/*" (h_get (br_headers bunRequest) "accept")) "*/*" types.

Definition acceptsCharsets (bunRequest : BunRequest) (charsets : list string)
  : option string :=
  first_accepted (default "*" (h_get (br_headers bunRequest) "accept-charset")) "*" charsets.

Definition acceptsEncodings (bunRequest : BunRequest) (encodings : list string)
  : option string :=
  first_accepted (default "*" (h_get (br_headers bunRequest) "accept-encoding")) "*"
                 encodings.

Definition acceptsLanguages (bunRequest : BunRequest) (languages : list string)
  : option string :=
  first_accepted (default "*" (h_get (br_headers bunRequest) "accept-language")) "*"
                 languages.

(** The result of [req.is(type)]: [null], [false] or the type. *)
Inductive IsResult : Type :=
| IsNull
| IsFalse
| IsType (type : string).

Definition is_ (bunRequest : BunRequest) (type : string) : IsResult :=
  match h_get (br_headers bunRequest) "content-type" with
  | None => IsNull
  | Some contentType =>
      if Str.eqb contentType EmptyString then IsNull
      else if Str.includes contentType type then IsType type else IsFalse
  end.

(** ** Methods of the response *)

(** [res.getHeader(field)] is [Express.get]; [res.header(field, value)] and
    [res.setHeader(field, value)] are [Express.set]; [res.contentType(type)]
    is [Express.type]. *)

(** [res.statusCode = code]: the setter writes the variable of the closure
    only. *)
Definition set_statusCode (code : Z) (r : Express.ExpressResponse) : Express.ExpressResponse :=
  {| Express.res_headers := Express.res_headers r; Express.statusCode := code;
     Express.statusMessage := Express.statusMessage r;
     Express.res_body := Express.res_body r; Express.ended := Express.ended r;
     Express.headersSent := Express.headersSent r;
     Express._statusCode := Express._statusCode r; Express._body := Express._body r;
     Express._ended := Express._ended r;
     Express.this_headersSent := Express.this_headersSent r |}.

(** [encodeURIComponent(s)] on characters 0..255: letters, digits and
    [- _ . ! ~ * ' ( )] stand for themselves, the other characters are
    written as the percent-encoded bytes of their UTF-8 form. *)
Definition unreserved (a : ascii) : bool :=
  (Str.is_lower a || Str.is_upper a || Str.is_digit a
   || existsb (Ascii.eqb a) (list_ascii_of_string "-_.!~*'()"))%bool.

Definition upper_hex_digit (n : nat) : ascii :=
  if Nat.ltb n 10 then Str.chr (48 + n) else Str.chr (55 + n).

Definition percent_byte (n : nat) : string :=
  String "%" (String (upper_hex_digit (Nat.div n 16))
                     (String (upper_hex_digit (Nat.modulo n 16)) EmptyString)).

Definition encode_char (a : ascii) : string :=
  let n := Ascii.nat_of_ascii a in
  if unreserved a then String a EmptyString
  else if Nat.ltb n 128 then percent_byte n
  else percent_byte (192 + Nat.div n 64) +:+ percent_byte (128 + Nat.modulo n 64).

Fixpoint encodeURIComponent (s : string) : string :=
  match s with
  | EmptyString => EmptyString
  | String a s' => encode_char a +:+ encodeURIComponent s'
  end.

(** The [sameSite] option: absent or [false], [true], or a string. *)
Inductive SameSite : Type :=
| SameSiteOff
| SameSiteTrue
| SameSiteValue (v : string).

(** [CookieOptions]; a [Date] is given by what its [toUTCString()] prints.
    ([encode] and [signed] are not read by the source.) *)
Record CookieOptions : Type := mkCookieOptions {
  domain : option string;
  expires : option string;
  httpOnly : bool;
  maxAge : option Z;
  path : option string;
  secure : bool;
  sameSite : SameSite;
}.

Definition no_options : CookieOptions :=
  {| domain := None; expires := None; httpOnly := false; maxAge := None;
     path := None; secure := false; sameSite := SameSiteOff |}.

(** [if (options.x) cookie += ...] for a string option: absent and empty
    strings add nothing. *)
Definition attribute (label : string) (value : option string) : string :=
  match value with
  | Some v => if Str.eqb v EmptyString then EmptyString else label +:+ v
  | None => EmptyString
  end.

(** [v.charAt(0).toUpperCase() + v.slice(1)], for a value that starts with
    an ASCII character. *)
Definition capitalize (v : string) : string :=
  match v with
  | EmptyString => EmptyString
  | String a v' => String (Str.upper_char a) v'
  end.

(** The text of the [Set-Cookie] header that [res.cookie] builds. *)
Definition cookie_text (name value : string) (options : CookieOptions) : string :=
  name +:+ "=" +:+ encodeURIComponent value
  +:+ match maxAge options with
      | Some n => "; Max-Age=" +:+ Str.of_Z n
      | None => EmptyString
      end
  +:+ match expires options with
      | Some utc => "; Expires=" +:+ utc
      | None => EmptyString
      end
  +:+ attribute "; Path=" (path options)
  +:+ attribute "; Domain=" (domain options)
  +:+ (if secure options then "; Secure" else EmptyString)
  +:+ (if httpOnly options then "; HttpOnly" else EmptyString)
  +:+ match sameSite options with
      | SameSiteOff => EmptyString
      | SameSiteTrue => "; SameSite=Strict"
      | SameSiteValue v =>
          if Str.eqb v EmptyString then EmptyString
          else "; SameSite=" +:+ capitalize v
      end.

(** [res.cookie(name, value, options)]. *)
Definition cookie (name value : string) (options : CookieOptions)
    (r : Express.ExpressResponse) : Express.ExpressResponse :=
  Express.with_headers r
    (h_append (Express.res_headers r) "Set-Cookie" (cookie_text name value options)).

(** [new Date(0).toUTCString()]. *)
Definition epoch : string := "Thu, 01 Jan 1970 00:00:00 GMT".

(** [res.clearCookie(name, options)]:
    [this.cookie] with the empty value and the options extended by
    [expires: new Date(0)]. *)
Definition clearCookie (name : string) (options : CookieOptions)
    (r : Express.ExpressResponse) : Express.ExpressResponse :=
  cookie name EmptyString
    {| domain := domain options; expires := Some epoch; httpOnly := httpOnly options;
       maxAge := maxAge options; path := path options; secure := secure options;
       sameSite := sameSite options |} r.

End ExpressMore.

Module FastifyMore.
Import Js Platform.

(** [reply.getHeader(key)]. *)
Definition getHeader (key : string) (r : Fastify.FastifyReply) : option string :=
  h_get (Fastify.reply_headers r) key.

(** [reply.hasHeader(key)]. *)
Definition hasHeader (key : string) (r : Fastify.FastifyReply) : bool :=
  h_has (Fastify.reply_headers r) key.

(** [reply.headers(obj)] with the entries of [obj]. *)
Definition headers (newHeaders : list (string * string)) (r : Fastify.FastifyReply)
  : Fastify.FastifyReply :=
  foldl (λ r' kv, Fastify.header (fst kv) (snd kv) r') r newHeaders.

End FastifyMore.

(* ===================================================================== *)
(** * [bun-adapter.ts]: registration, helpers and the server wrapper      *)
(* ===================================================================== *)

Module AdapterMore.
Import Js Platform Pipeline Adapter.

(** ** [use(...args)]

    An argument of [use]: a string, a function of fewer or more than four
    declared parameters, a function of exactly four, an array, or any other
    value. *)
Inductive UseArg : Type :=
| AString (s : string)
| AMiddleware (fn : ExpressMiddleware)
| AErrorMiddleware (fn : ExpressErrorMiddleware)
| AArray (items : list UseArg)
| AOther.

(** The body shared by the loops of [use]: a function is pushed on the list
    its arity selects, anything else is passed over. *)
Definition push (path : string) (g : Registry) (arg : UseArg) : Registry :=
  match arg with
  | AMiddleware fn => Adapter.use path fn g
  | AErrorMiddleware fn => use_error path fn g
  | _ => g
  end.

Definition is_function (arg : UseArg) : bool :=
  match arg with AMiddleware _ | AErrorMiddleware _ => true | _ => false end.

(** [use(...args)]. *)
Definition use (args : list UseArg) (g : Registry) : Registry :=
  match args with
  | [] => g
  | [fn] =>
      if is_function fn then push "/" g fn
      else match fn with
           | AArray items => foldl (push "/") g items
           | _ => g
           end
  | AString path :: rest => foldl (push path) g rest
  | _ =>
      foldl (λ g' arg, match arg with
                       | AArray items => foldl (push "/") g' items
                       | _ => push "/" g' arg
                       end) g args
  end.

(** ** [enableCors(options)] *)

(** The [origin] option; a function is not called by the source. *)
Inductive CorsOrigin : Type :=
| OriginBool (b : bool)
| OriginString (s : string)
| OriginList (l : list string)
| OriginFunction.

(** An option that is a string or an array of strings. *)
Inductive StringOrList : Type :=
| One (s : string)
| Many (l : list string).

Record CorsOptions : Type := mkCorsOptions {
  origin : option CorsOrigin;
  methods : option StringOrList;
  allowedHeaders : option StringOrList;
  exposedHeaders : option StringOrList;
  credentials : option bool;
  maxAge : option Z;
  preflightContinue : option bool;
  optionsSuccessStatus : option Z;
}.

(** [enableCors()] and [enableCors({})]. *)
Definition no_options : CorsOptions :=
  {| origin := None; methods := None; allowedHeaders := None; exposedHeaders := None;
     credentials := None; maxAge := None; preflightContinue := None;
     optionsSuccessStatus := None |}.

(** [Array.isArray(x) ? x.join(",") : x]. *)
Definition joined (x : StringOrList) : string :=
  match x with
  | One s => s
  | Many l => Str.join "," l
  end.

(** [requestOrigin || "*"]. *)
Definition or_star (requestOrigin : string) : string :=
  if Str.eqb requestOrigin EmptyString then "*" else requestOrigin.

(** The value written to [Access-Control-Allow-Origin]. *)
Definition allowOrigin (o : CorsOrigin) (requestOrigin : string) : string :=
  match o with
  | OriginBool b => if b then or_star requestOrigin else EmptyString
  | OriginString s => s
  | OriginList l =>
      if bool_decide (requestOrigin ∈ l) then requestOrigin
      else match l with
           | first :: _ => first
           | [] => "*"
           end
  | OriginFunction => or_star requestOrigin
  end.

(** The headers every request gets. *)
Definition cors_headers (options : CorsOptions) (requestOrigin : string)
    (r : Express.ExpressResponse) : Express.ExpressResponse :=
  let r1 := Express.set "Access-Control-Allow-Origin"
              (allowOrigin (default (OriginString "*") (origin options)) requestOrigin) r in
  let r2 := Express.set "Access-Control-Allow-Methods"
              (joined (default (One "GET,HEAD,PUT,PATCH,POST,DELETE") (methods options))) r1 in
  let r3 := Express.set "Access-Control-Allow-Headers"
              (joined (default (One "*") (allowedHeaders options))) r2 in
  let exposed := joined (default (One EmptyString) (exposedHeaders options)) in
  let r4 := if Str.eqb exposed EmptyString then r3
            else Express.set "Access-Control-Expose-Headers" exposed r3 in
  let r5 := if default false (credentials options)
            then Express.set "Access-Control-Allow-Credentials" "true" r4
            else r4 in
  Express.set "Access-Control-Max-Age" (Str.of_Z (default 86400 (maxAge options))) r5.

(** The middleware that [enableCors] registers. *)
Definition cors_middleware (options : CorsOptions) : ExpressMiddleware :=
  λ w,
    let requestOrigin :=
      default EmptyString (ExpressMore.get (Express.raw (req w)) "origin") in
    let r := cors_headers options requestOrigin (res w) in
    if Str.eqb (Express.method (req w)) "OPTIONS" then
      if default false (preflightContinue options)
      then (with_res w r, mkSignal [JUndefined] (CReturn JUndefined))
      else (with_res w (Express.end_ JUndefined
                          (Express.status (default 204 (optionsSuccessStatus options)) r)),
            mkSignal [] (CReturn JUndefined))
    else (with_res w r, mkSignal [JUndefined] (CReturn JUndefined)).

Definition enableCors (options : option CorsOptions) (g : Registry) : Registry :=
  Adapter.use "/" (cors_middleware (default no_options options)) g.

(** ** Decorator checks *)
Definition hasDecorator (name : string) (g : Registry) : bool :=
  map_has (decorators g) name.

(** ** [wrapFastifyHandler]

    A Fastify route handler is called with a request view and a reply made
    for this call; it gives back the reply as it left it. *)
Definition FastifyRouteHandler : Type :=
  Fastify.FastifyRequest → Fastify.FastifyReply → World →
  World * Fastify.FastifyReply * Completion.

(** [builtResponse.headers.forEach((value, key) => { res.set(key, value); })]. *)
Definition copy_headers (response : Response) (r : Express.ExpressResponse)
  : Express.ExpressResponse :=
  Express.set_all (h_entries (headers response)) r.

(** The handler that [wrapFastifyHandler(handler)] returns; [requestId] is
    what [generateRequestId] gives for the request view. An [async]
    function: it always returns a promise. When the platform does not take
    what the reply builds ([Fastify.buildable]), [_buildResponse] throws
    inside the [try] and the error goes to [next]; the definition gives the
    other case, which the statements ask for. *)
Definition wrapFastifyHandler (g : Registry) (requestId : string)
    (handler : FastifyRouteHandler) : RouteHandler :=
  λ w,
    let fastifyReq :=
      applyRequestDecorators g
        (Fastify.set_req_body
           (Fastify.createFastifyRequest (Express.raw (req w)) (Express.params (req w))
                                         requestId)
           (Express.body (req w))) in
    let fastifyReply := applyReplyDecorators g Fastify.createFastifyReply in
    let '(w', reply', c) := handler fastifyReq fastifyReply w in
    match c with
    | CThrow e | CReject e => (w', mkSignal [e] (CResolve JUndefined))
    | CPending => (w', mkSignal [] CPending)
    | CReturn result | CResolve result =>
        if Fastify.sent reply' then
          let '(builtResponse, reply'') := Fastify._buildResponse reply' in
          let r1 := Express.status (Fastify.statusCode reply'') (res w') in
          let r2 := copy_headers builtResponse r1 in
          let r3 := if nullish (Fastify._body reply'') then Express.end_ JUndefined r2
                    else Express.send (Fastify._body reply'') r2 in
          (with_res w' r3, mkSignal [] (CResolve JUndefined))
        else (w', mkSignal [] (CResolve result))
    end.

(** ** [reply(response, body, statusCode)] *)

(** The branch taken for a response of [createExpressResponse]. *)
Definition reply_express (r : Express.ExpressResponse) (body : JsValue)
    (statusCode : option Z) : Express.ExpressResponse :=
  let r1 := match statusCode with
            | Some c => if c =? 0 then r else Express.status c r
            | None => r
            end in
  if nullish body then Express.end_ JUndefined r1
  else if (typeof_object body && negb (is_bytes body) && negb (is_stream body))%bool
       then Express.json body r1
       else Express.send body r1.

(** A header written unless the name is present. *)
Definition default_header (h : Headers) (name value : string) : Headers :=
  if h_has h name then h else h_set h name value.

(** The branch taken for a native [Response]: only its headers are read.
    The status is handed to [new Response] as it is, which takes it under
    [Response_init_ok]. *)
Definition reply_native (response : Response) (body : JsValue) (statusCode : option Z)
  : Response :=
  let status := default 200 statusCode in
  let headers := headers response in
  if nullish body then new_Response JNull status EmptyString headers
  else if is_string body
       then new_Response body status EmptyString (default_header headers "Content-Type" "text/plain")
  else if is_bytes body
       then new_Response body status EmptyString
              (default_header headers "Content-Type" "application/octet-stream")
  else if is_stream body then new_Response body status EmptyString headers
  else new_Response (JSON_stringify body) status EmptyString
         (default_header headers "Content-Type" "application/json").

(** ** The helpers on a native [Response]: each makes a new response with
    [new Response(response.body, { status, statusText, headers })], which
    the platform takes under [Response_init_ok]. *)
Definition rebuild (response : Response) (status : Z) (statusText : string) (h : Headers)
  : Response :=
  new_Response (Platform.body response) status statusText h.

Definition status (response : Response) (statusCode : Z) : Response :=
  rebuild response statusCode (statusText response) (headers response).

Definition redirect (response : Response) (statusCode : Z) (url : string) : Response :=
  Response_redirect url statusCode.

Definition setHeader (response : Response) (name value : string) : Response :=
  rebuild response (Platform.status response) (statusText response)
          (h_set (headers response) name value).

Definition getHeader (response : Response) (name : string) : option string :=
  h_get (headers response) name.

Definition appendHeader (response : Response) (name value : string) : Response :=
  rebuild response (Platform.status response) (statusText response)
          (h_append (headers response) name value).

Definition isHeadersSent (response : Response) : bool := false.

(** ** The verb methods: [get(handler)] registers under ["/"],
    [get(path, handler)] under [path]. *)
Definition verb (method : string) (path : option string) (h : RouteHandler)
    (g : Registry) : option Registry :=
  addRoute method (default "/" path) h g.

Definition get := verb "GET".
Definition post := verb "POST".
Definition put := verb "PUT".
Definition delete := verb "DELETE".
Definition patch := verb "PATCH".
Definition options := verb "OPTIONS".
Definition head := verb "HEAD".
Definition all := verb "ALL".

End AdapterMore.

(* ===================================================================== *)
(** * [BunServerWrapper]                                                  *)
(* ===================================================================== *)

Module Server.

(** What the wrapper reads of a [Bun.serve] server. *)
Record BunServer : Type := mkBunServer {
  port : option Z;
  hostname : option string;
}.

(** The wrapper: its fields, the events emitted so far and the servers
    stopped so far. *)
Record BunServerWrapper : Type := mkWrapper {
  _server : option BunServer;
  listening : bool;
  emitted : list string;
  stopped : list BunServer;
}.

Definition new_BunServerWrapper : BunServerWrapper :=
  {| _server := None; listening := false; emitted := []; stopped := [] |}.

(** [wrapper.server = value]. *)
Definition set_server (value : option BunServer) (w : BunServerWrapper) : BunServerWrapper :=
  match value with
  | Some _ => {| _server := value; listening := true;
                 emitted := emitted w ++ ["listening"]; stopped := stopped w |}
  | None => {| _server := None; listening := listening w;
               emitted := emitted w; stopped := stopped w |}
  end.

(** [wrapper.address()]. *)
Definition address (w : BunServerWrapper) : option (Z * string) :=
  match _server w with
  | None => None
  | Some s => Some (default 0 (port s), default "0.0.0.0" (hostname s))
  end.

(** [wrapper.close(callback)]; the callback is the caller's. *)
Definition close (w : BunServerWrapper) : BunServerWrapper :=
  match _server w with
  | Some s => {| _server := None; listening := false;
                 emitted := emitted w ++ ["close"]; stopped := stopped w ++ [s] |}
  | None => {| _server := _server w; listening := listening w;
               emitted := emitted w ++ ["close"]; stopped := stopped w |}
  end.

(** What the adapter does to its wrapper: [listen] assigns the server that
    [Bun.serve] returned, [close] closes. *)
Inductive Step : Type :=
| Listen (s : BunServer)
| Close.

Definition step (w : BunServerWrapper) (op : Step) : BunServerWrapper :=
  match op with
  | Listen s => set_server (Some s) w
  | Close => close w
  end.

Definition run (ops : list Step) : BunServerWrapper := foldl step new_BunServerWrapper ops.

End Server.

(* ===================================================================== *)
(** * Predicates used by the statements about the remaining code          *)
(* ===================================================================== *)

Module Shape.


(** The rest of a pattern that cannot start in the middle of a path
    segment. *)
Definition stops_at_slash (k : string → option (list string)) : Prop :=
  ∀ a s, Ascii.eqb a "/" = false → k (String a s) = None.

(** A hook settles when it calls [done] or returns a promise that
    settles. *)
Definition settles (sg : Pipeline.Signal Js.JsValue) : bool :=
  match Pipeline.calls sg with
  | _ :: _ => true
  | [] =>
      match Pipeline.completion sg with
      | Pipeline.CResolve _ | Pipeline.CReject _ => true
      | _ => false
      end
  end.

(** What a settled hook reports: the argument of its first call of [done],
    or the reason of the rejection of its promise. *)
Definition reported (sg : Pipeline.Signal Js.JsValue) : Js.JsValue :=
  match Pipeline.calls sg with
  | err :: _ => err
  | [] =>
      match Pipeline.completion sg with
      | Pipeline.CReject e => e
      | _ => Js.JUndefined
      end
  end.

Definition unsent (w : Pipeline.World) : Prop :=
  Fastify.sent (Pipeline.fastifyReply w) = false.

(** On a reply not yet sent, the hook settles, reports no [Error] and sends
    nothing. *)
Definition passes_on (hook : Pipeline.FastifyHook) : Prop :=
  ∀ w, unsent w →
    settles (snd (hook w)) = true
    ∧ Js.is_Error (reported (snd (hook w))) = false
    ∧ unsent (fst (hook w)).

(** On a reply not yet sent, the hook settles and either reports an
    [Error] or sends the reply. *)
Definition stops (hook : Pipeline.FastifyHook) : Prop :=
  ∀ w, unsent w →
    settles (snd (hook w)) = true
    ∧ (Js.is_Error (reported (snd (hook w)))
       || Fastify.sent (Pipeline.fastifyReply (fst (hook w))))%bool = true.

(** The hook settles in every world. *)
Definition always_settles (hook : Pipeline.FastifyHook) : Prop :=
  ∀ w, settles (snd (hook w)) = true.

(** An [onError] hook marks the error handled by a call of [done] with a
    falsy argument. *)
Definition marks_handled (sg : Pipeline.Signal Js.JsValue) : bool :=
  existsb (λ err, negb (Js.truthy err)) (Pipeline.calls sg).

(** On a reply not yet sent, the [onError] hook settles without marking the
    error handled and without sending. *)
Definition declines (hook : Pipeline.FastifyOnErrorHook) : Prop :=
  ∀ e w, unsent w →
    settles (snd (hook e w)) = true
    ∧ marks_handled (snd (hook e w)) = false
    ∧ unsent (fst (hook e w)).

(** On a reply not yet sent, the [onError] hook settles and marks the error
    handled or sends the reply. *)
Definition handles (hook : Pipeline.FastifyOnErrorHook) : Prop :=
  ∀ e w, unsent w →
    settles (snd (hook e w)) = true
    ∧ (marks_handled (snd (hook e w))
       || Fastify.sent (Pipeline.fastifyReply (fst (hook e w))))%bool = true.

(** ** Requests that reach the handler *)

(** Nothing has answered yet: the reply is not sent and the response is not
    ended. *)
Definition open (w : Pipeline.World) : Prop :=
  unsent w ∧ Express._ended (Pipeline.res w) = false.

(** In a world where [I] holds, the hook settles, reports no [Error] and
    leaves a world where [I] holds. *)
Definition hook_keeps (I : Pipeline.World → Prop) (hook : Pipeline.FastifyHook) : Prop :=
  ∀ w, I w →
    settles (snd (hook w)) = true
    ∧ Js.is_Error (reported (snd (hook w))) = false
    ∧ I (fst (hook w)).

(** In a world where [I] holds, the middleware returns (or its promise
    fulfils) having called [next()] without an error, and leaves a world
    where [I] holds. *)
Definition middleware_keeps (I : Pipeline.World → Prop) (mw : Pipeline.ExpressMiddleware)
  : Prop :=
  ∀ w, I w →
    (∃ v, Pipeline.completion (snd (mw w)) = Pipeline.CReturn v
          ∨ Pipeline.completion (snd (mw w)) = Pipeline.CResolve v)
    ∧ Pipeline.nextCalled (Pipeline.calls (snd (mw w))) = true
    ∧ Js.truthy (Pipeline.nextError (Pipeline.calls (snd (mw w)))) = false
    ∧ I (fst (mw w)).

(** The middleware is in scope of the path, as the dispatcher decides it. *)
Definition in_scope_of (g : Adapter.Registry) (q : string) (mw : Adapter.MiddlewareEntry)
  : bool :=
  Routing.pathMatchesMiddleware q
    (Routing.buildPath (Adapter.globalPrefix g) (Adapter.mw_path mw)).

(** The positions, from [i] on, of the middleware in scope of the path. *)
Fixpoint scoped (g : Adapter.Registry) (i : nat) (mws : list Adapter.MiddlewareEntry)
    (q : string) : list nat :=
  match mws with
  | [] => []
  | mw :: rest =>
      if in_scope_of g q mw then i :: scoped g (S i) rest q else scoped g (S i) rest q
  end.

(** Every [onRequest] hook, every middleware in scope of the path and every
    [preHandler] hook keeps [I]. *)
Definition lets_pass (I : Pipeline.World → Prop) (g : Adapter.Registry) (q : string) : Prop :=
  Forall (hook_keeps I) (Pipeline.onRequestHooks (Adapter.fastifyHooks g))
  ∧ Forall (λ mw, in_scope_of g q mw = true → middleware_keeps I (Adapter.mw_handler mw))
           (Adapter.middlewares g)
  ∧ Forall (hook_keeps I) (Pipeline.preHandlerHooks (Adapter.fastifyHooks g)).

(** The callbacks run before the handler of a request that passes. *)
Definition before_handler (g : Adapter.Registry) (q : string) : list Pipeline.Event :=
  map Pipeline.EvOnRequest
      (seq 0 (length (Pipeline.onRequestHooks (Adapter.fastifyHooks g))))
  ++ map Pipeline.EvMiddleware (scoped g 0 (Adapter.middlewares g) q)
  ++ map Pipeline.EvPreHandler
         (seq 0 (length (Pipeline.preHandlerHooks (Adapter.fastifyHooks g)))).

(** In a world where [I] holds, the handler returns [v] (or its promise
    fulfils with it) without passing an error to [next] and without ending
    the response. *)
Definition returns_value (I : Pipeline.World → Prop) (h : Pipeline.RouteHandler)
    (v : Js.JsValue) : Prop :=
  ∀ w, I w →
    (Pipeline.completion (snd (h w)) = Pipeline.CReturn v
     ∨ Pipeline.completion (snd (h w)) = Pipeline.CResolve v)
    ∧ Js.truthy (Pipeline.nextError (Pipeline.calls (snd (h w)))) = false
    ∧ Express._ended (Pipeline.res (fst (h w))) = false.


(** In a world where [I] holds, the middleware returns (or its promise
    fulfils) without an error, having ended the response or not having
    called [next]. *)
Definition answers (I : Pipeline.World → Prop) (mw : Pipeline.ExpressMiddleware) : Prop :=
  ∀ w, I w →
    (∃ v, Pipeline.completion (snd (mw w)) = Pipeline.CReturn v
          ∨ Pipeline.completion (snd (mw w)) = Pipeline.CResolve v)
    ∧ Js.truthy (Pipeline.nextError (Pipeline.calls (snd (mw w)))) = false
    ∧ (Express._ended (Pipeline.res (fst (mw w))) = true
       ∨ Pipeline.nextCalled (Pipeline.calls (snd (mw w))) = false).





(** In a world where [I] holds, the middleware fails with [e]: it throws
    [e], its promise rejects with [e], or it returns having passed [e] to
    [next]. *)
Definition fails (I : Pipeline.World → Prop) (mw : Pipeline.ExpressMiddleware)
    (e : Js.JsValue) : Prop :=
  ∀ w, I w →
    Pipeline.completion (snd (mw w)) = Pipeline.CThrow e
    ∨ Pipeline.completion (snd (mw w)) = Pipeline.CReject e
    ∨ ((∃ v, Pipeline.completion (snd (mw w)) = Pipeline.CReturn v
             ∨ Pipeline.completion (snd (mw w)) = Pipeline.CResolve v)
       ∧ Pipeline.nextError (Pipeline.calls (snd (mw w))) = e).

(** The entries that the functions of fewer or more than four parameters
    among [args] make under [path], and those that the functions of four
    parameters make. *)
Definition plain_entries (path : string) (args : list AdapterMore.UseArg)
  : list Adapter.MiddlewareEntry :=
  omap (λ arg, match arg with
               | AdapterMore.AMiddleware fn =>
                   Some {| Adapter.mw_path := path; Adapter.mw_handler := fn |}
               | _ => None
               end) args.

Definition error_entries (path : string) (args : list AdapterMore.UseArg)
  : list Adapter.ErrorMiddlewareEntry :=
  omap (λ arg, match arg with
               | AdapterMore.AErrorMiddleware fn =>
                   Some {| Adapter.emw_path := path; Adapter.emw_handler := fn |}
               | _ => None
               end) args.

(** ** What the platform takes *)



(** No decorator goes by the name of a member of the view. *)
Definition free_of (members : list string) (decorators : list (string * Js.JsValue))
  : Prop :=
  Forall (λ kv, fst kv ∉ members) decorators.

(** The values that the CORS middleware writes for a request of the given
    origin are values that [Headers] accepts. *)
Definition cors_values_ok (options : AdapterMore.CorsOptions) (requestOrigin : string)
  : bool :=
  (Platform.is_field_value
     (AdapterMore.allowOrigin
        (default (AdapterMore.OriginString "*") (AdapterMore.origin options))
        requestOrigin)
   && Platform.is_field_value
        (AdapterMore.joined (default (AdapterMore.One "GET,HEAD,PUT,PATCH,POST,DELETE")
                                     (AdapterMore.methods options)))
   && Platform.is_field_value
        (AdapterMore.joined (default (AdapterMore.One "*")
                                     (AdapterMore.allowedHeaders options)))
   && Platform.is_field_value
        (AdapterMore.joined (default (AdapterMore.One EmptyString)
                                     (AdapterMore.exposedHeaders options))))%bool.

(** The event that one step of the server wrapper emits. *)
Definition event_of (op : Server.Step) : string :=
  match op with
  | Server.Listen _ => "listening"
  | Server.Close => "close"
  end.

End Shape.

(* ===================================================================== *)
(** * Further concrete inputs                                             *)
(* ===================================================================== *)

Module Cases.
Import Js Platform Pipeline Adapter.

(** [async (request, reply) => { reply.code(401).send("denied"); }]. *)
Definition denying_hook : FastifyHook :=
  λ w, (with_reply w (Fastify.send (JStr "denied") (Fastify.code 401 (fastifyReply w))),
        mkSignal [] (CResolve JUndefined)).

(** [(request, reply, done) => done("not an Error")]. *)
Definition complaining_hook : FastifyHook :=
  λ w, (w, mkSignal [JStr "not an Error"] (CReturn JUndefined)).

(** [async (request, reply, error) => {}]. *)
Definition silent_onError_hook : FastifyOnErrorHook :=
  λ _ w, (w, mkSignal [] (CResolve JUndefined)).

(** [(request, reply, error, done) => done()]. *)
Definition handling_onError_hook : FastifyOnErrorHook :=
  λ _ w, (w, mkSignal [JUndefined] (CReturn JUndefined)).

(** [(req, res) => "hello"]. *)
Definition greeting_handler : RouteHandler :=
  λ w, (w, mkSignal [] (CReturn (JStr "hello"))).

(** [(req, res) => new Response("raw", { status: 202, headers:
    { "content-type": "text/plain;charset=UTF-8" } })]. *)
Definition raw_handler : RouteHandler :=
  λ w, (w, mkSignal []
             (CReturn (JResponse 202 EmptyString
                                 [("content-type", "text/plain;charset=UTF-8")]
                                 (JStr "raw")))).

(** The route [GET path] with the given handler, for a path without
    parameters. *)
Definition plain_route (path : string) (h : RouteHandler) : Route :=
  {| route_path := path; route_method := "GET"; handler := h;
     pathPattern := map Routing.TChar (list_ascii_of_string path); paramNames := [] |}.

(** A registry holding one route and nothing else. *)
Definition only_route (route : Route) : Registry :=
  {| routes := [route]; middlewares := []; errorMiddlewares := [];
     globalPrefix := EmptyString; fastifyHooks := empty_hooks; decorators := [];
     requestDecorators := []; replyDecorators := []; notFoundHandler := None;
     errorHandler := None |}.



(** A preflight request from another origin. *)
Definition preflight_request : BunRequest :=
  {| br_method := "OPTIONS"; br_pathname := "/hi"; br_search := EmptyString;
     br_hostname := "localhost"; br_headers := [("origin", "https://app.example")];
     br_json := None; br_text := Some EmptyString; br_formData := None |}.

(** [async (request, reply) => { reply.code(201).send("created"); }]. *)
Definition creating_handler : AdapterMore.FastifyRouteHandler :=
  λ _ reply w, (w, Fastify.send (JStr "created") (Fastify.code 201 reply),
                CResolve JUndefined).

(** [(req, res, next) => next(new Error("denied"))]. *)
Definition failing_middleware : ExpressMiddleware :=
  λ w, (w, mkSignal [JError "denied"] (CReturn JUndefined)).

End Cases.

(* ===================================================================== *)
(** * Properties                                                          *)
(* ===================================================================== *)

#[local] Arguments String.append !_ _ / : simpl nomatch.

Lemma eqb_true (a b : string) : Str.eqb a b = true ↔ a = b.
Proof. unfold Str.eqb. apply bool_decide_eq_true. Qed.

Lemma eqb_false (a b : string) : Str.eqb a b = false ↔ a ≠ b.
Proof. unfold Str.eqb. apply bool_decide_eq_false. Qed.

Lemma eqb_refl (a : string) : Str.eqb a a = true.
Proof. by apply eqb_true. Qed.

Section StringFacts.
Import Spec.

Lemma split_nonempty c s : Str.split c s ≠ [].
Proof.
  destruct s; simpl; [done|].
  destruct (Ascii.eqb a c); [done|]. by destruct (Str.split c s).
Qed.

Lemma join_cons_cons sep p q ps :
  Str.join sep (p :: q :: ps) = p +:+ sep +:+ Str.join sep (q :: ps).
Proof. reflexivity. Qed.

Lemma join_split c s : Str.join (String c EmptyString) (Str.split c s) = s.
Proof.
  induction s as [|a s IH]; [done|].
  cbn [Str.split].
  destruct (Str.split c s) as [|w ws] eqn:E; [by apply split_nonempty in E|].
  destruct (Ascii.eqb_spec a c) as [->|Hne].
  - rewrite join_cons_cons, IH. done.
  - rewrite <- IH. destruct ws; done.
Qed.

(** Splitting on every [c] and joining all but the first part again is
    splitting on the first [c] only. *)
Lemma split_is_first c s :
  ∃ rest, Str.split c s = before_first c s :: rest
          ∧ Str.join (String c EmptyString) rest = after_first c s.
Proof.
  induction s as [|a s (rest & IH1 & IH2)]; [by exists []|].
  cbn [Str.split before_first after_first].
  destruct (Ascii.eqb_spec a c) as [->|Hne].
  - exists (Str.split c s). split; [done|]. apply join_split.
  - rewrite IH1. by exists rest.
Qed.

Lemma before_first_app c name value :
  has_char c name = false → before_first c (name +:+ String c value) = name.
Proof.
  induction name as [|a n IH]; simpl; intros H.
  - by rewrite Ascii.eqb_refl.
  - apply orb_false_iff in H as [Ha Hn]. by rewrite Ha, (IH Hn).
Qed.

Lemma after_first_app c name value :
  has_char c name = false → after_first c (name +:+ String c value) = value.
Proof.
  induction name as [|a n IH]; simpl; intros H.
  - by rewrite Ascii.eqb_refl.
  - apply orb_false_iff in H as [Ha Hn]. by rewrite Ha, (IH Hn).
Qed.

Lemma split_no_sep c s : has_char c s = false → Str.split c s = [s].
Proof.
  induction s as [|a s IH]; simpl; [done|]. intros H.
  apply orb_false_iff in H as [Ha Hn]. by rewrite Ha, (IH Hn).
Qed.

End StringFacts.

Lemma add_cookie_refines cs pair :
  Express.add_cookie cs pair = Spec.add_cookie_spec cs pair.
Proof.
  unfold Express.add_cookie, Spec.add_cookie_spec.
  destruct (split_is_first "=" (Str.trim pair)) as (rest & -> & ->). done.
Qed.

Lemma obj_set_lookup (obj : gmap string string) key value :
  key ≠ "__proto__" → Platform.obj_set obj key value !! key = Some value.
Proof.
  intros H. unfold Platform.obj_set. apply eqb_false in H. rewrite H.
  apply lookup_insert_eq.
Qed.

Lemma obj_set_lookup_ne (obj : gmap string string) key key' value :
  key ≠ key' → Platform.obj_set obj key value !! key' = obj !! key'.
Proof.
  intros H. unfold Platform.obj_set. destruct (Str.eqb key "__proto__"); [done|].
  by apply lookup_insert_ne.
Qed.

(** C8. For every [Cookie] header, the cookies are read pair by pair from
    the header split on [;], each pair trimmed and split on its first [=]
    only, the remainder being the value; so a header made of one cookie
    [name=value] binds [name] to [value] unchanged, whatever [=] characters
    [value] holds, and [token=a=b=c] gives ["a=b=c"]. *)
Theorem cookie_value_round_trips (h : Platform.Headers) (cookieHeader : string)
    (Hget : Platform.h_get h "cookie" = Some cookieHeader)
    (Hne : cookieHeader ≠ EmptyString) :
  Express.parse_cookies h
    = foldl Spec.add_cookie_spec ∅ (Str.split ";" cookieHeader)
  ∧ (∀ name value : string,
       cookieHeader = name +:+ "=" +:+ value →
       Spec.has_char "=" name = false →
       Spec.has_char ";" cookieHeader = false →
       Str.trim cookieHeader = cookieHeader →
       name ≠ EmptyString → name ≠ "__proto__" →
       Express.parse_cookies h !! name = Some value)
  ∧ Express.parse_cookies [("cookie", "token=a=b=c")] !! "token" = Some "a=b=c".
Proof.
  assert (Hparse : Express.parse_cookies h
                   = foldl Spec.add_cookie_spec ∅ (Str.split ";" cookieHeader)).
  { unfold Express.parse_cookies. rewrite Hget.
    apply eqb_false in Hne. rewrite Hne.
    generalize (∅ : gmap string string).
    induction (Str.split ";" cookieHeader) as [|p ps IH]; intros cs; [done|].
    simpl. rewrite add_cookie_refines. apply IH. }
  split; [exact Hparse|]. split.
  - intros name value Heq Hname Hsemi Htrim Hn Hp.
    rewrite Hparse, (split_no_sep _ _ Hsemi). simpl.
    unfold Spec.add_cookie_spec. rewrite Htrim, Heq.
    change (name +:+ "=" +:+ value) with (name +:+ String "=" value).
    rewrite (before_first_app "=" name value Hname).
    rewrite (after_first_app "=" name value Hname).
    apply eqb_false in Hn. rewrite Hn. by apply obj_set_lookup.
  - vm_compute. reflexivity.
Qed.

Lemma cookie_value_round_trips_witness :
  Express.parse_cookies [("accept", "*/*"); ("cookie", "token=a=b=c")]
    = foldl Spec.add_cookie_spec ∅ (Str.split ";" "token=a=b=c").
Proof.
  apply (cookie_value_round_trips [("accept", "*/*"); ("cookie", "token=a=b=c")]
           "token=a=b=c").
  - vm_compute. reflexivity.
  - discriminate.
Defined.

Lemma foldl_obj_set_lookup (pairs : list (string * string)) (init : gmap string string)
    (key : string) :
  key ≠ "__proto__" →
  foldl (λ q kv, Platform.obj_set q (fst kv) (snd kv)) init pairs !! key
  = match Spec.last_value key pairs with
    | Some v => Some v
    | None => init !! key
    end.
Proof.
  intros Hkey. induction pairs as [|[k v] pairs IH] using rev_ind.
  - done.
  - rewrite foldl_app. simpl.
    unfold Spec.last_value, Spec.first_value in *. rewrite reverse_app. simpl.
    destruct (decide (k = key)) as [->|Hne].
    + rewrite eqb_refl. simpl. by apply obj_set_lookup.
    + apply eqb_false in Hne as Hne'. rewrite Hne'.
      rewrite obj_set_lookup_ne by done. exact IH.
Qed.

(** C4, as stated, fails: for [?a=1&a=2] both views bind [a] to ["2"], the
    value of the last occurrence, while the first occurrence has ["1"]. *)
Lemma query_repeated_key_first_loses :
  Spec.first_value "a" (Platform.URLSearchParams (Platform.br_search Examples.request_a1_a2))
    = Some "1"
  ∧ Express.query (Express.createExpressRequest Examples.request_a1_a2 ∅) !! "a" = Some "2"
  ∧ Fastify.query (Fastify.createFastifyRequest Examples.request_a1_a2 ∅ "req-1") !! "a" = Some "2"
  ∧ ¬ (Express.query (Express.createExpressRequest Examples.request_a1_a2 ∅) !! "a"
       = Spec.first_value "a" (Platform.URLSearchParams (Platform.br_search Examples.request_a1_a2))).
Proof. vm_compute. repeat split; done. Qed.

(** C4, amended. For every raw request and every key other than
    [__proto__], the query mapping of both request views binds the key to
    the value of its last occurrence in the query string (a key that does
    not occur is unbound). *)
Theorem query_repeated_key_last_wins (bunRequest : Platform.BunRequest)
    (params : gmap string string) (requestId key : string)
    (Hkey : key ≠ "__proto__") :
  Express.query (Express.createExpressRequest bunRequest params) !! key
    = Spec.last_value key (Platform.URLSearchParams (Platform.br_search bunRequest))
  ∧ Fastify.query (Fastify.createFastifyRequest bunRequest params requestId) !! key
    = Spec.last_value key (Platform.URLSearchParams (Platform.br_search bunRequest)).
Proof.
  simpl. unfold Express.parse_query, Fastify.parse_query.
  rewrite !foldl_obj_set_lookup by done.
  rewrite lookup_empty. by destruct (Spec.last_value _ _).
Qed.

Lemma query_repeated_key_last_wins_witness :
  Express.query (Express.createExpressRequest Examples.request_a1_a2 ∅) !! "a"
    = Spec.last_value "a" (Platform.URLSearchParams "?a=1&a=2")
  ∧ Fastify.query (Fastify.createFastifyRequest Examples.request_a1_a2 ∅ "req-1") !! "a"
    = Spec.last_value "a" (Platform.URLSearchParams "?a=1&a=2").
Proof.
  apply (query_repeated_key_last_wins Examples.request_a1_a2 ∅ "req-1" "a"). discriminate.
Defined.

(** C1, as stated, fails on the Express response: after [send("first")] the
    response is ended, and a second [send("second")] replaces the body that
    the builder finalizes into. *)
Lemma express_second_send_overwrites :
  let r := Express.send (Js.JStr "first") Express.createExpressResponse in
  Express._ended r = true
  ∧ Express.ended r = true
  ∧ Platform.body (fst (Express._buildResponse r)) = Js.JStr "first"
  ∧ Platform.body (fst (Express._buildResponse (Express.send (Js.JStr "second") r)))
    = Js.JStr "second"
  ∧ fst (Express._buildResponse (Express.send (Js.JStr "second") r))
    ≠ fst (Express._buildResponse r).
Proof. vm_compute. repeat split; done. Qed.

(** C1, amended. On a Fastify reply whose [sent] flag is true, [send] is a
    silent no-op: the reply is unchanged, and so are the status, headers and
    body it finalizes into. The Express response does not consult its
    [ended] flag: [json], [send], [sendStatus], [end] and [redirect] act on
    an ended response exactly as on one that is not ended. *)
Theorem send_after_sent_is_noop (reply : Fastify.FastifyReply) (payload : Js.JsValue)
    (Hsent : Fastify.sent reply = true) :
  Fastify.send payload reply = reply
  ∧ Fastify._buildResponse (Fastify.send payload reply) = Fastify._buildResponse reply
  ∧ (∀ (r : Express.ExpressResponse) (data : Js.JsValue) (code : Z)
       (statusOrUrl : Z + string) (target : option string),
       Express.json data (Express.mark_ended r) = Express.json data r
       ∧ Express.send data (Express.mark_ended r) = Express.send data r
       ∧ Express.sendStatus code (Express.mark_ended r) = Express.sendStatus code r
       ∧ Express.end_ data (Express.mark_ended r) = Express.end_ data r
       ∧ Express.redirect statusOrUrl target (Express.mark_ended r)
         = Express.redirect statusOrUrl target r).
Proof.
  assert (H : Fastify.send payload reply = reply).
  { unfold Fastify.send. by rewrite Hsent. }
  split; [exact H|]. split; [by rewrite H|].
  intros r data code statusOrUrl target.
  repeat apply conj.
  - reflexivity.
  - unfold Express.send, Express.default_type. simpl.
    destruct (Js.is_string data), (Js.isBuffer data), (Js.typeof_object data);
      simpl; try done;
      by destruct (Platform.h_has (Express.res_headers r) "Content-Type").
  - reflexivity.
  - unfold Express.end_. by destruct (Js.is_undefined data).
  - unfold Express.redirect.
    destruct statusOrUrl as [c|u], target as [t|]; simpl; try done;
      by destruct (Str.eqb t EmptyString).
Qed.

Lemma send_after_sent_is_noop_witness :
  let reply := Fastify.send (Js.JStr "first") Fastify.createFastifyReply in
  Fastify.sent reply = true
  ∧ Fastify.send (Js.JStr "second") reply = reply.
Proof.
  split; [reflexivity|].
  apply (send_after_sent_is_noop
           (Fastify.send (Js.JStr "first") Fastify.createFastifyReply)
           (Js.JStr "second")).
  reflexivity.
Defined.

Lemma prop_get_map_set m key value key' :
  Spec.prop_get (Adapter.map_set m key value) key'
  = if decide (key = key') then Some value else Spec.prop_get m key'.
Proof.
  unfold Spec.prop_get. induction m as [|[k v] m IH]; simpl.
  - destruct (decide (key = key')) as [->|Hne].
    + by rewrite eqb_refl.
    + apply eqb_false in Hne. by rewrite Hne.
  - destruct (Str.eqb k key) eqn:Ek; simpl.
    + apply eqb_true in Ek as ->.
      destruct (decide (key = key')) as [->|Hne].
      * by rewrite eqb_refl.
      * apply eqb_false in Hne. by rewrite Hne.
    + destruct (Str.eqb k key') eqn:Ek'; simpl.
      * apply eqb_true in Ek' as ->. apply eqb_false in Ek.
        by destruct (decide (key = key')) as [->|Hne].
      * exact IH.
Qed.

Lemma foldl_prop_set_lookup (pairs : list (string * string))
    (init : list (string * Js.JsValue)) (key : string) :
  key ≠ "__proto__" →
  Spec.prop_get (foldl (λ b kv, Adapter.prop_set b (fst kv) (Js.JStr (snd kv))) init pairs) key
  = match Spec.last_value key pairs with
    | Some v => Some (Js.JStr v)
    | None => Spec.prop_get init key
    end.
Proof.
  intros Hkey. induction pairs as [|[k v] pairs IH] using rev_ind; [done|].
  rewrite foldl_app. simpl.
  unfold Spec.last_value, Spec.first_value in *. rewrite reverse_app. simpl.
  unfold Adapter.prop_set at 1.
  destruct (decide (k = key)) as [->|Hne].
  - rewrite eqb_refl. simpl. apply eqb_false in Hkey. rewrite Hkey.
    rewrite prop_get_map_set. by rewrite decide_True.
  - apply eqb_false in Hne as Hne'. rewrite Hne'.
    destruct (Str.eqb k "__proto__"); [exact IH|].
    rewrite prop_get_map_set. by rewrite decide_False.
Qed.

(** C5, as stated, fails: a body of type [application/octet-stream] is not
    read at all; the parsed body is [undefined], not a byte buffer. *)
Lemma body_of_other_type_is_undefined :
  Adapter.parseRequestBody Examples.request_octets = Js.JUndefined
  ∧ Js.is_bytes (Adapter.parseRequestBody Examples.request_octets) = false.
Proof. vm_compute. done. Qed.

(** C5, amended. Body parsing depends on the [Content-Type] header alone
    and never fails: a type holding [application/json] gives the parsed
    JSON; else one holding [application/x-www-form-urlencoded] gives an
    object of string properties (each key bound to its last value); else
    one holding [multipart/form-data] gives an object of the form fields;
    else one holding [text/] gives the raw text; anything else gives
    [undefined]; a failed read gives [undefined] in every case. *)
Theorem body_parsing_by_content_type (r : Platform.BunRequest) :
  let contentType := default EmptyString (Platform.h_get (Platform.br_headers r) "content-type") in
  let form text :=
    foldl (λ b kv, Adapter.prop_set b (fst kv) (Js.JStr (snd kv))) []
          (Platform.URLSearchParams text) in
  let fields fs := foldl (λ b kv, Adapter.prop_set b (fst kv) (snd kv)) [] fs in
  (Str.includes contentType "application/json" = true →
     Adapter.parseRequestBody r = default Js.JUndefined (Platform.br_json r))
  ∧ (Str.includes contentType "application/json" = false →
     Str.includes contentType "application/x-www-form-urlencoded" = true →
     Adapter.parseRequestBody r
     = default Js.JUndefined ((λ t, Js.JObj (form t)) <$> Platform.br_text r))
  ∧ (Str.includes contentType "application/json" = false →
     Str.includes contentType "application/x-www-form-urlencoded" = false →
     Str.includes contentType "multipart/form-data" = true →
     Adapter.parseRequestBody r
     = default Js.JUndefined ((λ fs, Js.JObj (fields fs)) <$> Platform.br_formData r))
  ∧ (Str.includes contentType "application/json" = false →
     Str.includes contentType "application/x-www-form-urlencoded" = false →
     Str.includes contentType "multipart/form-data" = false →
     Str.includes contentType "text/" = true →
     Adapter.parseRequestBody r = default Js.JUndefined (Js.JStr <$> Platform.br_text r))
  ∧ (Str.includes contentType "application/json" = false →
     Str.includes contentType "application/x-www-form-urlencoded" = false →
     Str.includes contentType "multipart/form-data" = false →
     Str.includes contentType "text/" = false →
     Adapter.parseRequestBody r = Js.JUndefined)
  ∧ (∀ text key, key ≠ "__proto__" →
     Spec.prop_get (form text) key
     = Js.JStr <$> Spec.last_value key (Platform.URLSearchParams text)).
Proof.
  intros contentType form fields. unfold Adapter.parseRequestBody.
  fold contentType. repeat apply conj.
  - intros ->. by destruct (Platform.br_json r).
  - intros -> ->. by destruct (Platform.br_text r).
  - intros -> -> ->. by destruct (Platform.br_formData r).
  - intros -> -> -> ->. by destruct (Platform.br_text r).
  - by intros -> -> -> ->.
  - intros text key Hkey. unfold form. rewrite foldl_prop_set_lookup by done.
    by destruct (Spec.last_value _ _).
Qed.

Lemma body_parsing_by_content_type_witness :
  Adapter.parseRequestBody Examples.request_form
  = Js.JObj [("user", Js.JStr "bob")].
Proof.
  destruct (body_parsing_by_content_type Examples.request_form) as (_ & H & _).
  rewrite H; reflexivity.
Defined.

Lemma first_value_app key (l1 l2 : list (string * string)) :
  Spec.first_value key (l1 ++ l2)
  = match Spec.first_value key l1 with
    | Some v => Some v
    | None => Spec.first_value key l2
    end.
Proof.
  unfold Spec.first_value. induction l1 as [|[k v] l1 IH]; simpl; [done|].
  by destruct (Str.eqb k key).
Qed.

Lemma last_value_cons key k v (l : list (string * string)) :
  Spec.last_value key ((k, v) :: l)
  = match Spec.last_value key l with
    | Some v' => Some v'
    | None => if Str.eqb k key then Some v else None
    end.
Proof.
  unfold Spec.last_value. rewrite reverse_cons, first_value_app.
  destruct (Spec.first_value key (reverse l)); [done|].
  unfold Spec.first_value. simpl. by destruct (Str.eqb k key).
Qed.

Lemma last_value_not_in key (names caps : list string) :
  key ∉ names → Spec.last_value key (zip names caps) = None.
Proof.
  revert caps. induction names as [|n names IH]; intros caps Hnot; [done|].
  destruct caps as [|c caps]; [done|]. simpl. rewrite last_value_cons.
  apply not_elem_of_cons in Hnot as [Hne Hnot]. rewrite (IH _ Hnot).
  assert (n ≠ key) as Hne' by congruence. apply eqb_false in Hne'. by rewrite Hne'.
Qed.

Lemma last_value_nodup (names caps : list string) (i : nat) name v :
  NoDup names → names !! i = Some name → caps !! i = Some v →
  Spec.last_value name (zip names caps) = Some v.
Proof.
  revert caps i. induction names as [|n names IH]; intros caps i Hnd Hn Hc; [done|].
  destruct caps as [|c caps]; [done|]. simpl. rewrite last_value_cons.
  apply NoDup_cons in Hnd as [Hnot Hnd].
  destruct i as [|i]; simpl in *.
  - injection Hn as ->. injection Hc as ->.
    rewrite (last_value_not_in _ _ _ Hnot). by rewrite eqb_refl.
  - by rewrite (IH caps i Hnd Hn Hc).
Qed.

Lemma find_route_first (rs : list Adapter.Route) (method pathname : string) :
  match Adapter.find_route rs method pathname with
  | Some (route, captures) =>
      ∃ before after,
        rs = before ++ route :: after
        ∧ Forall (λ r, Spec.accepts r method pathname = None) before
        ∧ Spec.accepts route method pathname = Some captures
  | None => Forall (λ r, Spec.accepts r method pathname = None) rs
  end.
Proof.
  induction rs as [|r rs IH]; simpl; [by constructor|].
  assert (Hacc : Spec.accepts r method pathname
                 = if (negb (Str.eqb (Adapter.route_method r) method)
                       && negb (Str.eqb (Adapter.route_method r) "ALL"))%bool
                   then None
                   else Routing.rmatch (Adapter.pathPattern r) pathname).
  { unfold Spec.accepts.
    by destruct (Str.eqb (Adapter.route_method r) method),
                (Str.eqb (Adapter.route_method r) "ALL"). }
  destruct (negb _ && negb _)%bool.
  - destruct (Adapter.find_route rs method pathname) as [[route caps]|].
    + destruct IH as (before & after & -> & Hb & Ha).
      exists (r :: before), after. repeat split; [|done]. by constructor.
    + by constructor.
  - destruct (Routing.rmatch (Adapter.pathPattern r) pathname) as [caps|] eqn:E.
    + exists [], rs. repeat split; [by constructor|]. by rewrite Hacc.
    + destruct (Adapter.find_route rs method pathname) as [[route caps]|].
      * destruct IH as (before & after & -> & Hb & Ha).
        exists (r :: before), after. repeat split; [|done]. by constructor.
      * by constructor.
Qed.

Section PatternFacts.
Import Spec Routing.

Lemma append_assoc (a b c : string) : (a +:+ b) +:+ c = a +:+ (b +:+ c).
Proof. induction a as [|x a IH]; simpl; [done|]. by rewrite IH. Qed.

Lemma append_empty_r (a : string) : a +:+ EmptyString = a.
Proof. induction a as [|x a IH]; simpl; [done|]. by rewrite IH. Qed.

Lemma prepend_prepend x y r :
  prepend x (prepend y r) = prepend (fst x ++ fst y, snd x ++ snd y) r.
Proof.
  destruct r as [[ts ns]|]; simpl; [|done]. by rewrite !app_assoc.
Qed.

Lemma plain_char_tok a : plain_char a = true → tok_of_char a = Some (TChar a).
Proof.
  unfold plain_char, tok_of_char. intros H.
  repeat (apply andb_true_iff in H as [H ?]).
  apply negb_true_iff in H. rewrite H.
  by destruct (Ascii.eqb a ".").
Qed.

Lemma plain_char_colon a : plain_char a = true → Ascii.eqb a ":" = false.
Proof.
  unfold plain_char. intros H. repeat (apply andb_true_iff in H as [H ?]).
  by destruct (Ascii.eqb a ":").
Qed.

(** A literal run is read character by character. *)
Lemma scan_literal text rest :
  all_chars plain_char text = true →
  scan (text +:+ rest) None
  = prepend (map TChar (list_ascii_of_string text), []) (scan rest None).
Proof.
  induction text as [|a text IH]; simpl; intros H.
  - by destruct (scan rest None) as [[??]|].
  - apply andb_true_iff in H as [Ha Ht].
    rewrite (plain_char_colon _ Ha), (plain_char_tok _ Ha), (IH Ht).
    by destruct (scan rest None) as [[??]|].
Qed.

(** Name characters extend the name being read. *)
Lemma scan_name name rest acc :
  all_chars is_name_char name = true →
  scan (name +:+ rest) (Some acc) = scan rest (Some (acc +:+ name)).
Proof.
  revert acc. induction name as [|a name IH]; simpl; intros acc H.
  - by rewrite append_empty_r.
  - apply andb_true_iff in H as [Ha Hn]. rewrite Ha, (IH _ Hn).
    by rewrite append_assoc.
Qed.

(** A name ends at the end of the pattern or at a slash. *)
Lemma scan_close name rest :
  name ≠ EmptyString → at_boundary rest →
  scan rest (Some name) = prepend ([TParam], [name]) (scan rest None).
Proof.
  intros Hne [->|[rest' ->]].
  - simpl. by destruct name.
  - simpl. destruct name; [done|]. by destruct (scan rest' None) as [[??]|].
Qed.

Lemma render_pattern_boundary segs : at_boundary (render_pattern segs).
Proof. destruct segs as [|[t|n] segs]; [by left| right; by eexists..]. Qed.

Lemma scan_render_pattern segs :
  Forall segment_ok segs →
  scan (render_pattern segs) None = Some (compiled segs, declared_names segs).
Proof.
  induction 1 as [|seg segs Hok _ IH]; [done|].
  destruct seg as [text|name]; simpl in Hok.
  - change (render_pattern (SLit text :: segs))
      with (String "/" (text +:+ render_pattern segs)).
    cbn [scan]. change (Ascii.eqb "/" ":") with false. cbn match.
    change (tok_of_char "/") with (Some (TChar "/")). cbn match.
    rewrite (scan_literal _ _ Hok), IH. simpl. done.
  - destruct Hok as [Hne Hname].
    change (render_pattern (SParam name :: segs))
      with (String "/" (String ":" (name +:+ render_pattern segs))).
    cbn [scan]. change (Ascii.eqb "/" ":") with false. cbn match.
    change (tok_of_char "/") with (Some (TChar "/")). cbn match.
    change (Ascii.eqb ":" ":") with true. cbn match.
    rewrite (scan_name _ _ _ Hname). simpl (EmptyString +:+ name).
    rewrite (scan_close _ _ Hne (render_pattern_boundary segs)), IH. done.
Qed.

Lemma all_chars_app ok a b :
  all_chars ok (a +:+ b) = (all_chars ok a && all_chars ok b)%bool.
Proof. induction a as [|x a IH]; simpl; [done|]. by rewrite IH, andb_assoc. Qed.

Lemma all_chars_impl (ok ok' : ascii → bool) s :
  (∀ a, ok a = true → ok' a = true) → all_chars ok s = true → all_chars ok' s = true.
Proof.
  intros Himpl. induction s as [|x s IH]; simpl; [done|].
  intros H. apply andb_true_iff in H as [Hx Hs]. by rewrite (Himpl _ Hx), (IH Hs).
Qed.

Lemma plain_not_star a : plain_char a = true → not_star a = true.
Proof.
  unfold plain_char, not_star. intros H. repeat (apply andb_true_iff in H as [H ?]).
  destruct (Ascii.eqb_spec a "*") as [->|]; [|done]. by vm_compute in H.
Qed.

Lemma name_not_star a : is_name_char a = true → not_star a = true.
Proof.
  unfold not_star. intros H.
  destruct (Ascii.eqb_spec a "*") as [->|]; [|done]. by vm_compute in H.
Qed.

Lemma render_pattern_no_star segs :
  Forall segment_ok segs → all_chars not_star (render_pattern segs) = true.
Proof.
  induction 1 as [|seg segs Hok _ IH]; [done|].
  destruct seg as [text|name]; simpl in *.
  - rewrite all_chars_app, IH, (all_chars_impl _ _ _ plain_not_star Hok). done.
  - destruct Hok as [_ Hname].
    rewrite all_chars_app, IH, (all_chars_impl _ _ _ name_not_star Hname). done.
Qed.

Lemma no_star_endsWith s : all_chars not_star s = true → Str.endsWithChar s "*" = false.
Proof.
  induction s as [|a s IH]; simpl; [done|].
  intros H. apply andb_true_iff in H as [Ha Hs].
  destruct s; [|by apply IH].
  unfold not_star in Ha. by apply negb_true_iff in Ha.
Qed.

Lemma pathToRegex_segments segs :
  segs ≠ [] → Forall segment_ok segs →
  pathToRegex (render_pattern segs) = Some (compiled segs, declared_names segs).
Proof.
  intros Hne Hok. unfold pathToRegex.
  assert (Str.startsWith (render_pattern segs) "/" = true) as ->.
  { destruct segs as [|[t|n] segs]; [done|reflexivity..]. }
  rewrite (no_star_endsWith _ (render_pattern_no_star _ Hok)).
  by apply scan_render_pattern.
Qed.

(** The group of a [:name] takes the whole segment. *)
Lemma greedy_star_segment k value rest caps :
  has_char "/" value = false → at_boundary rest → k rest = Some caps →
  greedy_star (λ a, negb (Ascii.eqb a "/")) k (value +:+ rest) = Some (value :: caps).
Proof.
  intros Hv Hrest Hk. induction value as [|a value IH]; simpl in *.
  - destruct Hrest as [->|[rest' ->]]; simpl; by rewrite Hk.
  - apply orb_false_iff in Hv as [Ha Hv]. rewrite Ha. simpl.
    by rewrite (IH Hv).
Qed.

Lemma greedy_plus_segment k value rest caps :
  value ≠ EmptyString → has_char "/" value = false → at_boundary rest →
  k rest = Some caps →
  greedy_plus (λ a, negb (Ascii.eqb a "/")) k (value +:+ rest) = Some (value :: caps).
Proof.
  intros Hne Hv Hrest Hk. destruct value as [|a value]; [done|]. simpl in *.
  apply orb_false_iff in Hv as [Ha Hv]. rewrite Ha. simpl.
  by rewrite (greedy_star_segment k value rest caps Hv Hrest Hk).
Qed.

Lemma rmatch_literal text ts rest :
  rmatch (map TChar (list_ascii_of_string text) ++ ts) (text +:+ rest) = rmatch ts rest.
Proof.
  induction text as [|a text IH]; simpl; [done|]. by rewrite Ascii.eqb_refl.
Qed.

Lemma render_path_boundary values : at_boundary (render_path values).
Proof. destruct values; [by left|right; by eexists]. Qed.

Lemma rmatch_segments segs values :
  Forall2 segment_fits segs values →
  rmatch (compiled segs) (render_path values) = Some (param_values segs values).
Proof.
  induction 1 as [|seg value segs values Hfit _ IH]; [done|].
  destruct seg as [text|name]; simpl in Hfit.
  - subst value.
    change (render_path (text :: values)) with (String "/" (text +:+ render_path values)).
    cbn [compiled rmatch]. rewrite Ascii.eqb_refl.
    by rewrite rmatch_literal, IH.
  - destruct Hfit as [Hne Hv].
    change (render_path (value :: values))
      with (String "/" (value +:+ render_path values)).
    cbn [compiled rmatch]. rewrite Ascii.eqb_refl.
    by apply greedy_plus_segment; [..|apply render_path_boundary|].
Qed.

End PatternFacts.

Lemma param_values_length segs values :
  Forall2 Spec.segment_fits segs values →
  length (Spec.param_values segs values) = length (Spec.declared_names segs).
Proof.
  induction 1 as [|seg value segs values _ _ IH]; [done|].
  destruct seg; simpl; by rewrite ?IH.
Qed.

(** C6. Route matching scans the routes in registration order and returns
    the first entry whose method is the request method or [ALL] and whose
    pattern matches the whole path; without such an entry there is no match.
    Parameters are bound by position: the i-th name of the pattern gets the
    i-th captured group, and for a pattern of literal and [:name] segments
    the groups are the path segments standing at the [:name] segments, in
    the order of declaration; [/orgs/:orgId/users/:userId] against
    [/orgs/o1/users/u2] binds [orgId] to [o1] and [userId] to [u2]. *)
Theorem route_matching_first_match_positional (rs : list Adapter.Route)
    (method pathname : string) :
  match Adapter.find_route rs method pathname with
  | Some (route, captures) =>
      ∃ before after,
        rs = before ++ route :: after
        ∧ Forall (λ r, Spec.accepts r method pathname = None) before
        ∧ Spec.accepts route method pathname = Some captures
  | None => Forall (λ r, Spec.accepts r method pathname = None) rs
  end
  ∧ (∀ (names captures : list string) (i : nat) (name value : string),
       NoDup names → name ≠ "__proto__" →
       names !! i = Some name → captures !! i = Some value →
       Routing.bind_params names captures !! name = Some value)
  ∧ (∀ (segs : list Spec.Segment) (values : list string),
       segs ≠ [] → Forall Spec.segment_ok segs → Forall2 Spec.segment_fits segs values →
       Routing.pathToRegex (Spec.render_pattern segs)
         = Some (Spec.compiled segs, Spec.declared_names segs)
       ∧ Routing.rmatch (Spec.compiled segs) (Spec.render_path values)
         = Some (Spec.param_values segs values)
       ∧ (NoDup (Spec.declared_names segs) →
          ∀ (i : nat) (name : string),
            name ≠ "__proto__" → Spec.declared_names segs !! i = Some name →
            Routing.bind_params (Spec.declared_names segs) (Spec.param_values segs values)
              !! name = Spec.param_values segs values !! i))
  ∧ (∃ g, Examples.orgs_registry = Some g
          ∧ let params := Express.params (Pipeline.req (Pipeline.world
                            (Adapter.initial_state g Examples.orgs_request "req-1"))) in
            params !! "orgId" = Some "o1" ∧ params !! "userId" = Some "u2").
Proof.
  assert (Hbind : ∀ (names captures : list string) (i : nat) (name value : string),
             NoDup names → name ≠ "__proto__" →
             names !! i = Some name → captures !! i = Some value →
             Routing.bind_params names captures !! name = Some value).
  { intros names captures i name value Hnd Hp Hn Hc. unfold Routing.bind_params.
    rewrite foldl_obj_set_lookup by done.
    by rewrite (last_value_nodup names captures i name value Hnd Hn Hc). }
  split; [apply find_route_first|]. split; [exact Hbind|]. split.
  - intros segs values Hne Hok Hfit.
    split; [by apply pathToRegex_segments|].
    split; [by apply rmatch_segments|].
    intros Hnd i name Hp Hn.
    destruct (Spec.param_values segs values !! i) as [v|] eqn:Hv.
    + by apply (Hbind _ _ i).
    + apply lookup_ge_None in Hv. rewrite (param_values_length _ _ Hfit) in Hv.
      apply lookup_lt_Some in Hn. lia.
  - eexists. split; [reflexivity|]. vm_compute. done.
Qed.

Lemma route_matching_first_match_positional_witness :
  Routing.bind_params ["orgId"; "userId"] ["o1"; "u2"] !! "userId" = Some "u2".
Proof.
  destruct (route_matching_first_match_positional [] "GET" "/") as (_ & H & _).
  apply (H ["orgId"; "userId"] ["o1"; "u2"] 1%nat "userId" "u2").
  - apply NoDup_cons_2; [|apply NoDup_singleton].
    apply not_elem_of_cons. split; [discriminate|apply not_elem_of_nil].
  - discriminate.
  - reflexivity.
  - reflexivity.
Defined.

(** Unfolding of the monad of the dispatcher. *)
Ltac munfold :=
  repeat (progress (unfold mbind, Pipeline.M_bind, mret, Pipeline.M_ret, Pipeline.bind, Pipeline.ret,
                      Pipeline.throw, Pipeline.hang, Pipeline.call, Pipeline.get_world,
                      Pipeline.try_catch, Pipeline.await, Pipeline.modify_res,
                      Pipeline.modify_reply in *; cbn in *)).

Section OnSendFacts.
Import Js Pipeline Spec.

Lemma run_reacting ev eff r payload st :
  run_onSend_hook ev (reacting eff r) payload st
  = (Val (reaction_result r payload),
     {| world := eff payload (world st); trace := trace st ++ [ev] |}).
Proof. unfold run_onSend_hook. destruct r; munfold; done. Qed.

Lemma executeOnSend_threads (ers : list ((JsValue → World → World) * Reaction))
    (i : nat) (payload : JsValue) (st : St) :
  Forall (λ er, well_formed (snd er)) ers →
  ∃ w,
    executeOnSend_from i (map (λ er, reacting (fst er) (snd er)) ers) payload st
    = (Val (threaded (map snd ers) payload),
       {| world := w;
          trace := trace st ++ map EvOnSend (seq i (invoked (map snd ers))) |}).
Proof.
  intros Hwf. revert i payload st.
  induction Hwf as [|[eff r] ers Hr _ IH]; intros i payload st.
  - exists (world st). simpl. unfold ret. rewrite app_nil_r. by destruct st.
  - cbn [map fst snd executeOnSend_from].
    unfold mbind at 1. unfold M_bind at 1. unfold bind at 1.
    rewrite run_reacting. simpl in Hr.
    destruct r as [f| | |e|e]; cbn [reaction_result sr_error sr_payload truthy threaded
                                      invoked seq map].
    + unfold coalesce. rewrite (Hr payload).
      assert (is_undefined (f payload) = false) as ->.
      { specialize (Hr payload). by destruct (f payload). }
      destruct (IH (S i) (f payload)
                  {| world := eff payload (world st); trace := trace st ++ [EvOnSend i] |})
        as [w Hw].
      exists w. rewrite Hw. cbn [trace]. by rewrite <- app_assoc.
    + destruct (IH (S i) payload
                  {| world := eff payload (world st); trace := trace st ++ [EvOnSend i] |})
        as [w Hw].
      exists w.
      replace (if is_undefined payload then payload else payload) with payload
        by (by destruct (is_undefined payload)).
      rewrite Hw. cbn [trace]. by rewrite <- app_assoc.
    + destruct (IH (S i) payload
                  {| world := eff payload (world st); trace := trace st ++ [EvOnSend i] |})
        as [w Hw].
      exists w.
      replace (if is_undefined payload then payload else payload) with payload
        by (by destruct (is_undefined payload)).
      rewrite Hw. cbn [trace]. by rewrite <- app_assoc.
    + rewrite Hr. eexists. unfold mret, M_ret, ret. reflexivity.
    + rewrite Hr. eexists. unfold mret, M_ret, ret. reflexivity.
Qed.

End OnSendFacts.

(** For hooks that signal through [done] or through the promise they
    return, the [onSend] chain threads the payload in registration order: a
    hook that passes a replacement to [done] hands it to the next hook, a
    hook that passes none (or only returns) leaves the payload as it was,
    and the first hook that reports an error stops the chain, which then
    reports that error and calls no further hook. With payload
    ["original"], a hook appending [" first"] and one appending
    [" second"], the final payload is ["original first second"]. *)
Lemma onSend_threads_payload
    (ers : list ((Js.JsValue → Pipeline.World → Pipeline.World) * Spec.Reaction))
    (i : nat) (payload : Js.JsValue) (st : Pipeline.St)
    (Hwf : Forall (λ er, Spec.well_formed (snd er)) ers) :
  let hooks := map (λ er, Spec.reacting (fst er) (snd er)) ers in
  fst (Pipeline.executeOnSend_from i hooks payload st)
    = Pipeline.Val (Spec.threaded (map snd ers) payload)
  ∧ Pipeline.trace (snd (Pipeline.executeOnSend_from i hooks payload st))
    = Pipeline.trace st ++ map Pipeline.EvOnSend (seq i (Spec.invoked (map snd ers)))
  ∧ fst (Pipeline.executeOnSend Examples.two_onSend_hooks (Js.JStr "original")
           Examples.start_state)
    = Pipeline.Val {| Pipeline.sr_error := Js.JUndefined;
                      Pipeline.sr_payload := Js.JStr "original first second" |}.
Proof.
  intros hooks. destruct (executeOnSend_threads ers i payload st Hwf) as [w Hw].
  unfold hooks. rewrite Hw. repeat split. 
Qed.

(** C7 does not hold of the code. A hook in callback style that throws
    before it calls [done] raises a hook error, yet [executeOnSend] does not
    stop with that error and the current payload as its result: its promise
    is rejected, since only the promise that a hook returns is given a
    [catch]. The same error thrown by an [async] hook, or passed to [done],
    is reported as the claim says. In [handleRequest] the difference shows:
    the rejection lands in the [catch] block around the handler, where the
    error middleware answers, which a reported [onSend] error never
    reaches. *)
Theorem onSend_thrown_error_escapes :
  Pipeline.executeOnSend (Examples.hooks_with_onSend Examples.throwing_onSend_hook)
    (Js.JStr "original") Examples.start_state
  = (Pipeline.Exn (Js.JError "boom"),
     {| Pipeline.world := Pipeline.world Examples.start_state;
        Pipeline.trace := [Pipeline.EvOnSend 0] |})
  ∧ Pipeline.executeOnSend (Examples.hooks_with_onSend Examples.rejecting_onSend_hook)
      (Js.JStr "original") Examples.start_state
    = (Pipeline.Val {| Pipeline.sr_error := Js.JError "boom";
                       Pipeline.sr_payload := Js.JStr "original" |},
       {| Pipeline.world := Pipeline.world Examples.start_state;
          Pipeline.trace := [Pipeline.EvOnSend 0] |})
  ∧ Pipeline.executeOnSend (Examples.hooks_with_onSend Examples.reporting_onSend_hook)
      (Js.JStr "original") Examples.start_state
    = (Pipeline.Val {| Pipeline.sr_error := Js.JError "boom";
                       Pipeline.sr_payload := Js.JStr "original" |},
       {| Pipeline.world := Pipeline.world Examples.start_state;
          Pipeline.trace := [Pipeline.EvOnSend 0] |})
  ∧ (∃ g response,
       Examples.registry_with_onSend Examples.throwing_onSend_hook = Some g
       ∧ Adapter.handleRequest g (Examples.get_request "/ok" EmptyString []) "req-1"
         = (Pipeline.Val response,
            snd (Adapter.handleRequest g (Examples.get_request "/ok" EmptyString [])
                   "req-1"))
       ∧ Pipeline.trace (snd (Adapter.handleRequest g
                                (Examples.get_request "/ok" EmptyString []) "req-1"))
         = [Pipeline.EvHandler; Pipeline.EvOnSend 0; Pipeline.EvErrorMiddleware 0]
       ∧ Platform.body response = Js.JStr "Handled")
  ∧ (∃ g response,
       Examples.registry_with_onSend Examples.reporting_onSend_hook = Some g
       ∧ Adapter.handleRequest g (Examples.get_request "/ok" EmptyString []) "req-1"
         = (Pipeline.Val response,
            snd (Adapter.handleRequest g (Examples.get_request "/ok" EmptyString [])
                   "req-1"))
       ∧ Pipeline.trace (snd (Adapter.handleRequest g
                                (Examples.get_request "/ok" EmptyString []) "req-1"))
         = [Pipeline.EvHandler; Pipeline.EvOnSend 0]
       ∧ Platform.status response = 500
       ∧ Platform.body response
         = Js.JSON_stringify (Js.JObj [("statusCode", Js.JNum 500);
                                       ("message", Js.JStr "boom")])).
Proof.
  repeat apply conj.
  - vm_compute. reflexivity.
  - vm_compute. reflexivity.
  - vm_compute. reflexivity.
  - do 2 eexists. split; [reflexivity|]. vm_compute. done.
  - do 2 eexists. split; [reflexivity|]. vm_compute. done.
Qed.

Section ScopeFacts.
Import Js Pipeline Adapter Spec.


Lemma normalized_starts p : Str.startsWith (normalized p) "/" = true.
Proof.
  unfold normalized. destruct (Str.startsWith p "/") eqn:E; [exact E|done].
Qed.

Lemma normalized_idem p : normalized (normalized p) = normalized p.
Proof. unfold normalized at 1. by rewrite normalized_starts. Qed.





End ScopeFacts.




Section PluginFacts.
Import Js Pipeline Adapter.

Lemma initializePlugins_runs (fuel i : nat) (a a' : BunAdapter) :
  initializePlugins fuel i a = Some (Val (), a') →
  (length (plugins a) ≤ length (plugins a'))%nat
  ∧ pluginRuns a' = pluginRuns a ++ seq i (length (plugins a') - i)
  ∧ fastifyInitialized a' = fastifyInitialized a
  ∧ listening a' = listening a.
Proof.
  revert i a. induction fuel as [|fuel IH]; intros i a; simpl; [done|].
  destruct (plugins a !! i) as [[[run] opts]|] eqn:Hi.
  - destruct (run (coalesce opts (JObj [])) (registry a)) as [[g' registered] sg].
    destruct (plugin_settles sg) as [[]| |]; [|done..].
    intros H. apply IH in H as (Hlen & Hruns & Hinit & Hlis). simpl in *.
    rewrite length_app in Hlen. apply lookup_lt_Some in Hi.
    repeat split; [lia| |done..].
    rewrite Hruns, <- app_assoc. f_equal.
    replace (length (plugins a') - i)%nat with (S (length (plugins a') - S i)) by lia.
    done.
  - intros [= <-]. apply lookup_ge_None in Hi.
    replace (length (plugins a) - i)%nat with 0%nat by lia.
    by rewrite app_nil_r.
Qed.

End PluginFacts.

(** C10, as stated, fails: when a plugin reports an error the flag is not
    set, and a second [listen] runs the plugins again; the plugin at
    position 0 has then run twice and its hook is registered twice. *)
Lemma failed_startup_runs_plugins_again :
  ∃ a1 a2,
    Adapter.listen 10 None Examples.adapter_with_failing_plugin
      = Some (Pipeline.Exn (Js.JError "boom"), a1)
    ∧ Adapter.listen 10 None a1 = Some (Pipeline.Exn (Js.JError "boom"), a2)
    ∧ Adapter.pluginRuns a2 = [0; 1; 0; 1]%nat
    ∧ length (Pipeline.onRequestHooks (Adapter.fastifyHooks (Adapter.registry a2))) = 2%nat.
Proof. do 2 eexists. repeat split. Qed.

(** C10, amended. Once a call of [listen] on a fresh adapter has completed,
    every plugin registered (before the call or by a plugin during it) has
    run exactly once, in order of registration, and every later call of
    [listen] runs no plugin and leaves what is registered (hooks,
    decorators, routes, plugins) unchanged. *)
Theorem plugins_initialized_once (fuel : nat) (serve_error : option Js.JsValue)
    (a a1 : Adapter.BunAdapter)
    (Hfresh : Adapter.fastifyInitialized a = false)
    (Hnone : Adapter.pluginRuns a = [])
    (Hlisten : Adapter.listen fuel serve_error a = Some (Pipeline.Val (), a1)) :
  Adapter.pluginRuns a1 = seq 0 (length (Adapter.plugins a1))
  ∧ ∀ (fuel' : nat) (serve_error' : option Js.JsValue),
      ∃ out a2,
        Adapter.listen fuel' serve_error' a1 = Some (out, a2)
        ∧ Adapter.registry a2 = Adapter.registry a1
        ∧ Adapter.plugins a2 = Adapter.plugins a1
        ∧ Adapter.pluginRuns a2 = Adapter.pluginRuns a1.
Proof.
  unfold Adapter.listen, Adapter.initializeFastifyPlugins in Hlisten.
  rewrite Hfresh in Hlisten.
  destruct (Adapter.initializePlugins fuel 0 a) as [[[[]| |] a']|] eqn:Hinit;
    [|done..].
  destruct serve_error; [done|]. injection Hlisten as <-.
  apply initializePlugins_runs in Hinit as (_ & Hruns & _ & _).
  split.
  - simpl. rewrite Hruns, Hnone, Nat.sub_0_r. done.
  - intros fuel' serve_error'. unfold Adapter.listen, Adapter.initializeFastifyPlugins.
    simpl. destruct serve_error'; eexists _, _; repeat split.
Qed.

Lemma plugins_initialized_once_witness :
  ∃ a1,
    Adapter.listen 10 None Examples.adapter_with_nested_plugin = Some (Pipeline.Val (), a1)
    ∧ Adapter.pluginRuns a1 = seq 0 (length (Adapter.plugins a1))
    ∧ length (Adapter.plugins a1) = 3%nat.
Proof.
  eexists. split; [reflexivity|]. split; [|reflexivity].
  exact (proj1 (plugins_initialized_once 10 None Examples.adapter_with_nested_plugin _
                  eq_refl eq_refl eq_refl)).
Defined.

Section RecoveryFacts.
Import Js Platform Pipeline Adapter.

(** The error-middleware chain calls error middleware only. *)
Lemma error_chain_trace (g : Registry) (mws : list ErrorMiddlewareEntry) (i : nat)
    (e : JsValue) (q : string) (st : St) :
  ∃ l, trace (snd (executeErrorMiddlewareChain_from g i mws e q st))
       = trace st ++ map EvErrorMiddleware l.
Proof.
  revert i e st. induction mws as [|mw mws IH]; intros i e st.
  - exists []. simpl. by rewrite app_nil_r.
  - cbn [executeErrorMiddlewareChain_from].
    destruct (Routing.pathMatchesMiddleware q _); cbn [negb]; [|apply IH].
    unfold mbind at 1. unfold M_bind at 1. unfold bind at 1. unfold call.
    destruct (emw_handler mw e (world st)) as [w' sg].
    set (st' := {| world := w'; trace := trace st ++ [EvErrorMiddleware i] |}).
    assert (Hone : ∃ l, trace st' = trace st ++ map EvErrorMiddleware l).
    { by exists [i]. }
    assert (Hmore : ∀ e', ∃ l,
               trace (snd (executeErrorMiddlewareChain_from g (S i) mws e' q st'))
               = trace st ++ map EvErrorMiddleware l).
    { intros e'. destruct (IH (S i) e' st') as [l Hl]. exists (i :: l).
      rewrite Hl. unfold st'. cbn [trace]. by rewrite <- app_assoc. }
    destruct (completion sg); munfold; try done;
      destruct (Express._ended (res w')); try done;
      destruct (truthy (nextError (calls sg))); done.
Qed.

(** The [onError] phase calls [onError] hooks only. *)
Lemma onError_trace (hooks : list FastifyOnErrorHook) (i : nat) (e : JsValue) (st : St) :
  ∃ l, trace (snd (executeOnError_from i hooks e st)) = trace st ++ map EvOnError l.
Proof.
  revert i st. induction hooks as [|hook hooks IH]; intros i st.
  - exists []. simpl. by rewrite app_nil_r.
  - cbn [executeOnError_from]. unfold run_onError_hook.
    unfold mbind at 1. unfold M_bind at 1. unfold bind at 1.
    unfold mbind at 1. unfold M_bind at 1. unfold bind at 1. unfold call.
    destruct (hook e (world st)) as [w' sg].
    set (st' := {| world := w'; trace := trace st ++ [EvOnError i] |}).
    assert (Hone : ∃ l, trace st' = trace st ++ map EvOnError l).
    { by exists [i]. }
    assert (Hmore : ∃ l, trace (snd (executeOnError_from (S i) hooks e st'))
                         = trace st ++ map EvOnError l).
    { destruct (IH (S i) st') as [l Hl]. exists (i :: l).
      rewrite Hl. unfold st'. cbn [trace]. by rewrite <- app_assoc. }
    destruct (calls sg) as [|c cs].
    + destruct (completion sg); munfold; try done;
        destruct (Fastify.sent (fastifyReply w')); done.
    + munfold.
      destruct (negb (truthy c) || existsb (λ err, negb (truthy err)) cs
                || Fastify.sent (fastifyReply w'))%bool; done.
Qed.

End RecoveryFacts.

Section CascadeFacts.
Import Js Platform Pipeline Adapter.

(** A handler that throws (or whose promise rejects) lands in the [catch]
    block. *)
Lemma run_route_throw (g : Registry) (route : Route) (pathname : string) (st : St)
    (w1 : World) (sg : Signal JsValue) (e : JsValue) :
  handler route (world st) = (w1, sg) →
  completion sg = CThrow e ∨ completion sg = CReject e →
  run_route g route pathname st
  = recover_handler_error g e pathname
      {| world := w1; trace := trace st ++ [EvHandler] |}.
Proof.
  intros Hcall Hthrow. unfold run_route, try_catch.
  unfold mbind at 1. unfold M_bind at 1. unfold bind at 1. unfold call at 1.
  rewrite Hcall.
  unfold mbind at 1. unfold M_bind at 1. unfold bind at 1.
  destruct Hthrow as [-> | ->]; reflexivity.
Qed.

(** A handler that returns having passed an error to [next] is recovered
    inside the [try] block: an exception of the recovery itself starts the
    recovery of the [catch] block. *)
Lemma run_route_next (g : Registry) (route : Route) (pathname : string) (st : St)
    (w1 : World) (sg : Signal JsValue) :
  handler route (world st) = (w1, sg) →
  (∃ v, completion sg = CReturn v ∨ completion sg = CResolve v) →
  truthy (nextError (calls sg)) = true →
  run_route g route pathname st
  = try_catch (recover_handler_error g (nextError (calls sg)) pathname)
              (λ err, recover_handler_error g err pathname)
      {| world := w1; trace := trace st ++ [EvHandler] |}.
Proof.
  intros Hcall [v Hv] Herr. unfold run_route, try_catch.
  unfold mbind at 1. unfold M_bind at 1. unfold bind at 1. unfold call at 1.
  rewrite Hcall. cbv beta iota zeta.
  unfold mbind at 1. unfold M_bind at 1. unfold bind at 1.
  rewrite Herr.
  destruct Hv as [-> | ->]; reflexivity.
Qed.

(** When the phases before it let the request through, the dispatcher
    reaches the [try] block of the matched route. *)
Lemma dispatch_reaches_route (g : Registry) (route : Route) (pathname : string)
    (st s1 s2 s3 : St) (u1 u3 : JsValue) (r : ChainResult) :
  executeOnRequest (fastifyHooks g) st = (Val u1, s1) →
  truthy u1 = false → Fastify.sent (fastifyReply (world s1)) = false →
  executeMiddlewareChain g pathname s1 = (Val r, s2) →
  truthy (error r) = false → completed r = false →
  Express._ended (res (world s2)) = false →
  executePreHandler (fastifyHooks g) s2 = (Val u3, s3) →
  truthy u3 = false → Fastify.sent (fastifyReply (world s3)) = false →
  dispatch g (Some route) pathname st
  = try_catch (run_route g route pathname) (top_level_catch g) s3.
Proof.
  intros H1 Hu1 Hs1 H2 Hr Hc He H3 Hu3 Hs3.
  unfold dispatch, try_catch.
  unfold mbind at 1. unfold M_bind at 1. unfold bind at 1. rewrite H1, Hu1.
  unfold mbind at 1. unfold M_bind at 1. unfold bind at 1. unfold get_world at 1.
  rewrite Hs1.
  unfold mbind at 1. unfold M_bind at 1. unfold bind at 1. rewrite H2, Hr.
  unfold mbind at 1. unfold M_bind at 1. unfold bind at 1. unfold get_world at 1.
  rewrite Hc, He. cbn [orb].
  unfold mbind at 1. unfold M_bind at 1. unfold bind at 1. rewrite H3, Hu3.
  unfold mbind at 1. unfold M_bind at 1. unfold bind at 1. unfold get_world at 1.
  rewrite Hs3. reflexivity.
Qed.

Lemma recover_unfold (g : Registry) (e : JsValue) (pathname : string) (st1 : St) :
  recover_handler_error g e pathname st1
  = match executeErrorMiddlewareChain g e pathname st1 with
    | (Val true, sta) => build_res sta
    | (Val false, sta) =>
        match executeOnError (fastifyHooks g) (as_Error e) sta with
        | (Val true, stb) => build_reply stb
        | (Val false, stb) =>
            match errorHandler g with
            | Some h => (_ ← call_errorHandler h e; build_res) stb
            | None =>
                (_ ← res_500 (message_or "Internal Server Error" e); build_res) stb
            end
        | (Exn x, stb) => (Exn x, stb)
        | (Hang, stb) => (Hang, stb)
        end
    | (Exn x, sta) => (Exn x, sta)
    | (Hang, sta) => (Hang, sta)
    end.
Proof.
  unfold recover_handler_error.
  unfold mbind at 1. unfold M_bind at 1. unfold bind at 1.
  destruct (executeErrorMiddlewareChain g e pathname st1) as [[[]|x|] sta]; try done.
  cbn [negb].
  unfold mbind at 1. unfold M_bind at 1. unfold bind at 1.
  destruct (executeOnError (fastifyHooks g) (as_Error e) sta) as [[[]|x|] stb]; try done.
  cbn [negb]. by destruct (errorHandler g).
Qed.

Lemma build_res_trace st : trace (snd (build_res st)) = trace st.
Proof. unfold build_res. by destruct (Express._buildResponse _). Qed.

Lemma build_reply_trace st : trace (snd (build_reply st)) = trace st.
Proof. unfold build_reply. by destruct (Fastify._buildResponse _). Qed.

Lemma recover_trace (g : Registry) (e : JsValue) (pathname : string) (st1 : St) :
  ∃ ems ohs last,
    trace (snd (recover_handler_error g e pathname st1))
    = trace st1 ++ map EvErrorMiddleware ems ++ map EvOnError ohs ++ last
    ∧ (last = [] ∨ last = [EvErrorHandler]).
Proof.
  rewrite recover_unfold. unfold executeErrorMiddlewareChain, executeOnError.
  destruct (error_chain_trace g (errorMiddlewares g) 0 e pathname st1) as [ems Hems].
  destruct (executeErrorMiddlewareChain_from g 0 (errorMiddlewares g) e pathname st1)
    as [ra sta]. simpl in Hems.
  destruct (onError_trace (onErrorHooks (fastifyHooks g)) 0 (as_Error e) sta) as [ohs Hohs].
  assert (Hstop : ∃ ems ohs last,
             trace sta = trace st1 ++ map EvErrorMiddleware ems ++ map EvOnError ohs ++ last
             ∧ (last = [] ∨ last = [EvErrorHandler])).
  { exists ems, [], []. rewrite Hems. simpl. rewrite app_nil_r. by split; [|left]. }
  destruct ra as [[]|x|]; [|clear Hstop|exact Hstop..].
  { by rewrite build_res_trace. }
  destruct (executeOnError_from 0 (onErrorHooks (fastifyHooks g)) (as_Error e) sta)
    as [rb stb]. simpl in Hohs.
  assert (Hb : trace stb = trace st1 ++ map EvErrorMiddleware ems ++ map EvOnError ohs ++ []).
  { rewrite Hohs, Hems, app_nil_r. by rewrite <- app_assoc. }
  destruct rb as [[]|x|]; [| |by exists ems, ohs, []; split; [|left]..].
  { exists ems, ohs, []. rewrite build_reply_trace. by split; [|left]. }
  destruct (errorHandler g) as [h|].
  - exists ems, ohs, [EvErrorHandler]. split; [|by right].
    unfold call_errorHandler. munfold.
    destruct (h e (world stb)) as [w c]. cbn.
    destruct c; cbn; rewrite ?build_res_trace; cbn; rewrite Hb, app_nil_r;
      by rewrite <- !app_assoc.
  - exists ems, ohs, []. split; [|by left].
    unfold res_500. munfold. rewrite build_res_trace. done.
Qed.

(** The default answer. *)
Lemma default_500_response (e : JsValue) (st : St) :
  ∃ response st',
    (_ ← res_500 (message_or "Internal Server Error" e); build_res) st = (Val response, st')
    ∧ Platform.status response = 500
    ∧ Platform.body response
      = JSON_stringify (JObj [("statusCode", JNum 500);
                              ("message", message_or "Internal Server Error" e)]).
Proof.
  unfold res_500, build_res. munfold. unfold Express._buildResponse. cbn.
  rewrite andb_false_r. cbn.
  eexists _, _. split; [reflexivity|]. cbn. split; [done|]. by destruct e.
Qed.

End CascadeFacts.

Section ChainSteps.
Import Js Platform Pipeline Adapter.

(** One step of the error-middleware chain at a handler in scope. *)
Lemma error_chain_step (g : Registry) (i : nat) (mw : ErrorMiddlewareEntry)
    (rest : list ErrorMiddlewareEntry) (err : JsValue) (q : string) (st : St)
    (w' : World) (sg : Signal JsValue) :
  Routing.pathMatchesMiddleware q (Routing.buildPath (globalPrefix g) (emw_path mw)) = true →
  emw_handler mw err (world st) = (w', sg) →
  let st' := {| world := w'; trace := trace st ++ [EvErrorMiddleware i] |} in
  ((∃ x, completion sg = CThrow x ∨ completion sg = CReject x) →
     executeErrorMiddlewareChain_from g i (mw :: rest) err q st
     = executeErrorMiddlewareChain_from g (S i) rest err q st')
  ∧ ((∃ v, completion sg = CReturn v ∨ completion sg = CResolve v) →
     (Express._ended (res w') = true ∨ truthy (nextError (calls sg)) = false) →
     executeErrorMiddlewareChain_from g i (mw :: rest) err q st = (Val true, st'))
  ∧ ((∃ v, completion sg = CReturn v ∨ completion sg = CResolve v) →
     Express._ended (res w') = false → truthy (nextError (calls sg)) = true →
     executeErrorMiddlewareChain_from g i (mw :: rest) err q st
     = executeErrorMiddlewareChain_from g (S i) rest (nextError (calls sg)) q st').
Proof.
  intros Hscope Hcall st'.
  assert (Hstep : executeErrorMiddlewareChain_from g i (mw :: rest) err q st
            = match completion sg with
              | CThrow _ | CReject _ =>
                  executeErrorMiddlewareChain_from g (S i) rest err q st'
              | CPending => (Hang, st')
              | CReturn _ | CResolve _ =>
                  if Express._ended (res w') then (Val true, st')
                  else if truthy (nextError (calls sg))
                       then executeErrorMiddlewareChain_from g (S i) rest
                              (nextError (calls sg)) q st'
                       else (Val true, st')
              end).
  { cbn [executeErrorMiddlewareChain_from]. rewrite Hscope. cbn [negb].
    unfold mbind at 1. unfold M_bind at 1. unfold bind at 1. unfold call. rewrite Hcall.
    cbv beta iota zeta. fold st'.
    destruct (completion sg); munfold; try done;
      destruct (Express._ended (res w')); try done;
      by destruct (truthy (nextError (calls sg))). }
  rewrite Hstep. repeat apply conj.
  - intros [x Hx]. destruct (completion sg); destruct Hx as [Hx|Hx]; by inversion Hx.
  - intros [v Hv] Hwin.
    destruct (completion sg); destruct Hv as [Hv|Hv]; inversion Hv;
      destruct (Express._ended (res w')); try done;
      destruct Hwin as [?| ->]; done.
  - intros [v Hv] Hopen Hfwd. rewrite Hopen, Hfwd.
    destruct (completion sg); destruct Hv as [Hv|Hv]; by inversion Hv.
Qed.

(** An [onError] hook whose promise rejects has not handled the error. *)
Lemma onError_reject_step (i : nat) (hook : FastifyOnErrorHook)
    (rest : list FastifyOnErrorHook) (err x : JsValue) (st : St) (w' : World)
    (sg : Signal JsValue) :
  hook err (world st) = (w', sg) →
  calls sg = [] → completion sg = CReject x →
  Fastify.sent (fastifyReply w') = false →
  executeOnError_from i (hook :: rest) err st
  = executeOnError_from (S i) rest err
      {| world := w'; trace := trace st ++ [EvOnError i] |}.
Proof.
  intros Hcall Hcalls Hrej Hsent. cbn [executeOnError_from]. unfold run_onError_hook.
  unfold mbind at 1. unfold M_bind at 1. unfold bind at 1.
  unfold mbind at 1. unfold M_bind at 1. unfold bind at 1. unfold call.
  rewrite Hcall. cbv beta iota zeta. rewrite Hcalls, Hrej. munfold. by rewrite Hsent.
Qed.

End ChainSteps.

(** C2, as stated, fails for an error of a hook phase: the [onRequest] hook
    fails with "boom" and an error middleware in scope would answer
    "Handled", but the error middleware is never called; the answer is the
    500 body of the Fastify reply. *)
Lemma hook_error_bypasses_error_middleware :
  let out := Adapter.handleRequest Examples.registry_with_failing_hook
               (Examples.get_request "/any" EmptyString []) "req-1" in
  Pipeline.trace (snd out) = [Pipeline.EvOnRequest 0]
  ∧ (Pipeline.EvErrorMiddleware 0 ∉ Pipeline.trace (snd out))
  ∧ (∃ response,
      fst out = Pipeline.Val response
      ∧ Platform.status response = 500
      ∧ Platform.body response
        = Js.JSON_stringify
            (Js.JObj [("statusCode", Js.JNum 500);
                      ("error", Js.JStr "Internal Server Error");
                      ("message", Js.JStr "boom")])
      ∧ Platform.body response ≠ Js.JStr "Handled").
Proof.
  vm_compute. split; [done|]. split.
  - intros H. apply list_elem_of_singleton in H. discriminate H.
  - eexists. repeat split. done.
Qed.

(** C2, amended. For an error thrown by the matched route handler (or the
    rejection of the promise it returns, or an error it passes to [next]),
    recovery tries, in this order:
    (a) the Express error-middleware chain in scope of the path, where a
    handler that throws is skipped, a handler that forwards an error hands
    it to the next one, and the first handler that ends the response or does
    not forward an error wins; (b) if unhandled, the Fastify [onError]
    hooks, where a hook whose promise rejects, the reply not being sent, has
    not handled the error;
    (c) if still unhandled, the global error handler if one is registered;
    (d) otherwise the default JSON body with [statusCode] 500 and the
    message of the error, or "Internal Server Error". The dispatcher
    reaches this recovery whenever the phases before the handler let the
    request through. *)
Theorem handler_error_recovery_order (g : Adapter.Registry) (route : Adapter.Route)
    (pathname : string) (st : Pipeline.St) (w1 : Pipeline.World)
    (sg : Pipeline.Signal Js.JsValue) (e : Js.JsValue)
    (Hcall : Adapter.handler route (Pipeline.world st) = (w1, sg))
    (Hthrow : Pipeline.completion sg = Pipeline.CThrow e
              ∨ Pipeline.completion sg = Pipeline.CReject e) :
  let st1 := {| Pipeline.world := w1;
                Pipeline.trace := Pipeline.trace st ++ [Pipeline.EvHandler] |} in
  let A := Adapter.executeErrorMiddlewareChain g e pathname st1 in
  let B := Pipeline.executeOnError (Adapter.fastifyHooks g) (Js.as_Error e) (snd A) in
  let R := Adapter.run_route g route pathname st in
  (fst A = Pipeline.Val true → R = Adapter.build_res (snd A))
  ∧ (fst A = Pipeline.Val false → fst B = Pipeline.Val true →
     R = Adapter.build_reply (snd B))
  ∧ (fst A = Pipeline.Val false → fst B = Pipeline.Val false →
     ∀ h, Adapter.errorHandler g = Some h →
          R = (_ ← Adapter.call_errorHandler h e; Adapter.build_res) (snd B))
  ∧ (fst A = Pipeline.Val false → fst B = Pipeline.Val false →
     Adapter.errorHandler g = None →
     ∃ response,
       fst R = Pipeline.Val response
       ∧ Platform.status response = 500
       ∧ Platform.body response
         = Js.JSON_stringify
             (Js.JObj [("statusCode", Js.JNum 500);
                       ("message", Js.message_or "Internal Server Error" e)]))
  ∧ (∃ ems ohs last,
       Pipeline.trace (snd R)
       = Pipeline.trace st1 ++ map Pipeline.EvErrorMiddleware ems
         ++ map Pipeline.EvOnError ohs ++ last
       ∧ (last = [] ∨ last = [Pipeline.EvErrorHandler]))
  ∧ (∀ (i : nat) (mw : Adapter.ErrorMiddlewareEntry)
       (rest : list Adapter.ErrorMiddlewareEntry) (err : Js.JsValue) (s : Pipeline.St)
       (w' : Pipeline.World) (sg' : Pipeline.Signal Js.JsValue),
       Routing.pathMatchesMiddleware pathname
         (Routing.buildPath (Adapter.globalPrefix g) (Adapter.emw_path mw)) = true →
       Adapter.emw_handler mw err (Pipeline.world s) = (w', sg') →
       let s' := {| Pipeline.world := w';
                    Pipeline.trace := Pipeline.trace s ++ [Pipeline.EvErrorMiddleware i] |} in
       ((∃ x, Pipeline.completion sg' = Pipeline.CThrow x
              ∨ Pipeline.completion sg' = Pipeline.CReject x) →
        Adapter.executeErrorMiddlewareChain_from g i (mw :: rest) err pathname s
        = Adapter.executeErrorMiddlewareChain_from g (S i) rest err pathname s')
       ∧ ((∃ v, Pipeline.completion sg' = Pipeline.CReturn v
                ∨ Pipeline.completion sg' = Pipeline.CResolve v) →
          (Express._ended (Pipeline.res w') = true
           ∨ Js.truthy (Pipeline.nextError (Pipeline.calls sg')) = false) →
          Adapter.executeErrorMiddlewareChain_from g i (mw :: rest) err pathname s
          = (Pipeline.Val true, s'))
       ∧ ((∃ v, Pipeline.completion sg' = Pipeline.CReturn v
                ∨ Pipeline.completion sg' = Pipeline.CResolve v) →
          Express._ended (Pipeline.res w') = false →
          Js.truthy (Pipeline.nextError (Pipeline.calls sg')) = true →
          Adapter.executeErrorMiddlewareChain_from g i (mw :: rest) err pathname s
          = Adapter.executeErrorMiddlewareChain_from g (S i) rest
              (Pipeline.nextError (Pipeline.calls sg')) pathname s'))
  ∧ (∀ (route' : Adapter.Route) (s : Pipeline.St) (w' : Pipeline.World)
       (sg' : Pipeline.Signal Js.JsValue),
       Adapter.handler route' (Pipeline.world s) = (w', sg') →
       (∃ v, Pipeline.completion sg' = Pipeline.CReturn v
             ∨ Pipeline.completion sg' = Pipeline.CResolve v) →
       Js.truthy (Pipeline.nextError (Pipeline.calls sg')) = true →
       Adapter.run_route g route' pathname s
       = Pipeline.try_catch
           (Adapter.recover_handler_error g (Pipeline.nextError (Pipeline.calls sg'))
              pathname)
           (λ err, Adapter.recover_handler_error g err pathname)
           {| Pipeline.world := w';
              Pipeline.trace := Pipeline.trace s ++ [Pipeline.EvHandler] |})
  ∧ (R = Adapter.recover_handler_error g e pathname st1)
  ∧ (∀ (s0 s1 s2 : Pipeline.St) (u1 u3 : Js.JsValue) (r : Adapter.ChainResult),
       Pipeline.executeOnRequest (Adapter.fastifyHooks g) s0 = (Pipeline.Val u1, s1) →
       Js.truthy u1 = false →
       Fastify.sent (Pipeline.fastifyReply (Pipeline.world s1)) = false →
       Adapter.executeMiddlewareChain g pathname s1 = (Pipeline.Val r, s2) →
       Js.truthy (Adapter.error r) = false → Adapter.completed r = false →
       Express._ended (Pipeline.res (Pipeline.world s2)) = false →
       Pipeline.executePreHandler (Adapter.fastifyHooks g) s2 = (Pipeline.Val u3, st) →
       Js.truthy u3 = false →
       Fastify.sent (Pipeline.fastifyReply (Pipeline.world st)) = false →
       Adapter.dispatch g (Some route) pathname s0
       = Pipeline.try_catch (Adapter.run_route g route pathname)
                            (Adapter.top_level_catch g) st)
  ∧ (∀ (i : nat) (hook : Pipeline.FastifyOnErrorHook)
       (rest : list Pipeline.FastifyOnErrorHook) (err x : Js.JsValue) (s : Pipeline.St)
       (w' : Pipeline.World) (sg' : Pipeline.Signal Js.JsValue),
       hook err (Pipeline.world s) = (w', sg') →
       Pipeline.calls sg' = [] → Pipeline.completion sg' = Pipeline.CReject x →
       Fastify.sent (Pipeline.fastifyReply w') = false →
       Pipeline.executeOnError_from i (hook :: rest) err s
       = Pipeline.executeOnError_from (S i) rest err
           {| Pipeline.world := w';
              Pipeline.trace := Pipeline.trace s ++ [Pipeline.EvOnError i] |}).
Proof.
  intros st1 A B R.
  assert (HR : R = Adapter.recover_handler_error g e pathname st1).
  { by apply run_route_throw with sg. }
  pose proof (recover_unfold g e pathname st1) as Hun. fold A in Hun.
  repeat apply conj.
  - intros HA. rewrite HR, Hun. destruct A as [ra sta]. simpl in *. by rewrite HA.
  - intros HA HB. rewrite HR, Hun. unfold B. destruct A as [ra sta]. simpl in *.
    rewrite HA. destruct (Pipeline.executeOnError _ _ sta) as [rb stb]. simpl in *.
    by rewrite HB.
  - intros HA HB h Hh. rewrite HR, Hun. unfold B. destruct A as [ra sta]. simpl in *.
    rewrite HA. destruct (Pipeline.executeOnError _ _ sta) as [rb stb]. simpl in *.
    by rewrite HB, Hh.
  - intros HA HB Hh. rewrite HR, Hun. unfold B. destruct A as [ra sta]. simpl in *.
    rewrite HA. destruct (Pipeline.executeOnError _ _ sta) as [rb stb]. simpl in *.
    rewrite HB, Hh.
    destruct (default_500_response e stb) as (response & st' & Heq & Hst & Hbody).
    exists response. by rewrite Heq.
  - rewrite HR. apply recover_trace.
  - intros i mw rest err s w' sg' Hscope Hmw. by apply error_chain_step.
  - intros route' s w' sg' Hh Hv Herr. by apply run_route_next.
  - exact HR.
  - intros s0 s1 s2 u1 u3 r. apply dispatch_reaches_route.
  - intros i hook rest err x s w' sg' Hh Hc Hr Hs. by apply onError_reject_step with x sg'.
Qed.

Lemma handler_error_recovery_order_witness :
  ∃ response,
    fst (Adapter.run_route Adapter.empty_registry Examples.throwing_route "/boom"
           Examples.start_state) = Pipeline.Val response
    ∧ Platform.status response = 500
    ∧ Platform.body response
      = Js.JSON_stringify (Js.JObj [("statusCode", Js.JNum 500);
                                    ("message", Js.JStr "boom")]).
Proof.
  exact (proj1 (proj2 (proj2 (proj2
           (handler_error_recovery_order Adapter.empty_registry Examples.throwing_route
              "/boom" Examples.start_state _ _ (Js.JError "boom") eq_refl
              (or_introl eq_refl))))) eq_refl eq_refl eq_refl).
Defined.

(** C3 does not hold of the code. With one [onResponse] hook registered,
    [GET /ok] (a matched route that answers) calls the hook after the
    handler, but [GET /missing] (no route) returns the default 404 response
    without calling it: the not-found path returns before the hooks. *)
Lemma onResponse_skipped_when_no_route :
  ∃ g, Examples.registry_with_onResponse = Some g
       ∧ Pipeline.trace (snd (Adapter.handleRequest g
                                (Examples.get_request "/ok" EmptyString []) "req-1"))
         = [Pipeline.EvHandler; Pipeline.EvOnResponse 0]
       ∧ fst (Adapter.handleRequest g
                (Examples.get_request "/missing" EmptyString []) "req-2")
         = Pipeline.Val (Adapter.json_Response 404 (Js.JStr "Not Found"))
       ∧ Pipeline.trace (snd (Adapter.handleRequest g
                                (Examples.get_request "/missing" EmptyString []) "req-2"))
         = [].
Proof. eexists. split; [reflexivity|]. vm_compute. done. Qed.

(** An [onResponse] hook that throws is not ignored either: the response
    of [GET /ok], already built with status 200, is replaced by the default
    500 answer. *)
Lemma onResponse_throw_replaces_response :
  ∃ g response,
    Examples.registry_with_throwing_onResponse = Some g
    ∧ fst (Adapter.handleRequest g (Examples.get_request "/ok" EmptyString []) "req-1")
      = Pipeline.Val response
    ∧ Platform.status response = 500.
Proof. do 2 eexists. split; [reflexivity|]. vm_compute. done. Qed.

(** With the global prefix [api] a middleware registered under the root
    scope gets the scope [/api/], which the path [/api/users] is not in. *)
Lemma root_scope_under_global_prefix :
  Routing.buildPath "api" "/" = "/api/"
  ∧ Routing.pathMatchesMiddleware "/api/users" (Routing.buildPath "api" "/") = false.
Proof. vm_compute. done. Qed.

(** On a reply already sent, [redirect] is not guarded as [send] is. *)
Lemma fastify_redirect_after_send :
  let reply := Fastify.send (Js.JStr "first") Fastify.createFastifyReply in
  Platform.status (fst (Fastify._buildResponse reply)) = 200
  ∧ Platform.status (fst (Fastify._buildResponse
                            (Fastify.redirect (inr "/login") None reply))) = 302.
Proof. vm_compute. done. Qed.

(* ===================================================================== *)
(** * Further properties: the code around the pipeline                    *)
(* ===================================================================== *)

(** [Headers] is an alias of a list type: rewriting with list lemmas needs
    the list type itself. *)
Ltac hnorm := change Platform.Headers with (list (string * string)) in *.

Section HeaderFacts.
Import Platform.

Lemma h_is_true name e : h_is name e = true ↔ fst e = Str.toLowerCase name.
Proof. unfold h_is. apply eqb_true. Qed.

Lemma h_is_same_name n n' e :
  Str.toLowerCase n = Str.toLowerCase n' → h_is n e = h_is n' e.
Proof. unfold h_is. by intros ->. Qed.

Lemma h_has_filter h name :
  h_has h name = false ↔ filter (λ e, h_is name e = true) h = [].
Proof.
  unfold h_has. hnorm. induction h as [|e h IH]; [done|].
  cbn [existsb]. rewrite filter_cons. destruct (h_is name e) eqn:E; cbn [orb].
  - rewrite decide_True by done. done.
  - rewrite decide_False by (by intros ?). exact IH.
Qed.

Lemma filter_h_delete_same h n n' :
  Str.toLowerCase n = Str.toLowerCase n' →
  filter (λ e, h_is n' e = true) (h_delete h n) = [].
Proof.
  intros Hn. unfold h_delete. hnorm. induction h as [|e h IH]; [done|].
  rewrite filter_cons. destruct (h_is n e) eqn:E.
  - rewrite decide_False by (by intros ?). exact IH.
  - rewrite decide_True by done. rewrite filter_cons.
    rewrite <- (h_is_same_name n n' e Hn), E.
    rewrite decide_False by (by intros ?). exact IH.
Qed.

Lemma filter_h_delete_other h n n' :
  Str.toLowerCase n ≠ Str.toLowerCase n' →
  filter (λ e, h_is n' e = true) (h_delete h n) = filter (λ e, h_is n' e = true) h.
Proof.
  intros Hn. unfold h_delete. hnorm. induction h as [|e h IH]; [done|].
  rewrite !filter_cons. destruct (h_is n e) eqn:E.
  - rewrite decide_False by (by intros ?).
    assert (h_is n' e = false) as E'.
    { apply h_is_true in E. apply not_true_is_false. intros E'%h_is_true. congruence. }
    rewrite E'. rewrite decide_False by (by intros ?). exact IH.
  - rewrite decide_True by done. rewrite filter_cons, IH. done.
Qed.

Lemma filter_h_replace_first h n n' v :
  h_has h n = true →
  filter (λ e, h_is n' e = true) (h_replace_first h n v)
  = if decide (Str.toLowerCase n = Str.toLowerCase n')
    then [(Str.toLowerCase n, v)]
    else filter (λ e, h_is n' e = true) h.
Proof.
  hnorm. induction h as [|e h IH]; [done|].
  cbn [h_replace_first h_has existsb]. hnorm. intros Hhas.
  destruct (h_is n e) eqn:E.
  - rewrite filter_cons.
    apply h_is_true in E as Hfst. destruct e as [k x]. simpl in Hfst. subst k.
    destruct (decide (Str.toLowerCase n = Str.toLowerCase n')) as [Hn|Hn].
    + assert (h_is n' (Str.toLowerCase n, v) = true) as E1.
      { apply h_is_true. simpl. exact Hn. }
      rewrite decide_True by exact E1.
      by rewrite filter_h_delete_same.
    + assert (h_is n' (Str.toLowerCase n, v) = false) as E1.
      { unfold h_is. simpl. by apply eqb_false. }
      assert (h_is n' (Str.toLowerCase n, x) = false) as E2.
      { unfold h_is. simpl. by apply eqb_false. }
      rewrite decide_False by (cbn [fst]; by rewrite E1).
      rewrite filter_cons. rewrite decide_False by (by rewrite E2).
      by apply filter_h_delete_other.
  - cbn [orb] in Hhas. rewrite !filter_cons, (IH Hhas).
    destruct (decide (Str.toLowerCase n = Str.toLowerCase n')) as [Hn|Hn]; [|done].
    rewrite <- (h_is_same_name n n' e Hn), E.
    by rewrite decide_False by (by intros ?).
Qed.

Lemma filter_h_set h n n' v :
  filter (λ e, h_is n' e = true) (h_set h n v)
  = if decide (Str.toLowerCase n = Str.toLowerCase n')
    then [(Str.toLowerCase n, normalize v)]
    else filter (λ e, h_is n' e = true) h.
Proof.
  unfold h_set. hnorm. destruct (h_has h n) eqn:Hhas.
  - by apply filter_h_replace_first.
  - rewrite filter_app, filter_cons, filter_nil.
    destruct (decide (Str.toLowerCase n = Str.toLowerCase n')) as [Hn|Hn].
    + apply h_has_filter in Hhas. hnorm.
      assert (filter (λ e, h_is n' e = true) h = filter (λ e, h_is n e = true) h) as ->.
      { apply list_filter_iff. intros e. by rewrite (h_is_same_name n n' e Hn). }
      rewrite Hhas.
      assert (h_is n' (Str.toLowerCase n, normalize v) = true) as E1.
      { apply h_is_true. simpl. exact Hn. }
      by rewrite decide_True by exact E1.
    + assert (h_is n' (Str.toLowerCase n, normalize v) = false) as ->.
      { unfold h_is. simpl. by apply eqb_false. }
      rewrite decide_False by (by intros ?). by rewrite app_nil_r.
Qed.

Lemma h_get_set h n n' v :
  h_get (h_set h n v) n'
  = if decide (Str.toLowerCase n = Str.toLowerCase n') then Some (normalize v)
    else h_get h n'.
Proof.
  unfold h_get. hnorm. rewrite filter_h_set.
  by destruct (decide (Str.toLowerCase n = Str.toLowerCase n')).
Qed.

Lemma h_get_delete h n n' :
  h_get (h_delete h n) n'
  = if decide (Str.toLowerCase n = Str.toLowerCase n') then None else h_get h n'.
Proof.
  unfold h_get. hnorm.
  destruct (decide (Str.toLowerCase n = Str.toLowerCase n')) as [Hn|Hn].
  - by rewrite filter_h_delete_same.
  - by rewrite filter_h_delete_other.
Qed.

Lemma h_has_get h n : h_has h n = true ↔ is_Some (h_get h n).
Proof.
  unfold h_get. hnorm. destruct (h_has h n) eqn:E.
  - split; [intros _|done].
    destruct (filter _ h) eqn:F; [|by eexists].
    apply h_has_filter in F. congruence.
  - apply h_has_filter in E. hnorm. rewrite E. split; [done|]. by intros [? ?].
Qed.

Lemma h_has_set h n n' v :
  h_has (h_set h n v) n'
  = if decide (Str.toLowerCase n = Str.toLowerCase n') then true else h_has h n'.
Proof.
  destruct (h_has (h_set h n v) n') eqn:E.
  - apply h_has_get in E. rewrite h_get_set in E.
    destruct (decide _); [done|]. symmetry. by apply h_has_get.
  - destruct (decide _) as [Hn|Hn].
    + assert (H : is_Some (h_get (h_set h n v) n')).
      { rewrite h_get_set, decide_True by done. by eexists. }
      apply h_has_get in H. congruence.
    + destruct (h_has h n') eqn:E'; [|done].
      apply h_has_get in E'.
      assert (H : is_Some (h_get (h_set h n v) n')).
      { by rewrite h_get_set, decide_False by done. }
      apply h_has_get in H. congruence.
Qed.

End HeaderFacts.

Section NormalizeFacts.
Import Platform.






End NormalizeFacts.

Section HeaderAppendFacts.
Import Platform.

Lemma h_has_delete h n n' :
  h_has (h_delete h n) n'
  = if decide (Str.toLowerCase n = Str.toLowerCase n') then false else h_has h n'.
Proof.
  destruct (h_has (h_delete h n) n') eqn:E.
  - apply h_has_get in E. rewrite h_get_delete in E.
    destruct (decide _); [by destruct E|]. symmetry. by apply h_has_get.
  - destruct (decide _) as [Hn|Hn]; [done|].
    destruct (h_has h n') eqn:E'; [|done].
    apply h_has_get in E'.
    assert (H : is_Some (h_get (h_delete h n) n')).
    { by rewrite h_get_delete, decide_False by done. }
    apply h_has_get in H. congruence.
Qed.

Lemma h_get_same_name h n n' :
  Str.toLowerCase n = Str.toLowerCase n' → h_get h n = h_get h n'.
Proof. unfold h_get, h_is. by intros ->. Qed.

Lemma h_has_same_name h n n' :
  Str.toLowerCase n = Str.toLowerCase n' → h_has h n = h_has h n'.
Proof. unfold h_has, h_is. by intros ->. Qed.

Lemma join_snoc sep ps v :
  ps ≠ [] → Str.join sep (ps ++ [v]) = Str.join sep ps +:+ sep +:+ v.
Proof.
  induction ps as [|p ps IH]; [done|]. intros _.
  destruct ps as [|q ps]; [done|].
  change ((p :: q :: ps) ++ [v]) with (p :: ((q :: ps) ++ [v])).
  cbn [app]. rewrite !join_cons_cons.
  change (q :: ps ++ [v]) with ((q :: ps) ++ [v]).
  rewrite IH by done. by rewrite !append_assoc.
Qed.

Lemma h_get_append h n n' v :
  h_get (h_append h n v) n'
  = if decide (Str.toLowerCase n = Str.toLowerCase n')
    then Some (match h_get h n' with
               | Some existing => existing +:+ ", " +:+ normalize v
               | None => normalize v
               end)
    else h_get h n'.
Proof.
  unfold h_get, h_append. hnorm. rewrite filter_app, filter_cons, filter_nil.
  set (v' := normalize v).
  destruct (decide (Str.toLowerCase n = Str.toLowerCase n')) as [Hn|Hn].
  - assert (h_is n' (Str.toLowerCase n, v') = true) as E1.
    { apply h_is_true. simpl. exact Hn. }
    rewrite decide_True by exact E1.
    destruct (filter _ h) as [|e es] eqn:F; [done|].
    cbn [app]. f_equal.
    change (e :: es ++ [(Str.toLowerCase n, v')]) with ((e :: es) ++ [(Str.toLowerCase n, v')]).
    rewrite map_app.
    change (map snd [(Str.toLowerCase n, v')]) with [v'].
    by rewrite join_snoc.
  - assert (h_is n' (Str.toLowerCase n, v') = false) as E1.
    { unfold h_is. simpl. by apply eqb_false. }
    rewrite decide_False by (by rewrite E1). by rewrite app_nil_r.
Qed.

End HeaderAppendFacts.

(** X1. A header written on a response builder is read back under any
    spelling of its name, and writing or removing one header leaves the
    others alone. For a name and a value that [Headers] accepts: after
    [res.set(field, value)] (or [setHeader], [header]), [res.get(field')]
    is [value] without the white space at its ends when [field'] is [field]
    up to letter case, and what it was before otherwise; after
    [res.removeHeader(field)] it is [null] for such a [field']. The same
    holds of [reply.header], [reply.getHeader], [reply.hasHeader] and
    [reply.removeHeader]. A value that stands between white space is not
    read back as it was written. *)
Theorem response_header_written_is_read (field field' value : string)
    (r : Express.ExpressResponse) (p : Fastify.FastifyReply)
    (Hfield : Platform.accepts_header field value = true)
    (Hfield' : Platform.is_token field' = true) :
  Express.get field' (Express.set field value r)
  = (if decide (Str.toLowerCase field = Str.toLowerCase field')
     then Some (Platform.normalize value)
     else Express.get field' r)
  ∧ Express.get field' (Express.removeHeader field r)
    = (if decide (Str.toLowerCase field = Str.toLowerCase field') then None
       else Express.get field' r)
  ∧ FastifyMore.getHeader field' (Fastify.header field value p)
    = (if decide (Str.toLowerCase field = Str.toLowerCase field')
       then Some (Platform.normalize value)
       else FastifyMore.getHeader field' p)
  ∧ FastifyMore.hasHeader field' (Fastify.header field value p)
    = (if decide (Str.toLowerCase field = Str.toLowerCase field') then true
       else FastifyMore.hasHeader field' p)
  ∧ FastifyMore.getHeader field' (Fastify.removeHeader field p)
    = (if decide (Str.toLowerCase field = Str.toLowerCase field') then None
       else FastifyMore.getHeader field' p)
  ∧ FastifyMore.hasHeader field' (Fastify.removeHeader field p)
    = (if decide (Str.toLowerCase field = Str.toLowerCase field') then false
       else FastifyMore.hasHeader field' p)
  ∧ Express.get "x-note" (Express.set "X-Note" " kept " r) = Some "kept".
Proof.
  unfold Express.get, Express.set, Express.removeHeader, FastifyMore.getHeader,
    FastifyMore.hasHeader, Fastify.header, Fastify.removeHeader.
  cbn [Express.res_headers Express.with_headers Fastify.reply_headers Fastify.with_headers].
  repeat apply conj.
  - apply h_get_set.
  - apply h_get_delete.
  - apply h_get_set.
  - apply h_has_set.
  - apply h_get_delete.
  - apply h_has_delete.
  - by rewrite h_get_set, decide_True.
Qed.

Lemma response_header_written_is_read_witness :
  Express.get "content-language" (Express.set "Content-Language" " en " Express.createExpressResponse)
  = Some "en".
Proof.
  exact (proj1 (response_header_written_is_read "Content-Language" "content-language" " en "
                  Express.createExpressResponse Fastify.createFastifyReply
                  eq_refl eq_refl)).
Defined.

(** X2. [res.append] accumulates where [res.set] replaces. For a name and
    a value that [Headers] accepts: after [res.append(field, value)] the
    header reads as the former value, a comma and a space, and [value]
    without the white space at its ends (as that alone when there was
    none), and the headers of other names are untouched. [res.vary(field)]
    writes the former value of [Vary], a comma, a space and [field] in one
    piece, except that an empty former value is dropped. *)
Theorem append_accumulates (field field' value : string) (r : Express.ExpressResponse)
    (Hfield : Platform.accepts_header field value = true)
    (Hfield' : Platform.is_token field' = true)
    (Hvary : ∀ existing, Express.get "Vary" r = Some existing →
                         Platform.is_field_value (existing +:+ ", " +:+ value) = true) :
  Express.get field' (Express.append field [value] r)
  = (if decide (Str.toLowerCase field = Str.toLowerCase field')
     then Some (match Express.get field' r with
                | Some existing => existing +:+ ", " +:+ Platform.normalize value
                | None => Platform.normalize value
                end)
     else Express.get field' r)
  ∧ Express.get field' (Express.vary value r)
    = (if decide (Str.toLowerCase "Vary" = Str.toLowerCase field')
       then Some (match Express.get field' r with
                  | Some existing =>
                      if decide (existing = EmptyString) then Platform.normalize value
                      else Platform.normalize (existing +:+ ", " +:+ value)
                  | None => Platform.normalize value
                  end)
       else Express.get field' r).
Proof.
  unfold Express.get, Express.append, Express.vary. split.
  - cbn [Express.res_headers Express.with_headers foldl]. apply h_get_append.
  - assert (Hsame : Str.toLowerCase "Vary" = Str.toLowerCase field' →
                    Platform.h_get (Express.res_headers r) "Vary"
                    = Platform.h_get (Express.res_headers r) field').
    { apply h_get_same_name. }
    destruct (Platform.h_get (Express.res_headers r) "Vary") as [existing|] eqn:E.
    + destruct (Str.eqb existing EmptyString) eqn:Ee;
        cbn [Express.res_headers Express.with_headers]; rewrite h_get_set;
        destruct (decide _) as [Hn|Hn]; try done.
      * rewrite <- (Hsame Hn). apply eqb_true in Ee. by rewrite decide_True.
      * rewrite <- (Hsame Hn). apply eqb_false in Ee. by rewrite decide_False.
    + cbn [Express.res_headers Express.with_headers]. rewrite h_get_set.
      destruct (decide _) as [Hn|Hn]; [|done]. by rewrite <- (Hsame Hn).
Qed.

Lemma append_accumulates_witness :
  Express.get "vary"
    (Express.vary "Accept" (Express.set "Vary" "Origin" Express.createExpressResponse))
  = Some "Origin, Accept".
Proof.
  refine (proj2 (append_accumulates "Vary" "vary" "Accept"
                   (Express.set "Vary" "Origin" Express.createExpressResponse)
                   eq_refl eq_refl _)).
  intros existing H. vm_compute in H. injection H as <-. reflexivity.
Defined.


(** X3. Building the response is repeatable: for a body that is not a
    stream (a stream can be handed out once), a second [_buildResponse()]
    on the same builder returns the response of the first one, for the
    Express response and for the Fastify reply (whose first call may write
    the default [Content-Type] into its headers). *)
Theorem building_twice_gives_same_response (r : Express.ExpressResponse)
    (p : Fastify.FastifyReply)
    (Hr : Js.is_stream (Express.res_body r) = false)
    (Hp : Js.is_stream (Fastify.reply_body p) = false) :
  fst (Express._buildResponse (snd (Express._buildResponse r)))
    = fst (Express._buildResponse r)
  ∧ snd (Express._buildResponse (snd (Express._buildResponse r)))
    = snd (Express._buildResponse r)
  ∧ Fastify._buildResponse (snd (Fastify._buildResponse p)) = Fastify._buildResponse p.
Proof.
  repeat apply conj.
  - unfold Express._buildResponse.
    destruct (Platform.h_has (Express.res_headers r) "Location"
              && (300 <=? Express.statusCode r) && (Express.statusCode r <? 400))%bool eqn:E;
      cbn [snd fst Express.mark_headersSent Express.res_headers Express.statusCode
           Express.res_body Express.statusMessage]; by rewrite E.
  - unfold Express._buildResponse.
    destruct (Platform.h_has (Express.res_headers r) "Location"
              && (300 <=? Express.statusCode r) && (Express.statusCode r <? 400))%bool eqn:E;
      cbn [snd fst Express.mark_headersSent Express.res_headers Express.statusCode
           Express.res_body Express.statusMessage]; by rewrite E.
  - unfold Fastify._buildResponse.
    destruct (Platform.h_has (Fastify.reply_headers p) "Location"
              && (300 <=? Fastify.statusCode p) && (Fastify.statusCode p <? 400))%bool eqn:E.
    { cbn [snd]. by rewrite E. }
    assert (Hdef : ∀ t,
      (Platform.h_has (Fastify.default_type (Fastify.reply_headers p) t) "Location"
       && (300 <=? Fastify.statusCode p) && (Fastify.statusCode p <? 400))%bool = false
      ∧ Fastify.default_type (Fastify.default_type (Fastify.reply_headers p) t) t
        = Fastify.default_type (Fastify.reply_headers p) t).
    { intros t. unfold Fastify.default_type.
      destruct (Platform.h_has (Fastify.reply_headers p) "Content-Type") eqn:Ect.
      - by rewrite Ect.
      - rewrite !h_has_set. rewrite decide_False by (by vm_compute).
        rewrite decide_True by done. done. }
    destruct (Js.nullish (Fastify.reply_body p)) eqn:En.
    { cbn [snd Fastify.with_headers Fastify.reply_headers Fastify.statusCode
           Fastify.reply_body Fastify.serializer]. by rewrite E, En. }
    destruct (Fastify.serializer p) as [fn|] eqn:Es.
    { cbn [snd Fastify.with_headers Fastify.reply_headers Fastify.statusCode
           Fastify.reply_body Fastify.serializer]. by rewrite E, En, Es. }
    destruct (Js.is_string (Fastify.reply_body p)) eqn:E1.
    { cbn [snd Fastify.with_headers Fastify.reply_headers Fastify.statusCode
           Fastify.reply_body Fastify.serializer].
      destruct (Hdef "text/plain; charset=utf-8") as [-> ->]. by rewrite En, Es, E1. }
    destruct (Js.is_bytes (Fastify.reply_body p)) eqn:E2.
    { cbn [snd Fastify.with_headers Fastify.reply_headers Fastify.statusCode
           Fastify.reply_body Fastify.serializer].
      destruct (Hdef "application/octet-stream") as [-> ->]. by rewrite En, Es, E1, E2. }
    destruct (Js.is_stream (Fastify.reply_body p) || Js.is_blob (Fastify.reply_body p))%bool
      eqn:E3.
    { cbn [snd Fastify.with_headers Fastify.reply_headers Fastify.statusCode
           Fastify.reply_body Fastify.serializer]. by rewrite E, En, Es, E1, E2, E3. }
    cbn [snd Fastify.with_headers Fastify.reply_headers Fastify.statusCode
         Fastify.reply_body Fastify.serializer].
    destruct (Hdef "application/json; charset=utf-8") as [-> ->].
    by rewrite En, Es, E1, E2, E3.
Qed.

Lemma building_twice_gives_same_response_witness :
  Fastify._buildResponse
    (snd (Fastify._buildResponse (Fastify.send (Js.JStr "pong") Fastify.createFastifyReply)))
  = Fastify._buildResponse (Fastify.send (Js.JStr "pong") Fastify.createFastifyReply).
Proof.
  exact (proj2 (proj2 (building_twice_gives_same_response
                         (Express.send (Js.JStr "pong") Express.createExpressResponse)
                         (Fastify.send (Js.JStr "pong") Fastify.createFastifyReply)
                         eq_refl eq_refl))).
Defined.

Section RedirectFacts.
Import Platform.




End RedirectFacts.



Section MimeFacts.

Lemma find_value_has_slash (table : list (string * string)) (key : string) :
  Forall (λ kv, Str.includes (snd kv) "/" = true) table →
  match find (λ kv, Str.eqb (fst kv) key) table with
  | Some kv => Str.includes (snd kv) "/" = true
  | None => True
  end.
Proof.
  induction 1 as [|kv table Hkv _ IH]; [done|].
  cbn [find]. by destruct (Str.eqb kv.1 key).
Qed.

Lemma mimeTypes_have_slash :
  Forall (λ kv, Str.includes (snd kv) "/" = true) Express.mimeTypes.
Proof. unfold Express.mimeTypes. repeat constructor. Qed.

Lemma getMimeType_has_slash type : Str.includes (Express.getMimeType type) "/" = true.
Proof.
  unfold Express.getMimeType. destruct (Str.includes type "/") eqn:E; [done|].
  pose proof (find_value_has_slash Express.mimeTypes (Str.toLowerCase type)
                mimeTypes_have_slash) as H.
  destruct (find _ Express.mimeTypes) as [kv|]; [exact H|done].
Qed.

End MimeFacts.

(** X5. [res.type(t)] writes a full media type: the result of
    [getMimeType] holds a [/] (a type holding a [/] is kept, a known
    extension is looked up, anything else becomes
    [application/octet-stream]), so [getMimeType] applied to its own result
    changes nothing; two extensions that differ in letter case only give
    the same type; and after [res.type(t)], for a type that [Headers]
    accepts as a value, the [Content-Type] header is that result without
    the white space at its ends. The type is taken not to be [constructor]
    or [__proto__] in any letter case: the table is an object literal, in
    which these two names find members that every object has. *)
Theorem type_writes_full_media_type (t t' : string) (r : Express.ExpressResponse)
    (Hkey : Str.toLowerCase t ∉ ["constructor"; "__proto__"])
    (Hvalue : Platform.is_field_value (Express.getMimeType t) = true) :
  Str.includes (Express.getMimeType t) "/" = true
  ∧ Express.getMimeType (Express.getMimeType t) = Express.getMimeType t
  ∧ (Str.toLowerCase t' = Str.toLowerCase t →
     Str.includes t "/" = false → Str.includes t' "/" = false →
     Express.getMimeType t' = Express.getMimeType t)
  ∧ Express.get "Content-Type" (Express.type t r)
    = Some (Platform.normalize (Express.getMimeType t)).
Proof.
  repeat apply conj.
  - apply getMimeType_has_slash.
  - unfold Express.getMimeType at 1. by rewrite getMimeType_has_slash.
  - intros Hlow Ht Ht'. unfold Express.getMimeType. by rewrite Ht, Ht', Hlow.
  - unfold Express.get, Express.type. cbn [Express.res_headers Express.with_headers].
    by rewrite h_get_set, decide_True.
Qed.

Lemma type_writes_full_media_type_witness :
  Express.getMimeType "PNG" = Express.getMimeType "png"
  ∧ Express.get "Content-Type" (Express.type "png" Express.createExpressResponse)
    = Some "image/png".
Proof.
  pose proof (type_writes_full_media_type "png" "PNG" Express.createExpressResponse
                ltac:(intros H; vm_compute in H;
                      repeat (apply elem_of_cons in H as [H|H]; [discriminate H|]);
                      by apply elem_of_nil in H)
                eq_refl) as (_ & _ & H3 & H4).
  split; [exact (H3 eq_refl eq_refl eq_refl)|exact H4].
Defined.

(** X6. What [res.send(data)] leaves on the builder: the response is ended;
    a string keeps a [Content-Type] already written and gets [text/html]
    otherwise; a [Buffer] keeps it too and gets [application/octet-stream]
    otherwise; any other object (or [null]) is written as JSON and its
    [Content-Type] is overwritten with [application/json]; a number, a
    boolean or [undefined] is written as its string form and the headers
    are untouched. *)
Theorem send_content_type (data : Js.JsValue) (r : Express.ExpressResponse) :
  Express._ended (Express.send data r) = true
  ∧ (Js.is_string data = true →
     Express.get "Content-Type" (Express.send data r)
       = Some (default "text/html" (Express.get "Content-Type" r))
     ∧ Express._body (Express.send data r) = data)
  ∧ (Js.is_string data = false → Js.isBuffer data = true →
     Express.get "Content-Type" (Express.send data r)
       = Some (default "application/octet-stream" (Express.get "Content-Type" r))
     ∧ Express._body (Express.send data r) = data)
  ∧ (Js.is_string data = false → Js.isBuffer data = false → Js.typeof_object data = true →
     Express.get "Content-Type" (Express.send data r) = Some "application/json"
     ∧ Express._body (Express.send data r) = Js.JSON_stringify data)
  ∧ (Js.is_string data = false → Js.isBuffer data = false → Js.typeof_object data = false →
     Express.res_headers (Express.send data r) = Express.res_headers r
     ∧ Express._body (Express.send data r) = Js.JStr (Js.toString data)).
Proof.
  assert (Hdef : ∀ t, Platform.normalize t = t →
                      Express.get "Content-Type" (Express.default_type r t)
                      = Some (default t (Express.get "Content-Type" r))).
  { intros t Ht. unfold Express.default_type, Express.get.
    destruct (Platform.h_has (Express.res_headers r) "Content-Type") eqn:E.
    - apply h_has_get in E as [v Hv]. by rewrite Hv.
    - cbn [Express.res_headers Express.with_headers].
      rewrite h_get_set, decide_True, Ht by done.
      destruct (Platform.h_get (Express.res_headers r) "Content-Type") as [v|] eqn:Hv; [|done].
      assert (H : is_Some (Platform.h_get (Express.res_headers r) "Content-Type")) by by eexists.
      apply h_has_get in H. congruence. }
  unfold Express.send. repeat apply conj.
  - done.
  - intros ->. split; [|done]. by apply Hdef.
  - intros -> ->. split; [|done]. by apply Hdef.
  - intros -> -> ->. split; [|done].
    unfold Express.get. cbn [Express.mark_ended Express.with_body Express.with_headers
                             Express.res_headers].
    by rewrite h_get_set, decide_True.
  - intros -> -> ->. done.
Qed.

Lemma send_content_type_witness :
  Express.get "Content-Type"
    (Express.send (Js.JStr "<p>hi</p>")
       (Express.set "content-type" "text/plain" Express.createExpressResponse))
  = Some (default "text/html"
            (Express.get "Content-Type"
               (Express.set "content-type" "text/plain" Express.createExpressResponse))).
Proof.
  exact (proj1 (proj1 (proj2 (send_content_type (Js.JStr "<p>hi</p>")
            (Express.set "content-type" "text/plain" Express.createExpressResponse)))
          eq_refl)).
Defined.

Section CookieFacts.
Import Spec.











End CookieFacts.



Section NegotiationFacts.

Lemma first_accepted_find accept wildcard candidates :
  ExpressMore.first_accepted accept wildcard candidates
  = if Str.includes accept wildcard then head candidates
    else find (λ c, Str.includes accept c) candidates.
Proof.
  induction candidates as [|c cs IH]; cbn [ExpressMore.first_accepted find head].
  - by destruct (Str.includes accept wildcard).
  - rewrite IH. destruct (Str.includes accept wildcard); [by rewrite orb_true_r|].
    rewrite orb_false_r. done.
Qed.

End NegotiationFacts.

(** X8. Content negotiation goes by the order of the arguments, not by the
    header: [req.accepts(...types)] answers the first of [types] that occurs
    as a substring of the [Accept] header, and the first of [types] whatever
    it is when the header is absent or holds [*/*]; [false] when no type
    occurs. The same loop serves [acceptsCharsets], [acceptsEncodings] and
    [acceptsLanguages] with the wildcard [*]; without their header each
    answers its first argument. *)
Theorem accepts_first_listed_candidate (bunRequest : Platform.BunRequest)
    (candidates : list string) :
  let h := Platform.br_headers bunRequest in
  ExpressMore.accepts bunRequest candidates
  = (if Str.includes (default "*/*" (Platform.h_get h "accept")) "*/*"
     then head candidates
     else find (λ c, Str.includes (default "*/*" (Platform.h_get h "accept")) c) candidates)
  ∧ (Platform.h_get h "accept" = None →
     ExpressMore.accepts bunRequest candidates = head candidates)
  ∧ (Platform.h_get h "accept-charset" = None →
     ExpressMore.acceptsCharsets bunRequest candidates = head candidates)
  ∧ (Platform.h_get h "accept-encoding" = None →
     ExpressMore.acceptsEncodings bunRequest candidates = head candidates)
  ∧ (Platform.h_get h "accept-language" = None →
     ExpressMore.acceptsLanguages bunRequest candidates = head candidates)
  ∧ (∀ c, ExpressMore.accepts bunRequest candidates = Some c → c ∈ candidates).
Proof.
  intros h. unfold ExpressMore.accepts, ExpressMore.acceptsCharsets,
    ExpressMore.acceptsEncodings, ExpressMore.acceptsLanguages. fold h.
  rewrite !first_accepted_find. repeat apply conj.
  - done.
  - by intros ->.
  - by intros ->.
  - by intros ->.
  - by intros ->.
  - intros c. destruct (Str.includes _ "*/*").
    + destruct candidates as [|c' cs]; [done|]. cbn [head]. intros [= ->]. apply elem_of_cons. by left.
    + intros Hfind. apply find_some in Hfind as [Hin _]. by apply list_elem_of_In.
Qed.

Lemma accepts_first_listed_candidate_witness :
  ExpressMore.accepts (Examples.get_request "/" EmptyString []) ["text/html"; "application/json"]
  = head ["text/html"; "application/json"].
Proof.
  exact (proj1 (proj2 (accepts_first_listed_candidate
                         (Examples.get_request "/" EmptyString [])
                         ["text/html"; "application/json"])) eq_refl).
Defined.

(** X9. [req.is(type)] and the body parser read the same header the same
    way: whenever [req.is("application/json")] answers the type, the parsed
    body is what [request.json()] gave ([undefined] if that failed), and
    whenever [req.is] answers [null] (no [Content-Type], or an empty one)
    no body is read. [req.is] never answers [false] for the empty string. *)
Theorem is_agrees_with_body_parser (bunRequest : Platform.BunRequest) (type : string) :
  (ExpressMore.is_ bunRequest "application/json" = ExpressMore.IsType "application/json" →
   Adapter.parseRequestBody bunRequest = default Js.JUndefined (Platform.br_json bunRequest))
  ∧ (ExpressMore.is_ bunRequest type = ExpressMore.IsNull →
     Adapter.parseRequestBody bunRequest = Js.JUndefined)
  ∧ ExpressMore.is_ bunRequest EmptyString ≠ ExpressMore.IsFalse.
Proof.
  unfold ExpressMore.is_, Adapter.parseRequestBody.
  destruct (Platform.h_get (Platform.br_headers bunRequest) "content-type") as [ct|];
    cbn [default]; unfold id.
  - destruct (Str.eqb ct EmptyString) eqn:E.
    + apply eqb_true in E as ->.
      repeat apply conj.
      * intros [=].
      * intros _. reflexivity.
      * intros [=].
    + repeat apply conj.
      * destruct (Str.includes ct "application/json"); [|intros [=]].
        intros _. by destruct (Platform.br_json bunRequest).
      * destruct (Str.includes ct type); intros [=].
      * destruct ct; [by apply eqb_false in E|intros [=]].
  - repeat apply conj.
    + intros [=].
    + intros _. reflexivity.
    + intros [=].
Qed.

Lemma is_agrees_with_body_parser_witness :
  Adapter.parseRequestBody (Examples.get_request "/" EmptyString []) = Js.JUndefined.
Proof.
  exact (proj1 (proj2 (is_agrees_with_body_parser
                         (Examples.get_request "/" EmptyString []) "json")) eq_refl).
Defined.

Section HookFacts.
Import Js Platform Pipeline Shape.

Lemma executeHook_settled (ev : Event) (hook : FastifyHook) (st : St) :
  settles (snd (hook (world st))) = true →
  executeHook ev hook st
  = (Val (reported (snd (hook (world st)))),
     {| world := fst (hook (world st)); trace := trace st ++ [ev] |}).
Proof.
  unfold executeHook, settles, reported. munfold.
  destruct (hook (world st)) as [w' sg]. cbn [fst snd].
  destruct (calls sg) as [|err cs]; [|done].
  by destruct (completion sg).
Qed.

Lemma map_seq_snoc (ev : nat → Event) (i n : nat) :
  map ev (seq i (S n)) = ev i :: map ev (seq (S i) n).
Proof. done. Qed.

Lemma map_seq_snoc_ev (ev : nat → Event) (i n : nat) :
  [ev i] ++ map ev (seq (S i) n) = map ev (seq i (S n)).
Proof. done. Qed.

Lemma phase_passes (ev : nat → Event) (hooks : list FastifyHook) :
  Forall passes_on hooks →
  ∀ (i : nat) (st : St), unsent (world st) →
  ∃ w, unsent w
       ∧ ∀ rest, execute_phase ev i (hooks ++ rest) st
                 = execute_phase ev (i + length hooks) rest
                     {| world := w; trace := trace st ++ map ev (seq i (length hooks)) |}.
Proof.
  induction 1 as [|hook hooks Hhook _ IH]; intros i st Hst.
  - exists (world st). split; [done|]. intros rest. cbn [app length seq map].
    rewrite Nat.add_0_r, app_nil_r. by destruct st.
  - destruct (Hhook _ Hst) as (Hset & Herr & Hsent).
    set (st1 := {| world := fst (hook (world st)); trace := trace st ++ [ev i] |}).
    destruct (IH (S i) st1 Hsent) as (w & Hw & Hrun).
    exists w. split; [done|]. intros rest.
    cbn [app execute_phase]. unfold mbind at 1. unfold M_bind at 1. unfold bind at 1.
    rewrite (executeHook_settled _ _ _ Hset). rewrite Herr.
    unfold mbind at 1. unfold M_bind at 1. unfold bind at 1. unfold get_world at 1.
    cbn [world]. unfold unsent in Hsent. rewrite Hsent.
    fold st1. rewrite Hrun. cbn [length]. rewrite Nat.add_succ_r. cbn [Nat.add].
    rewrite map_seq_snoc. subst st1. cbn [trace]. by rewrite <- app_assoc.
Qed.

End HookFacts.

(** X10. [executeOnRequest] and [executePreHandler] stop at the first hook
    that reports an [Error] or sends the reply: when the hooks before it
    settle without an [Error] and without sending, the phase calls exactly
    the hooks up to that one, in order, and answers the [Error], or
    [undefined] when the reply was sent; the hooks after it are not called.
    A value given to [done] that is not an [Error] (a string, say) does not
    stop the phase. *)
Theorem phase_stops_at_first_error_or_reply (ev : nat → Pipeline.Event) (i : nat)
    (pre post : list Pipeline.FastifyHook) (hook : Pipeline.FastifyHook) (st : Pipeline.St)
    (Hunsent : Shape.unsent (Pipeline.world st))
    (Hpre : Forall Shape.passes_on pre) (Hstop : Shape.stops hook) :
  ∃ w0, Shape.unsent w0
    ∧ Pipeline.execute_phase ev i (pre ++ hook :: post) st
      = (Pipeline.Val (if Js.is_Error (Shape.reported (snd (hook w0)))
                       then Shape.reported (snd (hook w0)) else Js.JUndefined),
         {| Pipeline.world := fst (hook w0);
            Pipeline.trace := Pipeline.trace st ++ map ev (seq i (S (length pre))) |}).
Proof.
  destruct (phase_passes ev pre Hpre i st Hunsent) as (w0 & Hw0 & Hrun).
  exists w0. split; [done|]. rewrite Hrun.
  destruct (Hstop _ Hw0) as (Hset & Hor).
  cbn [Pipeline.execute_phase].
  unfold mbind at 1. unfold Pipeline.M_bind at 1. unfold Pipeline.bind at 1.
  rewrite (executeHook_settled (ev (i + length pre)%nat) hook
             {| Pipeline.world := w0;
                Pipeline.trace := Pipeline.trace st ++ map ev (seq i (length pre)) |} Hset).
  cbn [Pipeline.world Pipeline.trace].
  rewrite <- app_assoc.
  assert (map ev (seq i (length pre)) ++ [ev (i + length pre)%nat]
          = map ev (seq i (S (length pre)))) as ->.
  { rewrite seq_S, map_app. done. }
  destruct (Js.is_Error (Shape.reported (snd (hook w0)))) eqn:E; [done|].
  cbn [orb] in Hor.
  unfold mbind at 1. unfold Pipeline.M_bind at 1. unfold Pipeline.bind at 1.
  unfold Pipeline.get_world at 1. cbn [Pipeline.world]. by rewrite Hor.
Qed.

Lemma phase_stops_at_first_error_or_reply_witness :
  ∃ w0, Shape.unsent w0
    ∧ Pipeline.execute_phase Pipeline.EvOnRequest 0
        ([Examples.passing_hook; Cases.complaining_hook]
           ++ Cases.denying_hook :: [Examples.failing_hook])
        Examples.start_state
      = (Pipeline.Val (if Js.is_Error (Shape.reported (snd (Cases.denying_hook w0)))
                       then Shape.reported (snd (Cases.denying_hook w0)) else Js.JUndefined),
         {| Pipeline.world := fst (Cases.denying_hook w0);
            Pipeline.trace := Pipeline.trace Examples.start_state
                              ++ map Pipeline.EvOnRequest (seq 0 3) |}).
Proof.
  apply (phase_stops_at_first_error_or_reply Pipeline.EvOnRequest 0
           [Examples.passing_hook; Cases.complaining_hook] [Examples.failing_hook]
           Cases.denying_hook Examples.start_state).
  - reflexivity.
  - repeat constructor; simpl; assumption.
  - intros w Hw. unfold Shape.unsent in Hw. split; [reflexivity|].
    simpl. unfold Fastify.send. simpl. rewrite Hw. reflexivity.
Defined.

Section ResponseHookFacts.
Import Js Platform Pipeline Shape.

Lemma onResponse_runs_all (hooks : list FastifyHook) :
  Forall always_settles hooks →
  ∀ (i : nat) (st : St),
  ∃ w, executeOnResponse_from i hooks st
       = (Val (), {| world := w; trace := trace st ++ map EvOnResponse (seq i (length hooks)) |}).
Proof.
  induction 1 as [|hook hooks Hhook _ IH]; intros i st.
  - exists (world st). cbn. rewrite app_nil_r. by destruct st.
  - cbn [executeOnResponse_from]. unfold mbind at 1. unfold M_bind at 1. unfold bind at 1.
    rewrite (executeHook_settled _ _ _ (Hhook (world st))).
    destruct (IH (S i) {| world := fst (hook (world st));
                          trace := trace st ++ [EvOnResponse i] |}) as (w & Hw).
    exists w. rewrite Hw. cbn [trace length]. rewrite map_seq_snoc.
    by rewrite <- app_assoc.
Qed.

Lemma run_onError_hook_settled (ev : Event) (hook : FastifyOnErrorHook) (e : JsValue)
    (st : St) :
  settles (snd (hook e (world st))) = true →
  run_onError_hook ev hook e st
  = (Val (marks_handled (snd (hook e (world st)))),
     {| world := fst (hook e (world st)); trace := trace st ++ [ev] |}).
Proof.
  unfold run_onError_hook, settles, marks_handled. munfold.
  destruct (hook e (world st)) as [w' sg]. cbn [fst snd].
  destruct (calls sg) as [|err cs]; [|done].
  by destruct (completion sg).
Qed.

Lemma onError_declined (e : JsValue) (hooks : list FastifyOnErrorHook) :
  Forall declines hooks →
  ∀ (i : nat) (st : St), unsent (world st) →
  ∃ w, unsent w
       ∧ ∀ rest, executeOnError_from i (hooks ++ rest) e st
                 = executeOnError_from (i + length hooks) rest e
                     {| world := w;
                        trace := trace st ++ map EvOnError (seq i (length hooks)) |}.
Proof.
  induction 1 as [|hook hooks Hhook _ IH]; intros i st Hst.
  - exists (world st). split; [done|]. intros rest. cbn [app length seq map].
    rewrite Nat.add_0_r, app_nil_r. by destruct st.
  - destruct (Hhook e _ Hst) as (Hset & Hno & Hsent).
    set (st1 := {| world := fst (hook e (world st)); trace := trace st ++ [EvOnError i] |}).
    destruct (IH (S i) st1 Hsent) as (w & Hw & Hrun).
    exists w. split; [done|]. intros rest.
    cbn [app executeOnError_from]. unfold mbind at 1. unfold M_bind at 1. unfold bind at 1.
    rewrite (run_onError_hook_settled _ _ _ _ Hset). rewrite Hno.
    unfold mbind at 1. unfold M_bind at 1. unfold bind at 1. unfold get_world at 1.
    cbn [world]. unfold unsent in Hsent. rewrite Hsent. cbn [orb].
    fold st1. rewrite Hrun. cbn [length]. rewrite Nat.add_succ_r. cbn [Nat.add].
    rewrite map_seq_snoc. subst st1. cbn [trace]. by rewrite <- app_assoc.
Qed.

End ResponseHookFacts.

(** X11. [executeOnResponse] runs every hook: when each hook settles (calls
    [done] or returns a promise that settles), all of them are called, in
    the order of registration, and the phase completes, whatever the hooks
    report; an [Error] given to [done], a rejected promise or a reply
    already sent stop nothing here. *)
Theorem onResponse_runs_every_hook (m : Pipeline.FastifyHooksManager) (st : Pipeline.St)
    (Hsettle : Forall Shape.always_settles (Pipeline.onResponseHooks m)) :
  ∃ w, Pipeline.executeOnResponse m st
       = (Pipeline.Val (),
          {| Pipeline.world := w;
             Pipeline.trace :=
               Pipeline.trace st
               ++ map Pipeline.EvOnResponse (seq 0 (length (Pipeline.onResponseHooks m))) |}).
Proof. unfold Pipeline.executeOnResponse. by apply onResponse_runs_all. Qed.

Lemma onResponse_runs_every_hook_witness :
  ∃ w, Pipeline.executeOnResponse
         {| Pipeline.onRequestHooks := []; Pipeline.preHandlerHooks := [];
            Pipeline.onSendHooks := []; Pipeline.onErrorHooks := [];
            Pipeline.onResponseHooks := [Examples.failing_hook; Cases.denying_hook;
                                         Examples.passing_hook] |}
         Examples.start_state
       = (Pipeline.Val (),
          {| Pipeline.world := w;
             Pipeline.trace := Pipeline.trace Examples.start_state
                               ++ map Pipeline.EvOnResponse (seq 0 3) |}).
Proof.
  apply (onResponse_runs_every_hook
           {| Pipeline.onRequestHooks := []; Pipeline.preHandlerHooks := [];
              Pipeline.onSendHooks := []; Pipeline.onErrorHooks := [];
              Pipeline.onResponseHooks := [Examples.failing_hook; Cases.denying_hook;
                                           Examples.passing_hook] |}
           Examples.start_state).
  repeat constructor.
Defined.

(** X12. [executeOnError] stops at the first hook that handles the error:
    a hook handles it by calling [done] with a falsy argument or by sending
    the reply. When the hooks before it settle without doing either, the
    phase calls the hooks up to that one, in order, and answers [true]; when
    no hook does, all are called and the answer is [false]. A hook whose
    promise merely fulfils has not handled the error. *)
Theorem onError_stops_at_first_handler (e : Js.JsValue) (i : nat)
    (pre post : list Pipeline.FastifyOnErrorHook) (hook : Pipeline.FastifyOnErrorHook)
    (st : Pipeline.St)
    (Hunsent : Shape.unsent (Pipeline.world st))
    (Hpre : Forall Shape.declines pre) :
  (Shape.handles hook →
   ∃ w, Pipeline.executeOnError_from i (pre ++ hook :: post) e st
        = (Pipeline.Val true,
           {| Pipeline.world := w;
              Pipeline.trace := Pipeline.trace st
                                ++ map Pipeline.EvOnError (seq i (S (length pre))) |}))
  ∧ (∃ w, Shape.unsent w
          ∧ Pipeline.executeOnError_from i pre e st
            = (Pipeline.Val false,
               {| Pipeline.world := w;
                  Pipeline.trace := Pipeline.trace st
                                    ++ map Pipeline.EvOnError (seq i (length pre)) |})).
Proof.
  destruct (onError_declined e pre Hpre i st Hunsent) as (w0 & Hw0 & Hrun). split.
  - intros Hh. destruct (Hh e _ Hw0) as (Hset & Hor).
    exists (fst (hook e w0)). rewrite Hrun. cbn [Pipeline.executeOnError_from].
    unfold mbind at 1. unfold Pipeline.M_bind at 1. unfold Pipeline.bind at 1.
    rewrite (run_onError_hook_settled (Pipeline.EvOnError (i + length pre)) hook e
               {| Pipeline.world := w0;
                  Pipeline.trace := Pipeline.trace st
                                    ++ map Pipeline.EvOnError (seq i (length pre)) |} Hset).
    cbn [Pipeline.world Pipeline.trace].
    unfold mbind at 1. unfold Pipeline.M_bind at 1. unfold Pipeline.bind at 1.
    unfold Pipeline.get_world at 1. cbn [Pipeline.world]. rewrite Hor.
    rewrite <- app_assoc, seq_S, map_app. done.
  - exists w0. split; [done|]. specialize (Hrun []). rewrite app_nil_r in Hrun.
    rewrite Hrun. done.
Qed.

Lemma onError_stops_at_first_handler_witness :
  ∃ w, Pipeline.executeOnError_from 0
         ([Cases.silent_onError_hook] ++ Cases.handling_onError_hook
            :: [Cases.silent_onError_hook])
         (Js.JError "boom") Examples.start_state
       = (Pipeline.Val true,
          {| Pipeline.world := w;
             Pipeline.trace := Pipeline.trace Examples.start_state
                               ++ map Pipeline.EvOnError (seq 0 2) |}).
Proof.
  apply (proj1 (onError_stops_at_first_handler (Js.JError "boom") 0
                  [Cases.silent_onError_hook] [Cases.silent_onError_hook]
                  Cases.handling_onError_hook Examples.start_state
                  eq_refl
                  ltac:(repeat constructor; simpl; assumption))).
  intros e w Hw. split; reflexivity.
Defined.

Section PathFacts.
Import Routing.

Lemma collapse_starts s :
  Str.startsWith (collapse_slashes s) "/" = Str.startsWith s "/".
Proof.
  induction s as [|a s IH]; [done|].
  cbn [collapse_slashes]. destruct (Ascii.eqb a "/") eqn:Ea.
  - destruct s as [|b s]; [done|].
    destruct (Ascii.eqb b "/") eqn:Eb.
    + rewrite IH. cbn [Str.startsWith]. by rewrite Ea, Eb.
    + cbn [Str.startsWith]. by rewrite Ea.
  - cbn [Str.startsWith]. by rewrite Ea.
Qed.

Lemma collapse_no_double s : Str.includes (collapse_slashes s) "//" = false.
Proof.
  induction s as [|a s IH]; [done|].
  assert (Hcons : ∀ t, (Ascii.eqb a "/" && Str.startsWith t "/")%bool = false →
                       Str.includes t "//" = false →
                       Str.includes (String a t) "//" = false).
  { intros t H1 H2. cbn [Str.includes]. rewrite H2.
    cbn [Str.startsWith]. destruct (Ascii.eqb a "/"); [|done].
    cbn [andb] in H1. destruct t as [|b t]; [done|].
    cbn [Str.startsWith] in H1. by destruct (Ascii.eqb b "/"). }
  cbn [collapse_slashes]. destruct (Ascii.eqb a "/") eqn:Ea.
  - destruct s as [|b s]; [cbn [Str.includes Str.startsWith]; by rewrite Ea|].
    destruct (Ascii.eqb b "/") eqn:Eb; [exact IH|].
    apply Hcons; [|exact IH]. rewrite collapse_starts. cbn [Str.startsWith andb].
    by rewrite Eb.
  - apply Hcons; [done|exact IH].
Qed.

End PathFacts.

(** X13. The full path that [buildPath] gives to routes and middleware:
    it always starts with a slash; under a global prefix it holds no two
    slashes in a row; the leading slash of the prefix and that of the path
    are optional (["api"] and ["/api"], ["users"] and ["/users"] give the
    same path); without a prefix a path that starts with a slash is kept
    as it is. *)
Theorem buildPath_normalizes (globalPrefix path : string) :
  Str.startsWith (Routing.buildPath globalPrefix path) "/" = true
  ∧ (globalPrefix ≠ EmptyString →
     Str.includes (Routing.buildPath globalPrefix path) "//" = false)
  ∧ (globalPrefix ≠ EmptyString → Str.startsWith globalPrefix "/" = false →
     Routing.buildPath ("/" +:+ globalPrefix) path = Routing.buildPath globalPrefix path)
  ∧ (Str.startsWith path "/" = false →
     Routing.buildPath globalPrefix ("/" +:+ path) = Routing.buildPath globalPrefix path)
  ∧ (Str.startsWith path "/" = true → Routing.buildPath EmptyString path = path).
Proof.
  unfold Routing.buildPath. repeat apply conj.
  - destruct (Str.eqb globalPrefix EmptyString).
    + destruct (Str.startsWith path "/") eqn:E; [exact E|reflexivity].
    + rewrite collapse_starts.
      destruct (Str.startsWith globalPrefix "/") eqn:E; [|reflexivity].
      destruct globalPrefix as [|c rest]; [discriminate E|].
      cbn [Str.startsWith] in E. cbn [String.append Str.startsWith].
      destruct (Ascii.eqb c "/"); [reflexivity|discriminate E].
  - intros Hne. apply eqb_false in Hne. rewrite Hne. apply collapse_no_double.
  - intros Hne Hs. apply eqb_false in Hne. rewrite Hne, Hs. done.
  - intros Hs. rewrite Hs. done.
  - intros Hs. rewrite Hs. done.
Qed.

Lemma buildPath_normalizes_witness :
  Routing.buildPath "/api" "users" = Routing.buildPath "api" "users".
Proof.
  exact (proj1 (proj2 (proj2 (buildPath_normalizes "api" "users")))
           ltac:(discriminate) eq_refl).
Defined.

Section RouteTableFacts.
Import Adapter.

Lemma find_route_app (rs rs' : list Route) (method pathname : string) :
  find_route (rs ++ rs') method pathname
  = match find_route rs method pathname with
    | Some found => Some found
    | None => find_route rs' method pathname
    end.
Proof.
  induction rs as [|r rs IH]; [done|]. cbn [app find_route].
  destruct (negb _ && negb _)%bool; [exact IH|].
  destruct (Routing.rmatch (pathPattern r) pathname); [done|exact IH].
Qed.

Lemma find_route_one (route : Route) (method pathname : string) :
  find_route [route] method pathname
  = (λ captures, (route, captures)) <$> Spec.accepts route method pathname.
Proof.
  unfold Spec.accepts. cbn [find_route].
  destruct (Str.eqb (route_method route) method), (Str.eqb (route_method route) "ALL");
    cbn [negb andb orb]; try done;
    by destruct (Routing.rmatch (pathPattern route) pathname).
Qed.

End RouteTableFacts.

(** X14. Registration only adds at the end of the route table: after
    [addRoute(method, path, handler)] (which [get], [post], ..., [all] call,
    with the path ["/"] when none is given) every request that matched a
    route before still matches the same route with the same captures; a
    request that matched none is matched by the new route exactly when its
    method is the registered one in upper case, or the route was registered
    with [all], and its path fits the pattern. So a route registered later
    never shadows an earlier one. *)
Theorem addRoute_never_shadows (method path : string) (h : Pipeline.RouteHandler)
    (g g' : Adapter.Registry)
    (Hadd : Adapter.addRoute method path h g = Some g') :
  ∃ route,
    Adapter.routes g' = Adapter.routes g ++ [route]
    ∧ Adapter.route_method route = Str.toUpperCase method
    ∧ Adapter.route_path route = Routing.buildPath (Adapter.globalPrefix g) path
    ∧ Adapter.handler route = h
    ∧ (∀ m p found, Adapter.find_route (Adapter.routes g) m p = Some found →
                    Adapter.find_route (Adapter.routes g') m p = Some found)
    ∧ (∀ m p, Adapter.find_route (Adapter.routes g) m p = None →
              Adapter.find_route (Adapter.routes g') m p
              = (λ captures, (route, captures)) <$> Spec.accepts route m p)
    ∧ (∀ m p, Str.toUpperCase method = "ALL" →
              Spec.accepts route m p = Routing.rmatch (Adapter.pathPattern route) p).
Proof.
  unfold Adapter.addRoute in Hadd.
  destruct (Routing.pathToRegex _) as [[pattern names]|]; [|done].
  injection Hadd as <-. eexists. cbn [Adapter.routes].
  split; [reflexivity|]. cbn [Adapter.route_method Adapter.route_path Adapter.handler].
  repeat apply conj; try reflexivity.
  - intros m p found Hfound. by rewrite find_route_app, Hfound.
  - intros m p Hnone. rewrite find_route_app, Hnone. apply find_route_one.
  - intros m p Hall. unfold Spec.accepts. cbn [Adapter.route_method Adapter.pathPattern].
    rewrite Hall. by rewrite orb_true_r.
Qed.

Lemma addRoute_never_shadows_witness :
  ∃ route,
    Adapter.routes
      (default Adapter.empty_registry
         (AdapterMore.get (Some "/ok") Examples.ok_handler Adapter.empty_registry))
    = Adapter.routes Adapter.empty_registry ++ [route]
    ∧ Adapter.route_method route = "GET".
Proof.
  destruct (addRoute_never_shadows "GET" "/ok" Examples.ok_handler Adapter.empty_registry
              (default Adapter.empty_registry
                 (AdapterMore.get (Some "/ok") Examples.ok_handler Adapter.empty_registry))
              eq_refl) as (route & H1 & H2 & _).
  exists route. split; [exact H1|exact H2].
Defined.

Section DecoratorFacts.
Import Adapter.







End DecoratorFacts.



Section WildcardFacts.
Import Spec Routing.

Lemma endsWithChar_snoc s c : Str.endsWithChar (s +:+ String c EmptyString) c = true.
Proof.
  induction s as [|a s IH]; cbn [String.append Str.endsWithChar].
  - apply Ascii.eqb_refl.
  - destruct s; exact IH.
Qed.

Lemma dropLast_snoc s c : Str.dropLast (s +:+ String c EmptyString) = s.
Proof.
  induction s as [|a s IH]; [done|]. cbn [String.append Str.dropLast].
  rewrite IH. by destruct s.
Qed.

Lemma boundary_app segs rest : at_boundary rest → at_boundary (render_pattern segs +:+ rest).
Proof. intros H. destruct segs as [|[t|n] segs]; [done|right; by eexists..]. Qed.

Lemma scan_render_pattern_then segs rest :
  Forall segment_ok segs → at_boundary rest →
  scan (render_pattern segs +:+ rest) None
  = prepend (compiled segs, declared_names segs) (scan rest None).
Proof.
  intros Hok Hrest. induction Hok as [|seg segs Hok _ IH].
  - cbn. by destruct (scan rest None) as [[??]|].
  - destruct seg as [text|name]; simpl in Hok.
    + change (render_pattern (SLit text :: segs) +:+ rest)
        with (String "/" ((text +:+ render_pattern segs) +:+ rest)).
      rewrite append_assoc.
      cbn [scan]. change (Ascii.eqb "/" ":") with false. cbn match.
      change (tok_of_char "/") with (Some (TChar "/")). cbn match.
      rewrite (scan_literal _ _ Hok), IH, !prepend_prepend. done.
    + destruct Hok as [Hne Hname].
      change (render_pattern (SParam name :: segs) +:+ rest)
        with (String "/" (String ":" ((name +:+ render_pattern segs) +:+ rest))).
      rewrite append_assoc.
      cbn [scan]. change (Ascii.eqb "/" ":") with false. cbn match.
      change (tok_of_char "/") with (Some (TChar "/")). cbn match.
      change (Ascii.eqb ":" ":") with true. cbn match.
      rewrite (scan_name _ _ _ Hname). simpl (EmptyString +:+ name).
      rewrite (scan_close _ _ Hne (boundary_app segs rest Hrest)), IH, !prepend_prepend.
      done.
Qed.

Lemma greedy_star_exact k value rest :
  Shape.stops_at_slash k → has_char "/" value = false → at_boundary rest →
  greedy_star (λ a, negb (Ascii.eqb a "/")) k (value +:+ rest)
  = match k rest with Some caps => Some (value :: caps) | None => None end.
Proof.
  intros Hk Hv Hrest. induction value as [|a value IH]; simpl in *.
  - destruct Hrest as [->|[rest' ->]]; simpl; by destruct (k _).
  - apply orb_false_iff in Hv as [Ha Hv]. rewrite Ha. simpl.
    rewrite (IH Hv). destruct (k rest); [done|]. by rewrite (Hk _ _ Ha).
Qed.

Lemma greedy_plus_exact k value rest :
  Shape.stops_at_slash k → value ≠ EmptyString → has_char "/" value = false → at_boundary rest →
  greedy_plus (λ a, negb (Ascii.eqb a "/")) k (value +:+ rest)
  = match k rest with Some caps => Some (value :: caps) | None => None end.
Proof.
  intros Hk Hne Hv Hrest. destruct value as [|a value]; [done|]. simpl in *.
  apply orb_false_iff in Hv as [Ha Hv]. rewrite Ha. simpl.
  rewrite (greedy_star_exact k value rest Hk Hv Hrest). by destruct (k rest).
Qed.

Lemma rmatch_stops_at_slash segs ts :
  (ts = [] ∨ ∃ ts', ts = TChar "/" :: ts') →
  Shape.stops_at_slash (rmatch (compiled segs ++ ts)).
Proof.
  intros Hts a s Ha. destruct segs as [|[t|n] segs]; cbn [compiled app rmatch].
  - destruct Hts as [->|[ts' ->]]; cbn [rmatch]; [done|]. by rewrite Ha.
  - by rewrite Ha.
  - by rewrite Ha.
Qed.

Lemma rmatch_segments_then segs values ts rest :
  Forall2 segment_fits segs values → at_boundary rest →
  (ts = [] ∨ ∃ ts', ts = TChar "/" :: ts') →
  rmatch (compiled segs ++ ts) (render_path values +:+ rest)
  = match rmatch ts rest with
    | Some caps => Some (param_values segs values ++ caps)
    | None => None
    end.
Proof.
  intros Hfit Hrest Hts. induction Hfit as [|seg value segs values Hfit _ IH].
  - cbn. by destruct (rmatch ts rest).
  - assert (Hb : at_boundary (render_path values +:+ rest)).
    { destruct values; [done|right; by eexists]. }
    destruct seg as [text|name]; simpl in Hfit.
    + subst value.
      change (render_path (text :: values) +:+ rest)
        with (String "/" ((text +:+ render_path values) +:+ rest)).
      rewrite append_assoc. cbn [compiled app rmatch]. rewrite Ascii.eqb_refl.
      rewrite <- app_assoc, rmatch_literal, IH. done.
    + destruct Hfit as [Hne Hv].
      change (render_path (value :: values) +:+ rest)
        with (String "/" ((value +:+ render_path values) +:+ rest)).
      rewrite append_assoc. cbn [compiled app rmatch]. rewrite Ascii.eqb_refl.
      rewrite (greedy_plus_exact _ _ _ (rmatch_stops_at_slash segs ts Hts) Hne Hv Hb), IH.
      by destruct (rmatch ts rest).
Qed.

Lemma greedy_star_all ok rest :
  all_chars ok rest = true → greedy_star ok (rmatch []) rest = Some [rest].
Proof.
  induction rest as [|a rest IH]; [done|]. cbn [all_chars greedy_star].
  intros H. apply andb_true_iff in H as [Ha Hr]. by rewrite Ha, (IH Hr).
Qed.

End WildcardFacts.

(** X15. A route whose path ends in [/*] matches every path that continues
    its segments with a slash: for a pattern of literal and [:name]
    segments followed by [/*], a request path that fits the segments and
    goes on with [/] and any rest is matched, the captures being the
    parameter values in order followed by the whole rest (which may be
    empty and may hold slashes); the path that stops before that slash is
    not matched. The star adds no parameter name. *)
Theorem wildcard_route_captures_rest (segs : list Spec.Segment) (values : list string)
    (rest : string)
    (Hok : Forall Spec.segment_ok segs)
    (Hfit : Forall2 Spec.segment_fits segs values)
    (Hrest : Spec.all_chars (λ a, negb (Routing.is_line_terminator a)) rest = true) :
  Routing.pathToRegex (Spec.render_pattern segs +:+ "/*")
  = Some (Spec.compiled segs ++ [Routing.TChar "/"; Routing.TWild], Spec.declared_names segs)
  ∧ Routing.rmatch (Spec.compiled segs ++ [Routing.TChar "/"; Routing.TWild])
                   (Spec.render_path values +:+ "/" +:+ rest)
    = Some (Spec.param_values segs values ++ [rest])
  ∧ Routing.rmatch (Spec.compiled segs ++ [Routing.TChar "/"; Routing.TWild])
                   (Spec.render_path values)
    = None.
Proof.
  repeat apply conj.
  - unfold Routing.pathToRegex.
    assert (Str.startsWith (Spec.render_pattern segs +:+ "/*") "/" = true) as ->.
    { destruct segs as [|[t|n] segs]; reflexivity. }
    assert (Spec.render_pattern segs +:+ "/*"
            = (Spec.render_pattern segs +:+ "/") +:+ "*") as ->.
    { by rewrite append_assoc. }
    rewrite endsWithChar_snoc, dropLast_snoc.
    rewrite (scan_render_pattern_then segs "/" Hok) by (right; by eexists).
    cbn. by rewrite <- app_assoc, app_nil_r.
  - rewrite (rmatch_segments_then segs values _ ("/" +:+ rest) Hfit)
      by first [right; by eexists].
    assert (Routing.rmatch [Routing.TChar "/"; Routing.TWild] ("/" +:+ rest) = Some [rest])
      as ->; [|done].
    change (Routing.rmatch [Routing.TChar "/"; Routing.TWild] ("/" +:+ rest))
      with (Routing.greedy_star (λ a, negb (Routing.is_line_terminator a))
                                (Routing.rmatch []) rest).
    by apply greedy_star_all.
  - rewrite <- (append_empty_r (Spec.render_path values)).
    rewrite (rmatch_segments_then segs values _ EmptyString Hfit)
      by first [by left | right; by eexists].
    done.
Qed.

Lemma wildcard_route_captures_rest_witness :
  Routing.rmatch (Spec.compiled [Spec.SLit "static"] ++ [Routing.TChar "/"; Routing.TWild])
                 (Spec.render_path ["static"] +:+ "/" +:+ "css/site.css")
  = Some (Spec.param_values [Spec.SLit "static"] ["static"] ++ ["css/site.css"]).
Proof.
  exact (proj1 (proj2 (wildcard_route_captures_rest [Spec.SLit "static"] ["static"]
                         "css/site.css"
                         ltac:(repeat constructor)
                         ltac:(repeat constructor)
                         eq_refl))).
Defined.

Section ThroughFacts.
Import Js Platform Pipeline Adapter Shape.

Variable I : World → Prop.
Hypothesis I_open : ∀ w, I w → open w.

Lemma phase_keeps (ev : nat → Event) (hooks : list FastifyHook) :
  Forall (hook_keeps I) hooks →
  ∀ (i : nat) (st : St), I (world st) →
  ∃ w, I w
       ∧ ∀ rest, execute_phase ev i (hooks ++ rest) st
                 = execute_phase ev (i + length hooks) rest
                     {| world := w; trace := trace st ++ map ev (seq i (length hooks)) |}.
Proof.
  induction 1 as [|hook hooks Hhook _ IH]; intros i st Hst.
  - exists (world st). split; [done|]. intros rest. cbn [app length seq map].
    rewrite Nat.add_0_r, app_nil_r. by destruct st.
  - destruct (Hhook _ Hst) as (Hset & Herr & Hinv).
    set (st1 := {| world := fst (hook (world st)); trace := trace st ++ [ev i] |}).
    destruct (IH (S i) st1 Hinv) as (w & Hw & Hrun).
    exists w. split; [done|]. intros rest.
    cbn [app execute_phase]. unfold mbind at 1. unfold M_bind at 1. unfold bind at 1.
    rewrite (executeHook_settled _ _ _ Hset). rewrite Herr.
    unfold mbind at 1. unfold M_bind at 1. unfold bind at 1. unfold get_world at 1.
    cbn [world]. destruct (I_open _ Hinv) as [Hsent _]. unfold unsent in Hsent.
    rewrite Hsent.
    fold st1. rewrite Hrun. cbn [length]. rewrite Nat.add_succ_r. cbn [Nat.add].
    rewrite map_seq_snoc. subst st1. cbn [trace]. by rewrite <- app_assoc.
Qed.

Lemma phase_keeps_all (ev : nat → Event) (hooks : list FastifyHook) (st : St) :
  Forall (hook_keeps I) hooks → I (world st) →
  ∃ w, I w
       ∧ execute_phase ev 0 hooks st
         = (Val JUndefined,
            {| world := w; trace := trace st ++ map ev (seq 0 (length hooks)) |}).
Proof.
  intros Hall Hst. destruct (phase_keeps ev hooks Hall 0 st Hst) as (w & Hw & Hrun).
  exists w. split; [done|]. specialize (Hrun []). rewrite app_nil_r in Hrun.
  by rewrite Hrun.
Qed.

(** One middleware in scope that returns without an error. *)
Lemma chain_step (g : Registry) (i : nat) (mw : MiddlewareEntry)
    (rest : list MiddlewareEntry) (q : string) (st : St) :
  in_scope_of g q mw = true →
  (∃ v, completion (snd (mw_handler mw (world st))) = CReturn v
        ∨ completion (snd (mw_handler mw (world st))) = CResolve v) →
  truthy (nextError (calls (snd (mw_handler mw (world st))))) = false →
  executeMiddlewareChain_from g i (mw :: rest) q st
  = let st1 := {| world := fst (mw_handler mw (world st));
                  trace := trace st ++ [EvMiddleware i] |} in
    if (Express._ended (res (world st1))
        || negb (nextCalled (calls (snd (mw_handler mw (world st))))))%bool
    then (Val {| error := JUndefined; completed := true |}, st1)
    else executeMiddlewareChain_from g (S i) rest q st1.
Proof.
  intros Hin [v Hv] Hne. cbn [executeMiddlewareChain_from].
  unfold in_scope_of in Hin. rewrite Hin. cbn [negb].
  unfold mbind at 1. unfold M_bind at 1. unfold bind at 1. unfold call at 1.
  destruct (mw_handler mw (world st)) as [w' sg]. cbn [fst snd] in *.
  cbv beta iota zeta.
  assert (Hrest : (if truthy (nextError (calls sg))
               then mret {| error := nextError (calls sg); completed := false |}
               else
                 w0 ← get_world;
                 if Express._ended (res w0)
                 then mret {| error := JUndefined; completed := true |}
                 else if negb (nextCalled (calls sg))
                      then mret {| error := JUndefined; completed := true |}
                      else executeMiddlewareChain_from g (S i) rest q)
                {| world := w'; trace := trace st ++ [EvMiddleware i] |}
              = (if (Express._ended (res w') || negb (nextCalled (calls sg)))%bool
                 then (Val {| error := JUndefined; completed := true |},
                       {| world := w'; trace := trace st ++ [EvMiddleware i] |})
                 else executeMiddlewareChain_from g (S i) rest q
                        {| world := w'; trace := trace st ++ [EvMiddleware i] |})).
  { rewrite Hne. unfold mbind at 1. unfold M_bind at 1. unfold bind at 1.
    unfold get_world at 1. cbn [world].
    destruct (Express._ended (res w')); [done|]. cbn [orb].
    by destruct (negb (nextCalled (calls sg))). }
  cbn [world]. destruct Hv as [Hv|Hv]; rewrite Hv; exact Hrest.
Qed.

Lemma chain_keeps (g : Registry) (mws : list MiddlewareEntry) (q : string) :
  Forall (λ mw, in_scope_of g q mw = true → middleware_keeps I (mw_handler mw)) mws →
  ∀ (i : nat) (st : St), I (world st) →
  ∃ w, I w
       ∧ ∀ rest, executeMiddlewareChain_from g i (mws ++ rest) q st
                 = executeMiddlewareChain_from g (i + length mws) rest q
                     {| world := w;
                        trace := trace st ++ map EvMiddleware (scoped g i mws q) |}.
Proof.
  induction 1 as [|mw mws Hmw _ IH]; intros i st Hst.
  - exists (world st). split; [done|]. intros rest. cbn [app length scoped map].
    rewrite Nat.add_0_r, app_nil_r. by destruct st.
  - cbn [scoped length]. destruct (in_scope_of g q mw) eqn:Hin.
    + destruct (Hmw eq_refl _ Hst) as (Hv & Hnc & Hne & Hinv).
      destruct (IH (S i) {| world := fst (mw_handler mw (world st));
                            trace := trace st ++ [EvMiddleware i] |} Hinv)
        as (w & Hw & Hrun).
      exists w. split; [done|]. intros rest. cbn [app].
      rewrite (chain_step g i mw (mws ++ rest) q st Hin Hv Hne). cbv zeta.
      cbn [world]. destruct (I_open _ Hinv) as [_ Hended]. rewrite Hended, Hnc.
      cbn [orb negb]. rewrite Hrun. cbn [trace]. rewrite Nat.add_succ_r.
      cbn [Nat.add map]. by rewrite <- app_assoc.
    + destruct (IH (S i) st Hst) as (w & Hw & Hrun).
      exists w. split; [done|]. intros rest. cbn [app executeMiddlewareChain_from].
      unfold in_scope_of in Hin. rewrite Hin. cbn [negb]. rewrite Hrun.
      rewrite Nat.add_succ_r. done.
Qed.

(** When every phase before the handler keeps [I], the dispatcher reaches
    the handler (or the not-found branch) with [I] intact. *)
Lemma dispatch_through (g : Registry) (matched : option Route) (pathname : string) (st : St) :
  lets_pass I g pathname → I (world st) →
  ∃ w, I w
       ∧ dispatch g matched pathname st
         = try_catch
             (match matched with
              | Some matchedRoute => run_route g matchedRoute pathname
              | None =>
                  match notFoundHandler g with
                  | Some h =>
                      sg ← call EvNotFound h;
                      _ ← await (completion sg);
                      build_res
                  | None => mret (json_Response 404 (JStr "Not Found"))
                  end
              end)
             (top_level_catch g)
             {| world := w; trace := trace st ++ before_handler g pathname |}.
Proof.
  intros (H1 & H2 & H3) Hst.
  destruct (phase_keeps_all EvOnRequest _ st H1 Hst) as (w1 & Hw1 & E1).
  set (s1 := {| world := w1;
                trace := trace st ++ map EvOnRequest
                           (seq 0 (length (onRequestHooks (fastifyHooks g)))) |}) in *.
  destruct (chain_keeps g _ pathname H2 0 s1 Hw1) as (w2 & Hw2 & E2).
  specialize (E2 []). rewrite app_nil_r in E2. cbn [executeMiddlewareChain_from] in E2.
  set (s2 := {| world := w2;
                trace := trace s1 ++ map EvMiddleware (scoped g 0 (middlewares g) pathname) |})
    in *.
  destruct (phase_keeps_all EvPreHandler _ s2 H3 Hw2) as (w3 & Hw3 & E3).
  exists w3. split; [done|].
  destruct (I_open _ Hw1) as [Hs1 _]. destruct (I_open _ Hw2) as [_ He2].
  destruct (I_open _ Hw3) as [Hs3 _]. unfold unsent in *.
  unfold dispatch, try_catch.
  unfold mbind at 1. unfold M_bind at 1. unfold bind at 1.
  unfold executeOnRequest. rewrite E1. cbn [truthy].
  unfold mbind at 1. unfold M_bind at 1. unfold bind at 1. unfold get_world at 1.
  change (world s1) with w1. rewrite Hs1.
  unfold mbind at 1. unfold M_bind at 1. unfold bind at 1.
  unfold executeMiddlewareChain. rewrite E2.
  unfold mret at 1. unfold M_ret at 1. unfold ret at 1. cbn [error completed truthy].
  unfold mbind at 1. unfold M_bind at 1. unfold bind at 1. unfold get_world at 1.
  change (world s2) with w2. cbn [orb]. rewrite He2.
  unfold mbind at 1. unfold M_bind at 1. unfold bind at 1.
  unfold executePreHandler. rewrite E3. cbn [truthy].
  unfold mbind at 1. unfold M_bind at 1. unfold bind at 1. unfold get_world at 1.
  cbn [world]. rewrite Hs3.
  unfold before_handler. subst s2 s1. cbn [trace]. by rewrite <- !app_assoc.
Qed.

End ThroughFacts.

Section HandlerFacts.
Import Js Platform Pipeline Adapter Shape.

Lemma initial_state_open (g : Registry) (bunRequest : BunRequest) (requestId : string) :
  open (world (initial_state g bunRequest requestId)).
Proof. split; reflexivity. Qed.


Lemma await_value (c : Completion) (v : JsValue) :
  c = CReturn v ∨ c = CResolve v → await c = ret v.
Proof. by intros [-> | ->]. Qed.


(** A handler that returns a [Response]. *)
Lemma run_route_response (g : Registry) (route : Route) (pathname : string) (st : St)
    (v : JsValue) (response : Response) :
  (completion (snd (handler route (world st))) = CReturn v
   ∨ completion (snd (handler route (world st))) = CResolve v) →
  truthy (nextError (calls (snd (handler route (world st))))) = false →
  Express._ended (res (fst (handler route (world st)))) = false →
  Response_of_value v = Some response →
  Forall always_settles (onResponseHooks (fastifyHooks g)) →
  ∃ w,
    run_route g route pathname st
    = (Val response,
       {| world := w;
          trace := trace st ++ [EvHandler]
                   ++ map EvOnResponse
                        (seq 0 (length (onResponseHooks (fastifyHooks g)))) |}).
Proof.
  intros Hc Hne Hopen Hresp Hsettle.
  destruct (handler route (world st)) as [w1 sg] eqn:Hcall. cbn [fst snd] in *.
  destruct (onResponse_runs_all _ Hsettle 0
              {| world := w1; trace := trace st ++ [EvHandler] |}) as (w & Hw).
  exists w.
  assert (Hv : nullish v = false) by by destruct v.
  unfold run_route, try_catch.
  unfold mbind at 1. unfold M_bind at 1. unfold bind at 1. unfold call at 1.
  rewrite Hcall. cbv beta iota zeta.
  unfold mbind at 1. unfold M_bind at 1. unfold bind at 1.
  rewrite (await_value _ _ Hc). unfold ret at 1. rewrite Hne.
  unfold mbind at 1. unfold M_bind at 1. unfold bind at 1. unfold get_world at 1.
  cbn [world]. rewrite Hopen, Hv, Hresp. cbn [negb andb].
  unfold mbind at 1. unfold M_bind at 1. unfold bind at 1.
  unfold executeOnResponse. rewrite Hw.
  unfold mret, M_ret, ret. cbn [trace]. by rewrite <- !app_assoc.
Qed.


End HandlerFacts.





(** X19. A [Response] returned by the handler is the answer as it is: when
    the phases before the handler let the request pass and the matched
    handler returns a [Response] without ending the Express response, that
    object is returned, whatever was written on the Express response; no
    [onSend] hook is called, and the [onResponse] hooks run before the
    answer is given. *)
Theorem handler_response_returned_as_is (g : Adapter.Registry) (route : Adapter.Route)
    (captures : list string) (bunRequest : Platform.BunRequest) (requestId : string)
    (v : Js.JsValue) (response : Platform.Response)
    (Hpass : Shape.lets_pass Shape.open g (Platform.br_pathname bunRequest))
    (Hroute : Adapter.find_route (Adapter.routes g)
                (Str.toUpperCase (Platform.br_method bunRequest))
                (Platform.br_pathname bunRequest) = Some (route, captures))
    (Hret : Shape.returns_value Shape.open (Adapter.handler route) v)
    (Hresp : Platform.Response_of_value v = Some response)
    (Hsettle : Forall Shape.always_settles
                 (Pipeline.onResponseHooks (Adapter.fastifyHooks g))) :
  fst (Adapter.handleRequest g bunRequest requestId) = Pipeline.Val response
  ∧ Pipeline.trace (snd (Adapter.handleRequest g bunRequest requestId))
    = Shape.before_handler g (Platform.br_pathname bunRequest)
      ++ [Pipeline.EvHandler]
      ++ map Pipeline.EvOnResponse
           (seq 0 (length (Pipeline.onResponseHooks (Adapter.fastifyHooks g)))).
Proof.
  unfold Adapter.handleRequest. rewrite Hroute. cbn [fmap option_fmap option_map fst].
  destruct (dispatch_through Shape.open (λ w H, H) g (Some route)
              (Platform.br_pathname bunRequest)
              (Adapter.initial_state g bunRequest requestId) Hpass
              (initial_state_open g bunRequest requestId)) as (w & Hw & E).
  rewrite E. clear E.
  destruct (Hret w Hw) as (Hc & Hne & Hopen).
  destruct (run_route_response g route (Platform.br_pathname bunRequest)
              {| Pipeline.world := w;
                 Pipeline.trace :=
                   Pipeline.trace (Adapter.initial_state g bunRequest requestId)
                   ++ Shape.before_handler g (Platform.br_pathname bunRequest) |}
              v response Hc Hne Hopen Hresp Hsettle) as (w' & Hrun).
  unfold Pipeline.try_catch at 1. unfold Pipeline.try_catch at 1. rewrite Hrun.
  split; reflexivity.
Qed.

Lemma handler_response_returned_as_is_witness :
  fst (Adapter.handleRequest (Cases.only_route (Cases.plain_route "/raw" Cases.raw_handler))
         (Examples.get_request "/raw" EmptyString []) "req-1")
  = Pipeline.Val {| Platform.status := 202; Platform.statusText := EmptyString;
                    Platform.headers := [("content-type", "text/plain;charset=UTF-8")];
                    Platform.body := Js.JStr "raw" |}.
Proof.
  refine (proj1 (handler_response_returned_as_is
            (Cases.only_route (Cases.plain_route "/raw" Cases.raw_handler))
            (Cases.plain_route "/raw" Cases.raw_handler) []
            (Examples.get_request "/raw" EmptyString []) "req-1"
            (Js.JResponse 202 EmptyString [("content-type", "text/plain;charset=UTF-8")]
                          (Js.JStr "raw"))
            {| Platform.status := 202; Platform.statusText := EmptyString;
               Platform.headers := [("content-type", "text/plain;charset=UTF-8")];
               Platform.body := Js.JStr "raw" |}
            _ eq_refl _ eq_refl _)).
  - repeat split; constructor.
  - intros w [Hs He]. split; [left; reflexivity|]. split; [reflexivity|exact He].
  - constructor.
Defined.

Section AnswerFacts.
Import Js Platform Pipeline Adapter Shape.

Variable I : World → Prop.
Hypothesis I_open : ∀ w, I w → open w.


(** A middleware in scope answers, or returns without calling [next]. *)
Lemma dispatch_answered (g : Registry) (matched : option Route) (pathname : string)
    (st : St) (pre post : list MiddlewareEntry) (mw : MiddlewareEntry) :
  Forall (hook_keeps I) (onRequestHooks (fastifyHooks g)) →
  middlewares g = pre ++ mw :: post →
  Forall (λ m, in_scope_of g pathname m = true → middleware_keeps I (mw_handler m)) pre →
  in_scope_of g pathname mw = true → answers I (mw_handler mw) → I (world st) →
  ∃ w0, I w0
    ∧ dispatch g matched pathname st
      = (Val (fst (Express._buildResponse (res (fst (mw_handler mw w0))))),
         {| world := with_res (fst (mw_handler mw w0))
                       (snd (Express._buildResponse (res (fst (mw_handler mw w0)))));
            trace := trace st
                     ++ map EvOnRequest (seq 0 (length (onRequestHooks (fastifyHooks g))))
                     ++ map EvMiddleware (scoped g 0 pre pathname ++ [length pre]) |}).
Proof.
  intros Hhooks Hmws Hpre Hin Hans Hst.
  destruct (phase_keeps_all I I_open EvOnRequest _ st Hhooks Hst) as (w1 & Hw1 & E1).
  destruct (chain_keeps I I_open g pre pathname Hpre 0
              {| world := w1;
                 trace := trace st ++ map EvOnRequest
                            (seq 0 (length (onRequestHooks (fastifyHooks g)))) |} Hw1)
    as (w0 & Hw0 & E2).
  exists w0. split; [done|].
  destruct (Hans _ Hw0) as (Hv & Hne & Hdone).
  specialize (E2 (mw :: post)). cbn [trace] in E2.
  rewrite (chain_step g (0 + length pre) mw post pathname
             {| world := w0;
                trace := (trace st ++ map EvOnRequest
                            (seq 0 (length (onRequestHooks (fastifyHooks g)))))
                         ++ map EvMiddleware (scoped g 0 pre pathname) |} Hin Hv Hne) in E2.
  cbv zeta in E2. cbn [world trace] in E2.
  assert (Hcond : (Express._ended (res (fst (mw_handler mw w0)))
                   || negb (nextCalled (calls (snd (mw_handler mw w0)))))%bool = true).
  { destruct Hdone as [-> | ->]; [done|]. by rewrite orb_true_r. }
  rewrite Hcond in E2.
  destruct (I_open _ Hw1) as [Hs1 _]. unfold unsent in Hs1.
  unfold dispatch, try_catch.
  unfold mbind at 1. unfold M_bind at 1. unfold bind at 1.
  unfold executeOnRequest. rewrite E1. cbn [truthy].
  unfold mbind at 1. unfold M_bind at 1. unfold bind at 1. unfold get_world at 1.
  cbn [world]. rewrite Hs1.
  unfold mbind at 1. unfold M_bind at 1. unfold bind at 1.
  unfold executeMiddlewareChain. rewrite Hmws, E2. cbn [error completed truthy].
  unfold mbind at 1. unfold M_bind at 1. unfold bind at 1. unfold get_world at 1.
  cbn [orb]. unfold build_res. cbn [world trace].
  destruct (Express._buildResponse (res (fst (mw_handler mw w0)))).
  cbn [fst snd]. rewrite map_app, <- !app_assoc. done.
Qed.

End AnswerFacts.







Section CorsFacts.
Import Js Platform Pipeline Adapter AdapterMore.

Ltac header_step :=
  rewrite h_get_set;
  first [ rewrite decide_False by (let Hx := fresh in intros Hx; vm_compute in Hx;
                                   discriminate Hx)
        | rewrite decide_True by reflexivity ].

Ltac has_step :=
  rewrite h_has_set;
  first [ rewrite decide_False by (let Hx := fresh in intros Hx; vm_compute in Hx;
                                   discriminate Hx)
        | rewrite decide_True by reflexivity ].

Lemma cors_headers_origin (options : CorsOptions) (requestOrigin : string)
    (r : Express.ExpressResponse) :
  Express.get "Access-Control-Allow-Origin" (cors_headers options requestOrigin r)
  = Some (normalize (allowOrigin (default (OriginString "*") (origin options))
                                 requestOrigin)).
Proof.
  unfold cors_headers, Express.get, Express.set. cbv zeta.
  destruct (Str.eqb (joined (default (One EmptyString) (exposedHeaders options)))
                    EmptyString),
           (default false (credentials options));
    cbn [Express.res_headers Express.with_headers]; repeat header_step; done.
Qed.

Lemma cors_headers_location (options : CorsOptions) (requestOrigin : string)
    (r : Express.ExpressResponse) :
  h_has (Express.res_headers (cors_headers options requestOrigin r)) "Location"
  = h_has (Express.res_headers r) "Location".
Proof.
  unfold cors_headers, Express.set. cbv zeta.
  destruct (Str.eqb (joined (default (One EmptyString) (exposedHeaders options)))
                    EmptyString),
           (default false (credentials options));
    cbn [Express.res_headers Express.with_headers]; repeat has_step; done.
Qed.

Lemma cors_headers_keeps (options : CorsOptions) (requestOrigin : string)
    (r : Express.ExpressResponse) :
  Express._ended (cors_headers options requestOrigin r) = Express._ended r
  ∧ Express.statusCode (cors_headers options requestOrigin r) = Express.statusCode r
  ∧ Express.res_body (cors_headers options requestOrigin r) = Express.res_body r
  ∧ Express.statusMessage (cors_headers options requestOrigin r) = Express.statusMessage r.
Proof.
  unfold cors_headers, Express.set. cbv zeta.
  by destruct (Str.eqb (joined (default (One EmptyString) (exposedHeaders options)))
                       EmptyString),
              (default false (credentials options)).
Qed.

End CorsFacts.

(** X23. The middleware of [enableCors] answers a preflight itself: with
    no global prefix, no [onRequest] hook and the CORS middleware registered
    first, an [OPTIONS] request to any path (whether a route matches or not)
    is answered with the configured status (204 by default) and no body,
    carrying [Access-Control-Allow-Origin]; only that middleware is called.
    For every other method the middleware writes the same header, leaves
    the response open and calls [next()]. The allowed origin is the
    configured string ([*] by default), the request origin when the option
    is [true] or a list holding it, and the first entry of the list
    otherwise, without the white space at its ends. This is for a status
    that the platform takes for a response without a body, and for
    configured values that [Headers] accepts; otherwise the middleware or
    the builder throws. *)
Theorem cors_preflight_is_answered (g : Adapter.Registry) (options : AdapterMore.CorsOptions)
    (post : list Adapter.MiddlewareEntry) (bunRequest : Platform.BunRequest)
    (requestId : string)
    (Hprefix : Adapter.globalPrefix g = EmptyString)
    (Hhooks : Pipeline.onRequestHooks (Adapter.fastifyHooks g) = [])
    (Hmws : Adapter.middlewares g
            = {| Adapter.mw_path := "/";
                 Adapter.mw_handler := AdapterMore.cors_middleware options |} :: post)
    (Hmethod : Platform.br_method bunRequest = "OPTIONS")
    (Hcontinue : default false (AdapterMore.preflightContinue options) = false)
    (Hstatus : Platform.Response_init_ok Js.JNull
                 (default 204 (AdapterMore.optionsSuccessStatus options)) "OK" = true)
    (Hvalues : Shape.cors_values_ok options
                 (default EmptyString
                    (Platform.h_get (Platform.br_headers bunRequest) "origin")) = true) :
  let allowed :=
    AdapterMore.allowOrigin
      (default (AdapterMore.OriginString "*") (AdapterMore.origin options))
      (default EmptyString (Platform.h_get (Platform.br_headers bunRequest) "origin")) in
  (∃ response,
     fst (Adapter.handleRequest g bunRequest requestId) = Pipeline.Val response
     ∧ Platform.status response = default 204 (AdapterMore.optionsSuccessStatus options)
     ∧ Platform.body response = Js.JNull
     ∧ Platform.h_get (Platform.headers response) "Access-Control-Allow-Origin"
       = Some (Platform.normalize allowed)
     ∧ Pipeline.trace (snd (Adapter.handleRequest g bunRequest requestId))
       = [Pipeline.EvMiddleware 0])
  ∧ (∀ w, Express.method (Pipeline.req w) ≠ "OPTIONS" →
       Shape.cors_values_ok options
         (default EmptyString (ExpressMore.get (Express.raw (Pipeline.req w)) "origin"))
       = true →
       snd (AdapterMore.cors_middleware options w)
       = Pipeline.mkSignal [Js.JUndefined] (Pipeline.CReturn Js.JUndefined)
       ∧ Express._ended (Pipeline.res (fst (AdapterMore.cors_middleware options w)))
         = Express._ended (Pipeline.res w)
       ∧ is_Some (Express.get "Access-Control-Allow-Origin"
                    (Pipeline.res (fst (AdapterMore.cors_middleware options w))))).
Proof.
  intros allowed. split.
  - set (st := Adapter.initial_state g bunRequest requestId).
    destruct (dispatch_answered (λ w, w = Pipeline.world st)
                (λ w H, eq_ind_r Shape.open (initial_state_open g bunRequest requestId) H)
                g
                (fst <$> Adapter.find_route (Adapter.routes g)
                           (Str.toUpperCase (Platform.br_method bunRequest))
                           (Platform.br_pathname bunRequest))
                (Platform.br_pathname bunRequest) st [] post
                {| Adapter.mw_path := "/";
                   Adapter.mw_handler := AdapterMore.cors_middleware options |})
      as (w0 & -> & E).
    + rewrite Hhooks. constructor.
    + exact Hmws.
    + constructor.
    + unfold Shape.in_scope_of. rewrite Hprefix. reflexivity.
    + intros w ->. unfold AdapterMore.cors_middleware. subst st.
      cbn [Adapter.mw_handler Pipeline.world Adapter.initial_state Pipeline.req
           Express.set_req_body Express.method Express.createExpressRequest].
      rewrite Hmethod, Hcontinue. cbn [Str.eqb]. rewrite eqb_refl.
      cbn [fst snd Pipeline.calls Pipeline.completion Pipeline.nextError foldl
           Js.truthy Pipeline.nextCalled Pipeline.res Pipeline.with_res].
      split; [eexists; left; reflexivity|]. split; [reflexivity|]. by left.
    + reflexivity.
    + unfold Adapter.handleRequest. fold st. rewrite E. clear E.
      rewrite Hhooks. cbn [fst snd Pipeline.trace length seq map app].
      eexists. split; [reflexivity|].
      unfold AdapterMore.cors_middleware. subst st.
      cbn [Adapter.mw_handler Pipeline.world Adapter.initial_state Pipeline.req
           Express.set_req_body Express.method Express.createExpressRequest Express.raw].
      rewrite Hmethod, Hcontinue. rewrite eqb_refl.
      cbn [fst Pipeline.res Pipeline.with_res].
      set (r := AdapterMore.cors_headers options _ Express.createExpressResponse).
      destruct (cors_headers_keeps options
                  (default EmptyString
                     (ExpressMore.get bunRequest "origin"))
                  Express.createExpressResponse) as (_ & _ & Hbody & _).
      fold r in Hbody.
      pose proof (cors_headers_location options
                    (default EmptyString (ExpressMore.get bunRequest "origin"))
                    Express.createExpressResponse) as Hloc.
      fold r in Hloc. cbn [Express.createExpressResponse Express.res_headers
                           Platform.h_has existsb] in Hloc.
      unfold Express._buildResponse, Express.end_, Express.status.
      cbn [Js.is_undefined Express.mark_ended Express.with_status Express.res_headers
           Express.statusCode Express.res_body Express.statusMessage].
      rewrite Hloc. cbn [andb].
      rewrite Hbody. cbn [fst Express.createExpressResponse Express.res_body
                          Express.response_body Js.nullish Platform.new_Response
                          Platform.status Platform.body Platform.headers Js.is_string andb].
      repeat apply conj; try reflexivity.
      subst r. apply cors_headers_origin.
  - intros w Hm _. apply eqb_false in Hm.
    unfold AdapterMore.cors_middleware. rewrite Hm.
    cbn [fst snd Pipeline.res Pipeline.with_res].
    destruct (cors_headers_keeps options
                (default EmptyString (ExpressMore.get (Express.raw (Pipeline.req w)) "origin"))
                (Pipeline.res w)) as (He & _).
    repeat apply conj; [reflexivity|exact He|].
    rewrite cors_headers_origin. by eexists.
Qed.

Lemma cors_preflight_is_answered_witness :
  ∃ response,
    fst (Adapter.handleRequest
           (AdapterMore.enableCors None
              (Cases.only_route (Cases.plain_route "/hi" Cases.greeting_handler)))
           Cases.preflight_request "req-1")
    = Pipeline.Val response
    ∧ Platform.status response = 204
    ∧ Platform.h_get (Platform.headers response) "Access-Control-Allow-Origin" = Some "*".
Proof.
  destruct (proj1 (cors_preflight_is_answered
                     (AdapterMore.enableCors None
                        (Cases.only_route (Cases.plain_route "/hi" Cases.greeting_handler)))
                     AdapterMore.no_options [] Cases.preflight_request "req-1"
                     eq_refl eq_refl eq_refl eq_refl eq_refl eq_refl eq_refl))
    as (response & H1 & H2 & _ & H4 & _).
  exists response. split; [exact H1|]. split; [exact H2|exact H4].
Defined.

Section UseFacts.
Import Adapter AdapterMore Shape.

Lemma foldl_push (path : string) (args : list UseArg) (g : Registry) :
  middlewares (foldl (push path) g args) = middlewares g ++ plain_entries path args
  ∧ errorMiddlewares (foldl (push path) g args)
    = errorMiddlewares g ++ error_entries path args
  ∧ routes (foldl (push path) g args) = routes g
  ∧ fastifyHooks (foldl (push path) g args) = fastifyHooks g
  ∧ globalPrefix (foldl (push path) g args) = globalPrefix g.
Proof.
  revert g. induction args as [|arg args IH]; intros g; cbn [foldl].
  - unfold plain_entries, error_entries. cbn [omap list_omap]. by rewrite !app_nil_r.
  - destruct (IH (push path g arg)) as (H1 & H2 & H3 & H4 & H5).
    rewrite H1, H2, H3, H4, H5. unfold plain_entries, error_entries.
    destruct arg; cbn [push omap list_omap Adapter.use use_error middlewares
                       errorMiddlewares routes fastifyHooks globalPrefix];
      by rewrite <- ?app_assoc.
Qed.

End UseFacts.

(** X24. [use(...)] files each function by its number of declared
    parameters: a function of four parameters becomes an error middleware,
    any other function a middleware, both under the given path or under
    ["/"], in the order of the arguments; routes, hooks and the global
    prefix are untouched. After a path only functions count: [use(path)]
    alone and [use(path, [fn1, fn2])] with an array register nothing,
    whereas [use([fn1, fn2])] registers the functions of the array. *)
Theorem use_files_by_arity (g : Adapter.Registry) (path : string)
    (first : AdapterMore.UseArg) (rest items : list AdapterMore.UseArg) :
  let g' := AdapterMore.use (AdapterMore.AString path :: first :: rest) g in
  Adapter.middlewares g'
    = Adapter.middlewares g ++ Shape.plain_entries path (first :: rest)
  ∧ Adapter.errorMiddlewares g'
    = Adapter.errorMiddlewares g ++ Shape.error_entries path (first :: rest)
  ∧ Adapter.routes g' = Adapter.routes g
  ∧ Adapter.fastifyHooks g' = Adapter.fastifyHooks g
  ∧ AdapterMore.use [AdapterMore.AString path] g = g
  ∧ AdapterMore.use [AdapterMore.AString path; AdapterMore.AArray items] g = g
  ∧ Adapter.middlewares (AdapterMore.use [AdapterMore.AArray items] g)
    = Adapter.middlewares g ++ Shape.plain_entries "/" items
  ∧ Adapter.errorMiddlewares (AdapterMore.use [AdapterMore.AArray items] g)
    = Adapter.errorMiddlewares g ++ Shape.error_entries "/" items.
Proof.
  intros g'. subst g'. cbn [AdapterMore.use AdapterMore.is_function].
  destruct (foldl_push path (first :: rest) g) as (H1 & H2 & H3 & H4 & _).
  destruct (foldl_push "/" items g) as (H5 & H6 & _).
  repeat apply conj; try done.
Qed.

Section WrapFacts.
Import Js Platform Pipeline Adapter AdapterMore.

Lemma set_all_keeps (fields : list (string * string)) (r : Express.ExpressResponse) :
  Express.statusCode (Express.set_all fields r) = Express.statusCode r
  ∧ Express._ended (Express.set_all fields r) = Express._ended r
  ∧ Express.res_body (Express.set_all fields r) = Express.res_body r.
Proof.
  unfold Express.set_all. revert r. induction fields as [|kv fields IH]; intros r; [done|].
  cbn [foldl]. destruct (IH (Express.set (fst kv) (snd kv) r)) as (-> & -> & ->). done.
Qed.

Lemma build_keeps_reply (p : Fastify.FastifyReply) :
  Fastify.statusCode (snd (Fastify._buildResponse p)) = Fastify.statusCode p
  ∧ Fastify._body (snd (Fastify._buildResponse p)) = Fastify._body p.
Proof.
  unfold Fastify._buildResponse.
  destruct (_ && _ && _)%bool; [done|].
  destruct (nullish (Fastify.reply_body p)); [done|].
  destruct (Fastify.serializer p); [done|].
  destruct (is_string (Fastify.reply_body p)); [done|].
  destruct (is_bytes (Fastify.reply_body p)); [done|].
  by destruct (is_stream (Fastify.reply_body p) || is_blob (Fastify.reply_body p))%bool.
Qed.

End WrapFacts.

(** X25. What [wrapFastifyHandler] makes of a Fastify route handler. The
    handler gets a reply of its own. When it throws, or its promise
    rejects, the error goes to [next] and the wrapper itself returns
    normally. When it has sent its reply, and the platform takes what the
    reply builds, the status of the reply is copied to the Express
    response, which is ended, with the payload of the reply as its body
    when that is a string; the wrapper returns nothing. When it has not
    sent, its return value is handed on as the value of the handler. The
    decorators registered are taken to go by no name of a member of the
    views. *)
Theorem wrapped_fastify_handler (g : Adapter.Registry) (requestId : string)
    (handler : AdapterMore.FastifyRouteHandler) (w w' : Pipeline.World)
    (reply' : Fastify.FastifyReply) (c : Pipeline.Completion)
    (Hreqfree : Shape.free_of Fastify.request_members (Adapter.requestDecorators g))
    (Hrepfree : Shape.free_of Fastify.reply_members (Adapter.replyDecorators g))
    (Hcall : handler
               (Adapter.applyRequestDecorators g
                  (Fastify.set_req_body
                     (Fastify.createFastifyRequest (Express.raw (Pipeline.req w))
                        (Express.params (Pipeline.req w)) requestId)
                     (Express.body (Pipeline.req w))))
               (Adapter.applyReplyDecorators g Fastify.createFastifyReply) w
             = (w', reply', c)) :
  let wrapped := AdapterMore.wrapFastifyHandler g requestId handler in
  (∀ e, c = Pipeline.CThrow e ∨ c = Pipeline.CReject e →
     wrapped w = (w', Pipeline.mkSignal [e] (Pipeline.CResolve Js.JUndefined)))
  ∧ (∀ v, c = Pipeline.CReturn v ∨ c = Pipeline.CResolve v →
       Fastify.sent reply' = false →
       wrapped w = (w', Pipeline.mkSignal [] (Pipeline.CResolve v)))
  ∧ (∀ v, c = Pipeline.CReturn v ∨ c = Pipeline.CResolve v →
       Fastify.sent reply' = true →
       Fastify.buildable reply' = true →
       snd (wrapped w) = Pipeline.mkSignal [] (Pipeline.CResolve Js.JUndefined)
       ∧ Express._ended (Pipeline.res (fst (wrapped w))) = true
       ∧ Express.statusCode (Pipeline.res (fst (wrapped w))) = Fastify.statusCode reply'
       ∧ (Js.is_string (Fastify._body reply') = true →
          Express._body (Pipeline.res (fst (wrapped w))) = Fastify._body reply')).
Proof.
  intros wrapped. subst wrapped. unfold AdapterMore.wrapFastifyHandler. rewrite Hcall.
  repeat apply conj.
  - by intros e [-> | ->].
  - by intros v [-> | ->] ->.
  - intros v Hc Hsent _.
    assert (Hgoal :
      let '(builtResponse, reply'') := Fastify._buildResponse reply' in
      let r1 := Express.status (Fastify.statusCode reply'') (Pipeline.res w') in
      let r2 := AdapterMore.copy_headers builtResponse r1 in
      let r3 := if Js.nullish (Fastify._body reply'') then Express.end_ Js.JUndefined r2
                else Express.send (Fastify._body reply'') r2 in
      Express._ended r3 = true
      ∧ Express.statusCode r3 = Fastify.statusCode reply'
      ∧ (Js.is_string (Fastify._body reply') = true →
         Express._body r3 = Fastify._body reply')).
    { destruct (build_keeps_reply reply') as (Hst & Hb).
      destruct (Fastify._buildResponse reply') as [built reply'']. cbn [snd] in Hst, Hb.
      cbv zeta. rewrite Hst, Hb.
      destruct (set_all_keeps (Platform.h_entries (Platform.headers built))
                  (Express.status (Fastify.statusCode reply') (Pipeline.res w')))
        as (Hs & _ & _).
      unfold AdapterMore.copy_headers.
      destruct (Js.nullish (Fastify._body reply')) eqn:En.
      - repeat apply conj; [done|exact Hs|].
        intros Hstr. by destruct (Fastify._body reply').
      - repeat apply conj.
        + done.
        + unfold Express.send.
          destruct (Js.is_string (Fastify._body reply')),
                   (Js.isBuffer (Fastify._body reply')),
                   (Js.typeof_object (Fastify._body reply'));
            unfold Express.default_type;
            try destruct (Platform.h_has _ "Content-Type"); exact Hs.
        + intros Hstr. unfold Express.send. rewrite Hstr. unfold Express.default_type.
          by destruct (Platform.h_has _ "Content-Type"). }
    destruct (Fastify._buildResponse reply') as [built reply''].
    cbv zeta in Hgoal. destruct Hgoal as (H1 & H2 & H3).
    destruct Hc as [-> | ->]; rewrite Hsent; cbn [fst snd Pipeline.res Pipeline.with_res];
      repeat apply conj; done.
Qed.

Lemma wrapped_fastify_handler_witness :
  Express.statusCode
    (Pipeline.res (fst (AdapterMore.wrapFastifyHandler Adapter.empty_registry "req-2"
                          Cases.creating_handler
                          (Pipeline.world Examples.start_state))))
  = 201.
Proof.
  exact (proj1 (proj2 (proj2 (proj2 (proj2
           (wrapped_fastify_handler Adapter.empty_registry "req-2" Cases.creating_handler
              (Pipeline.world Examples.start_state) _ _ _
              (Forall_nil_2 _) (Forall_nil_2 _) eq_refl))
           Js.JUndefined (or_intror eq_refl) eq_refl eq_refl)))).
Defined.

(** X26. How [reply(response, body, statusCode)] writes a body on the
    Express response: the response is always ended; a status other than 0
    is applied; [null] and [undefined] leave the body alone; an object that
    is neither a byte array nor a stream is written as JSON with the type
    [application/json]. A [Buffer] keeps its bytes, but a plain
    [Uint8Array] does not: it is handed to [res.send], which writes any
    object that is not a [Buffer] as JSON. On a native [Response] the
    helper hands the given status (200 by default) to a new response that
    keeps the headers of the old one and adds a [Content-Type] only when
    none is set; the platform takes it for a status in 200..599 that goes
    with the body. *)
Theorem reply_writes_body (r : Express.ExpressResponse) (response : Platform.Response)
    (body : Js.JsValue) (statusCode : option Z) (bytes : string) :
  Express._ended (AdapterMore.reply_express r body statusCode) = true
  ∧ (∀ c, statusCode = Some c → c ≠ 0 →
       Express.statusCode (AdapterMore.reply_express r body statusCode) = c)
  ∧ (Js.nullish body = true →
     Express._body (AdapterMore.reply_express r body statusCode) = Express._body r)
  ∧ (Js.nullish body = false → Js.typeof_object body = true → Js.is_bytes body = false →
     Js.is_stream body = false →
     Express._body (AdapterMore.reply_express r body statusCode) = Js.JSON_stringify body
     ∧ Express.get "Content-Type" (AdapterMore.reply_express r body statusCode)
       = Some "application/json")
  ∧ Express._body (AdapterMore.reply_express r (Js.JBuffer bytes) statusCode)
    = Js.JBuffer bytes
  ∧ Express._body (AdapterMore.reply_express r (Js.JUint8Array bytes) statusCode)
    = Js.JSON_stringify (Js.JUint8Array bytes)
  ∧ Express.get "Content-Type"
      (AdapterMore.reply_express r (Js.JUint8Array bytes) statusCode)
    = Some "application/json"
  ∧ (Platform.Response_init_ok
       (Platform.body (AdapterMore.reply_native response body statusCode))
       (default 200 statusCode) EmptyString = true →
     Platform.status (AdapterMore.reply_native response body statusCode)
     = default 200 statusCode
     ∧ (200 <= Platform.status (AdapterMore.reply_native response body statusCode) <= 599)
     ∧ (∀ existing,
          Platform.h_get (Platform.headers response) "Content-Type" = Some existing →
          Platform.headers (AdapterMore.reply_native response body statusCode)
          = Platform.headers response)
     ∧ (Platform.h_has (Platform.headers response) "Content-Type" = false →
        Js.is_string body = true →
        Platform.h_get (Platform.headers (AdapterMore.reply_native response body statusCode))
                       "Content-Type" = Some "text/plain")).
Proof.
  set (r1 := match statusCode with
             | Some c => if c =? 0 then r else Express.status c r
             | None => r
             end).
  assert (Hjson : ∀ b x, Express.get "Content-Type" (Express.json b x)
                         = Some "application/json").
  { intros b x. unfold Express.get, Express.json.
    cbn [Express.res_headers Express.mark_ended Express.with_body Express.with_headers].
    by rewrite h_get_set, decide_True. }
  assert (Hstatus : Platform.status (AdapterMore.reply_native response body statusCode)
                    = default 200 statusCode).
  { unfold AdapterMore.reply_native.
    destruct (Js.nullish body); [done|]. destruct (Js.is_string body); [done|].
    destruct (Js.is_bytes body); [done|]. by destruct (Js.is_stream body). }
  unfold AdapterMore.reply_express. fold r1. repeat apply conj.
  - destruct (Js.nullish body); [done|].
    by destruct (Js.typeof_object body && negb (Js.is_bytes body)
                 && negb (Js.is_stream body))%bool.
  - intros c -> Hc. subst r1. apply Z.eqb_neq in Hc. rewrite Hc.
    destruct (Js.nullish body); [done|].
    destruct (Js.typeof_object body && negb (Js.is_bytes body)
              && negb (Js.is_stream body))%bool; [done|].
    unfold Express.send.
    destruct (Js.is_string body), (Js.isBuffer body), (Js.typeof_object body);
      unfold Express.default_type;
      try destruct (Platform.h_has _ "Content-Type"); reflexivity.
  - intros ->. subst r1. cbn. destruct statusCode as [c|]; [|done].
    by destruct (c =? 0).
  - intros -> -> -> ->. cbn [negb andb]. split; [done|]. apply Hjson.
  - done.
  - done.
  - cbn [Js.nullish Js.typeof_object Js.is_bytes Js.is_stream negb andb].
    unfold Express.send, Express.get.
    cbn [Js.is_string Js.isBuffer Js.typeof_object Express.mark_ended Express.with_body
         Express.with_headers Express.res_headers].
    by rewrite h_get_set, decide_True.
  - intros Hok. split; [|split; [|split]].
    + exact Hstatus.
    + rewrite Hstatus. unfold Platform.Response_init_ok in Hok.
      repeat (apply andb_true_iff in Hok as [Hok ?]). lia.
    + intros existing Hct.
      assert (Hhas : Platform.h_has (Platform.headers response) "Content-Type" = true).
      { apply h_has_get. rewrite Hct. by eexists. }
      unfold AdapterMore.reply_native, AdapterMore.default_header, Platform.new_Response.
      rewrite Hhas.
      destruct (Js.nullish body); [done|].
      destruct (Js.is_string body); [done|].
      destruct (Js.is_bytes body); [done|]. by destruct (Js.is_stream body).
    + intros Hnone Hstr.
      unfold AdapterMore.reply_native, AdapterMore.default_header, Platform.new_Response.
      rewrite Hnone, Hstr.
      destruct (Js.nullish body) eqn:En; [by destruct body|].
      cbn [Platform.headers]. by rewrite h_get_set, decide_True.
Qed.

Lemma reply_writes_body_witness :
  Express.statusCode
    (AdapterMore.reply_express Express.createExpressResponse (Js.JStr "made") (Some 201))
  = 201.
Proof.
  exact (proj1 (proj2 (reply_writes_body Express.createExpressResponse
                         (Platform.new_Response Js.JNull 200 EmptyString [])
                         (Js.JStr "made") (Some 201) EmptyString))
           201 eq_refl ltac:(discriminate)).
Defined.

(** X27. The helpers on a native [Response] give a new response that
    differs from the old one in the named part only. For a name and a value
    that [Headers] accepts, [setHeader] makes [getHeader] read the value,
    without the white space at its ends, under any spelling of the name and
    leaves the other headers, the status and the body alone; [appendHeader]
    adds the value after those already there; for a status that the
    platform takes, [status] changes the status and nothing else;
    [isHeadersSent] is always [false]. The old response is one that the
    platform takes when built anew. *)
Theorem native_helpers_change_one_part (response : Platform.Response)
    (name name' value : string) (statusCode : Z)
    (Hname : Platform.accepts_header name value = true)
    (Hname' : Platform.is_token name' = true)
    (Hold : Platform.Response_init_ok (Platform.body response) (Platform.status response)
              (Platform.statusText response) = true)
    (Hnew : Platform.Response_init_ok (Platform.body response) statusCode
              (Platform.statusText response) = true) :
  AdapterMore.getHeader (AdapterMore.setHeader response name value) name'
  = (if decide (Str.toLowerCase name = Str.toLowerCase name')
     then Some (Platform.normalize value)
     else AdapterMore.getHeader response name')
  ∧ AdapterMore.getHeader (AdapterMore.appendHeader response name value) name'
    = (if decide (Str.toLowerCase name = Str.toLowerCase name')
       then Some (match AdapterMore.getHeader response name' with
                  | Some existing => existing +:+ ", " +:+ Platform.normalize value
                  | None => Platform.normalize value
                  end)
       else AdapterMore.getHeader response name')
  ∧ Platform.status (AdapterMore.setHeader response name value) = Platform.status response
  ∧ Platform.body (AdapterMore.setHeader response name value) = Platform.body response
  ∧ Platform.status (AdapterMore.appendHeader response name value)
    = Platform.status response
  ∧ Platform.body (AdapterMore.appendHeader response name value) = Platform.body response
  ∧ AdapterMore.status response statusCode
    = {| Platform.status := statusCode; Platform.statusText := Platform.statusText response;
         Platform.headers := Platform.headers response;
         Platform.body := Platform.body response |}
  ∧ AdapterMore.getHeader (AdapterMore.status response statusCode) name'
    = AdapterMore.getHeader response name'
  ∧ AdapterMore.isHeadersSent (AdapterMore.setHeader response name value) = false.
Proof.
  unfold AdapterMore.getHeader, AdapterMore.setHeader, AdapterMore.appendHeader,
    AdapterMore.status, AdapterMore.rebuild, Platform.new_Response.
  cbn [Platform.headers Platform.status Platform.body].
  repeat apply conj; try reflexivity.
  - apply h_get_set.
  - apply h_get_append.
Qed.

Lemma native_helpers_change_one_part_witness :
  AdapterMore.getHeader
    (AdapterMore.setHeader (Platform.new_Response (Js.JStr "ok") 200 EmptyString [])
                           "X-Trace" " 1 ")
    "x-trace"
  = Some "1"
  ∧ Platform.status
      (AdapterMore.status (Platform.new_Response (Js.JStr "ok") 200 EmptyString []) 404)
    = 404.
Proof.
  pose proof (native_helpers_change_one_part
                (Platform.new_Response (Js.JStr "ok") 200 EmptyString [])
                "X-Trace" "x-trace" " 1 " 404 eq_refl eq_refl eq_refl eq_refl)
    as (H1 & _ & _ & _ & _ & _ & H7 & _).
  split; [exact H1|]. by rewrite H7.
Defined.

Section ServerFacts.
Import Server.

Lemma run_snoc (ops : list Step) (op : Step) : run (ops ++ [op]) = step (run ops) op.
Proof. unfold run. by rewrite foldl_app. Qed.

Lemma run_invariant (ops : list Step) :
  listening (run ops) = bool_decide (is_Some (_server (run ops)))
  ∧ emitted (run ops) = map Shape.event_of ops.
Proof.
  induction ops as [|op ops IH] using rev_ind; [done|].
  rewrite run_snoc, map_app. destruct IH as [IH1 IH2].
  destruct op as [s|]; cbn [step set_server close map Shape.event_of].
  - cbn [listening _server emitted]. by rewrite IH2.
  - unfold close. destruct (_server (run ops)) eqn:E; cbn [listening _server emitted].
    + by rewrite IH2.
    + by rewrite IH1, IH2.
Qed.

End ServerFacts.

(** X28. The server wrapper through any sequence of [listen] and [close]:
    [listening] is [true] exactly when the wrapper holds a server, which is
    exactly when [address()] answers; every step emits one event, in order
    ([listening] for a server assigned, [close] for a close, also when
    nothing was open); [close] stops the server held and a second [close]
    stops nothing; a server assigned over another one replaces it without
    stopping it. *)
Theorem server_wrapper_tracks_listening (ops : list Server.Step) (s1 s2 : Server.BunServer) :
  (Server.listening (Server.run ops) = true ↔ is_Some (Server._server (Server.run ops)))
  ∧ (is_Some (Server.address (Server.run ops)) ↔ Server.listening (Server.run ops) = true)
  ∧ Server.emitted (Server.run ops) = map Shape.event_of ops
  ∧ Server.listening (Server.run (ops ++ [Server.Close])) = false
  ∧ Server.stopped (Server.run (ops ++ [Server.Close; Server.Close]))
    = Server.stopped (Server.run (ops ++ [Server.Close]))
  ∧ Server.stopped (Server.run (ops ++ [Server.Listen s1; Server.Listen s2]))
    = Server.stopped (Server.run ops)
  ∧ Server._server (Server.run (ops ++ [Server.Listen s1; Server.Listen s2])) = Some s2
  ∧ Server.stopped (Server.run (ops ++ [Server.Listen s1; Server.Close]))
    = Server.stopped (Server.run ops) ++ [s1].
Proof.
  destruct (run_invariant ops) as [H1 H2].
  assert (Hstep2 : ∀ a b, Server.run (ops ++ [a; b])
                          = Server.step (Server.step (Server.run ops) a) b).
  { intros a b. change [a; b] with ([a] ++ [b]). by rewrite app_assoc, !run_snoc. }
  assert (Hl : Server.listening (Server.run ops) = true
               ↔ is_Some (Server._server (Server.run ops))).
  { rewrite H1. apply bool_decide_eq_true. }
  split; [exact Hl|]. split.
  { rewrite Hl. unfold Server.address.
    destruct (Server._server (Server.run ops)).
    - split; intros _; by eexists.
    - split; intros [x Hx]; discriminate Hx. }
  repeat apply conj.
  - exact H2.
  - rewrite run_snoc. cbn [Server.step]. unfold Server.close.
    destruct (Server._server (Server.run ops)) eqn:E; cbn [Server.listening]; [done|].
    by rewrite H1.
  - rewrite Hstep2, run_snoc. cbn [Server.step]. unfold Server.close.
    by destruct (Server._server (Server.run ops)) eqn:E; cbn; rewrite ?E.
  - rewrite Hstep2. reflexivity.
  - rewrite Hstep2. reflexivity.
  - rewrite Hstep2. reflexivity.
Qed.

Section MiddlewareErrorFacts.
Import Js Platform Pipeline Adapter Shape.

(** One middleware in scope that fails. *)
Lemma chain_fail_step (g : Registry) (i : nat) (mw : MiddlewareEntry)
    (rest : list MiddlewareEntry) (q : string) (st : St) (e : JsValue) :
  in_scope_of g q mw = true → truthy e = true →
  (completion (snd (mw_handler mw (world st))) = CThrow e
   ∨ completion (snd (mw_handler mw (world st))) = CReject e
   ∨ ((∃ v, completion (snd (mw_handler mw (world st))) = CReturn v
            ∨ completion (snd (mw_handler mw (world st))) = CResolve v)
      ∧ nextError (calls (snd (mw_handler mw (world st)))) = e)) →
  executeMiddlewareChain_from g i (mw :: rest) q st
  = (Val {| error := e; completed := false |},
     {| world := fst (mw_handler mw (world st)); trace := trace st ++ [EvMiddleware i] |}).
Proof.
  intros Hin He Hfail. cbn [executeMiddlewareChain_from].
  unfold in_scope_of in Hin. rewrite Hin. cbn [negb].
  unfold mbind at 1. unfold M_bind at 1. unfold bind at 1. unfold call at 1.
  destruct (mw_handler mw (world st)) as [w' sg]. cbn [fst snd] in *.
  cbv beta iota zeta.
  destruct Hfail as [-> | [-> | [[v [-> | ->]] Hn]]]; try reflexivity;
    rewrite Hn, He; reflexivity.
Qed.

Lemma dispatch_middleware_error (g : Registry) (matched : option Route) (pathname : string)
    (st : St) (pre post : list MiddlewareEntry) (mw : MiddlewareEntry) (e : JsValue) :
  Forall (hook_keeps open) (onRequestHooks (fastifyHooks g)) →
  middlewares g = pre ++ mw :: post →
  Forall (λ m, in_scope_of g pathname m = true → middleware_keeps open (mw_handler m)) pre →
  in_scope_of g pathname mw = true → fails open (mw_handler mw) e → truthy e = true →
  errorMiddlewares g = [] → errorHandler g = None → open (world st) →
  ∃ w0, open w0
    ∧ dispatch g matched pathname st
      = (_ ← res_500 (message_or "Internal Server Error" e); build_res)
          {| world := fst (mw_handler mw w0);
             trace := trace st
                      ++ map EvOnRequest (seq 0 (length (onRequestHooks (fastifyHooks g))))
                      ++ map EvMiddleware (scoped g 0 pre pathname ++ [length pre]) |}.
Proof.
  intros Hhooks Hmws Hpre Hin Hfail He Hem Hh Hst.
  destruct (phase_keeps_all open (λ w H, H) EvOnRequest _ st Hhooks Hst) as (w1 & Hw1 & E1).
  destruct (chain_keeps open (λ w H, H) g pre pathname Hpre 0
              {| world := w1;
                 trace := trace st ++ map EvOnRequest
                            (seq 0 (length (onRequestHooks (fastifyHooks g)))) |} Hw1)
    as (w0 & Hw0 & E2).
  exists w0. split; [done|].
  specialize (E2 (mw :: post)). cbn [trace] in E2.
  rewrite (chain_fail_step g (0 + length pre) mw post pathname
             {| world := w0;
                trace := (trace st ++ map EvOnRequest
                            (seq 0 (length (onRequestHooks (fastifyHooks g)))))
                         ++ map EvMiddleware (scoped g 0 pre pathname) |} e Hin He
             (Hfail w0 Hw0)) in E2.
  cbn [world trace] in E2.
  assert (Htr : ((trace st ++ map EvOnRequest
                    (seq 0 (length (onRequestHooks (fastifyHooks g)))))
                 ++ map EvMiddleware (scoped g 0 pre pathname))
                ++ [EvMiddleware (0 + length pre)]
                = trace st
                  ++ map EvOnRequest (seq 0 (length (onRequestHooks (fastifyHooks g))))
                  ++ map EvMiddleware (scoped g 0 pre pathname ++ [length pre])).
  { rewrite map_app, <- !app_assoc. done. }
  rewrite Htr in E2. clear Htr.
  destruct Hw1 as [Hs1 _]. unfold unsent in Hs1.
  destruct (default_500_response e
              {| world := fst (mw_handler mw w0);
                 trace := trace st
                   ++ map EvOnRequest (seq 0 (length (onRequestHooks (fastifyHooks g))))
                   ++ map EvMiddleware (scoped g 0 pre pathname ++ [length pre]) |})
    as (a & s & Hres & _).
  rewrite Hres.
  unfold dispatch, try_catch.
  unfold mbind at 1. unfold M_bind at 1. unfold bind at 1.
  unfold executeOnRequest. rewrite E1. cbn [truthy].
  unfold mbind at 1. unfold M_bind at 1. unfold bind at 1. unfold get_world at 1.
  cbn [world]. rewrite Hs1.
  unfold mbind at 1. unfold M_bind at 1. unfold bind at 1.
  unfold executeMiddlewareChain. rewrite Hmws, E2. cbn [error]. rewrite He.
  unfold mbind at 1. unfold M_bind at 1. unfold bind at 1.
  unfold executeErrorMiddlewareChain. rewrite Hem. cbn [executeErrorMiddlewareChain_from].
  unfold mret at 1. unfold M_ret at 1. unfold ret at 1. cbn [negb]. rewrite Hh.
  rewrite Hres. done.
Qed.

End MiddlewareErrorFacts.

(** X29. An error from a middleware does not reach the [onError] hooks:
    when a middleware in scope throws, rejects or passes a truthy error to
    [next], no error middleware is registered and no error handler is set,
    the answer is the default JSON response of status 500 carrying the
    message of the error ([Internal Server Error] when the value is not an
    [Error]); the middleware after it, the hooks of the later phases, the
    route handler and the [onError] hooks, whichever are registered, are
    not called. *)
Theorem middleware_error_gets_default_500 (g : Adapter.Registry)
    (bunRequest : Platform.BunRequest) (requestId : string)
    (pre post : list Adapter.MiddlewareEntry) (mw : Adapter.MiddlewareEntry) (e : Js.JsValue)
    (Hhooks : Forall (Shape.hook_keeps Shape.open)
                (Pipeline.onRequestHooks (Adapter.fastifyHooks g)))
    (Hmws : Adapter.middlewares g = pre ++ mw :: post)
    (Hpre : Forall (λ m, Shape.in_scope_of g (Platform.br_pathname bunRequest) m = true →
                         Shape.middleware_keeps Shape.open (Adapter.mw_handler m)) pre)
    (Hin : Shape.in_scope_of g (Platform.br_pathname bunRequest) mw = true)
    (Hfail : Shape.fails Shape.open (Adapter.mw_handler mw) e)
    (He : Js.truthy e = true)
    (Hem : Adapter.errorMiddlewares g = [])
    (Hh : Adapter.errorHandler g = None) :
  ∃ response,
    fst (Adapter.handleRequest g bunRequest requestId) = Pipeline.Val response
    ∧ Platform.status response = 500
    ∧ Platform.body response
      = Js.JSON_stringify
          (Js.JObj [("statusCode", Js.JNum 500);
                    ("message", Js.message_or "Internal Server Error" e)])
    ∧ Pipeline.trace (snd (Adapter.handleRequest g bunRequest requestId))
      = map Pipeline.EvOnRequest
            (seq 0 (length (Pipeline.onRequestHooks (Adapter.fastifyHooks g))))
        ++ map Pipeline.EvMiddleware
             (Shape.scoped g 0 pre (Platform.br_pathname bunRequest) ++ [length pre]).
Proof.
  unfold Adapter.handleRequest.
  destruct (dispatch_middleware_error g
              (fst <$> Adapter.find_route (Adapter.routes g)
                         (Str.toUpperCase (Platform.br_method bunRequest))
                         (Platform.br_pathname bunRequest))
              (Platform.br_pathname bunRequest)
              (Adapter.initial_state g bunRequest requestId) pre post mw e
              Hhooks Hmws Hpre Hin Hfail He Hem Hh
              (initial_state_open g bunRequest requestId))
    as (w0 & Hw0 & E).
  rewrite E. clear E.
  cbn [Pipeline.trace Adapter.initial_state app].
  match goal with
  | |- context [(_ ← Adapter.res_500 _; Adapter.build_res) ?s] =>
      destruct (default_500_response e s) as (response & st' & Hrun & Hstatus & Hbody);
      pose proof (f_equal (λ x, Pipeline.trace (snd x))
                    (eq_refl ((_ ← Adapter.res_500 (Js.message_or "Internal Server Error" e);
                               Adapter.build_res) s))) as Htrace
  end.
  rewrite Hrun in Htrace at 1. cbn [snd] in Htrace. rewrite Hrun.
  exists response. cbn [fst snd]. repeat apply conj; try done.
  rewrite Htrace. unfold Adapter.res_500, Adapter.build_res.
  unfold mbind, Pipeline.M_bind, Pipeline.bind, Pipeline.modify_res.
  cbn [Pipeline.world Pipeline.trace].
  by destruct (Express._buildResponse _).
Qed.

Lemma middleware_error_gets_default_500_witness :
  ∃ response,
    fst (Adapter.handleRequest
           (Adapter.addHook_onError Cases.handling_onError_hook
              (Adapter.use "/" Cases.failing_middleware
                 (Cases.only_route (Cases.plain_route "/hi" Cases.greeting_handler))))
           (Examples.get_request "/hi" EmptyString []) "req-1")
    = Pipeline.Val response
    ∧ Platform.status response = 500.
Proof.
  destruct (middleware_error_gets_default_500
              (Adapter.addHook_onError Cases.handling_onError_hook
                 (Adapter.use "/" Cases.failing_middleware
                    (Cases.only_route (Cases.plain_route "/hi" Cases.greeting_handler))))
              (Examples.get_request "/hi" EmptyString []) "req-1"
              [] []
              {| Adapter.mw_path := "/"; Adapter.mw_handler := Cases.failing_middleware |}
              (Js.JError "denied"))
    as (response & H1 & H2 & _).
  - constructor.
  - reflexivity.
  - constructor.
  - reflexivity.
  - intros w Hw. right. right. split; [eexists; left; reflexivity|reflexivity].
  - reflexivity.
  - reflexivity.
  - reflexivity.
  - exists response. split; [exact H1|exact H2].
Defined.

(** X30. A serializer set with [reply.serializer(fn)] decides the body
    alone: for a reply that holds a body and is no redirect, the response
    is made of [fn(body)] as its text, whatever the type of the body, with
    the status and the headers of the reply as they are; no default
    [Content-Type] is written. Without the serializer the same reply,
    holding an object and no [Content-Type], is given the JSON type. This
    is for a reply that the platform builds. *)
Theorem serializer_decides_body (p : Fastify.FastifyReply) (fn : Js.JsValue → string)
    (Hbody : Js.nullish (Fastify.reply_body p) = false)
    (Hplain : (Platform.h_has (Fastify.reply_headers p) "Location"
               && (300 <=? Fastify.statusCode p) && (Fastify.statusCode p <? 400))%bool
              = false)
    (Hbuild : Fastify.buildable (Fastify.with_serializer p fn) = true) :
  let p' := Fastify.with_serializer p fn in
  Platform.body (fst (Fastify._buildResponse p')) = Js.JStr (fn (Fastify.reply_body p))
  ∧ Platform.status (fst (Fastify._buildResponse p')) = Fastify.statusCode p
  ∧ Fastify.reply_headers (snd (Fastify._buildResponse p')) = Fastify.reply_headers p
  ∧ Platform.headers (fst (Fastify._buildResponse p')) = Fastify.reply_headers p
  ∧ (200 <= Fastify.statusCode p <= 599)
  ∧ (Fastify.serializer p = None →
     Platform.h_has (Fastify.reply_headers p) "Content-Type" = false →
     Js.is_string (Fastify.reply_body p) = false →
     Js.is_bytes (Fastify.reply_body p) = false →
     (Js.is_stream (Fastify.reply_body p) || Js.is_blob (Fastify.reply_body p))%bool
     = false →
     Platform.h_get (Fastify.reply_headers (snd (Fastify._buildResponse p))) "Content-Type"
     = Some "application/json; charset=utf-8").
Proof.
  intros p'. subst p'.
  assert (Hrange : 200 <= Fastify.statusCode p <= 599).
  { unfold Fastify.buildable in Hbuild.
    cbn [Fastify.with_serializer Fastify.reply_headers Fastify.statusCode] in Hbuild.
    rewrite Hplain in Hbuild. unfold Platform.Response_init_ok in Hbuild.
    repeat (apply andb_true_iff in Hbuild as [Hbuild ?]). lia. }
  unfold Fastify._buildResponse.
  cbn [Fastify.with_serializer Fastify.reply_headers Fastify.statusCode Fastify.reply_body
       Fastify.serializer].
  rewrite Hplain, Hbody. cbn [fst snd Fastify.with_headers Fastify.reply_headers].
  split; [reflexivity|]. split; [reflexivity|]. split; [reflexivity|].
  split; [reflexivity|]. split; [exact Hrange|].
  intros -> Hct -> -> ->. unfold Fastify.default_type. rewrite Hct.
  cbn [snd Fastify.with_headers Fastify.reply_headers].
  by rewrite h_get_set, decide_True.
Qed.

Lemma serializer_decides_body_witness :
  Platform.body
    (fst (Fastify._buildResponse
            (Fastify.with_serializer
               (Fastify.send (Js.JObj [("ok", Js.JBool true)]) Fastify.createFastifyReply)
               (λ _, "serialized"))))
  = Js.JStr "serialized".
Proof.
  exact (proj1 (serializer_decides_body
                  (Fastify.send (Js.JObj [("ok", Js.JBool true)]) Fastify.createFastifyReply)
                  (λ _, "serialized") eq_refl eq_refl eq_refl)).
Defined.
